(** * June (OSAE): task orchestration and UI synchronisation

    A shallow embedding of the VS Code extension host code
    ([src/extension/src/extension.ts] and its venv-pinned revision
    [src/unnamed/part_000]) and of the webview reducer
    ([src/webview-ui/src/App.tsx] and its approval-gate revision
    [src/unnamed/part_003]), with the properties the specification
    states about them. *)

From Stdlib Require Import String Ascii List ZArith Bool Lia Arith.
From Stdlib Require Import DecimalString.
Import ListNotations.
Open Scope string_scope.

(** ** Strings as JavaScript uses them here *)

Module Str.

(** [String.prototype.toLowerCase], on the ASCII range.  The program
    lower-cases a string only to search it for the ASCII word "executor",
    and no character outside ASCII lower-cases to one of that word's
    letters; the case-insensitive regular expression of [osae.start] has
    ASCII alternatives only, which match ASCII letters only.  So the ASCII
    mapping decides the same searches. *)
Definition lower_ascii (c : ascii) : ascii :=
  let n := nat_of_ascii c in
  if ((65 <=? n) && (n <=? 90))%nat then ascii_of_nat (n + 32) else c.

Fixpoint toLowerCase (s : string) : string :=
  match s with
  | EmptyString => EmptyString
  | String c s' => String (lower_ascii c) (toLowerCase s')
  end.

(** [String.prototype.includes]: does [pat] occur in [s]? *)
Fixpoint includes (s pat : string) : bool :=
  if String.prefix pat s then true
  else match s with
       | EmptyString => false
       | String _ s' => includes s' pat
       end.

(** Two strings that differ at most in the case of their ASCII letters. *)
Fixpoint eq_ignore_case (a b : string) : Prop :=
  match a, b with
  | EmptyString, EmptyString => True
  | String c a', String d b' => lower_ascii c = lower_ascii d /\ eq_ignore_case a' b'
  | _, _ => False
  end.

(** [pat] occurs in [s] when case is ignored: some substring of [s]
    equals [pat] up to the case of its letters. *)
Definition contains_ignoring_case (s pat : string) : Prop :=
  exists pre mid post, s = pre ++ mid ++ post /\ eq_ignore_case mid pat.

End Str.

(** ** JavaScript values

    What crosses the process boundaries: parsed JSON bodies of the worker's
    HTTP API and the messages posted to the webview.  Numbers are carried
    as integers: the program only tests [typeof] on the numbers it
    receives and counts small step indices itself. *)

Module JS.

#[local] Set Warnings "-register-all".

Inductive value : Type :=
| VUndef
| VNull
| VBool (b : bool)
| VNum (n : Z)
| VStr (s : string)
| VArr (items : list value)
| VObj (props : list (string * value)).

(** [typeof v === 'string'], [typeof v === 'number'], [Array.isArray(v)]. *)
Definition typeof_string (v : value) : bool :=
  match v with VStr _ => true | _ => false end.

Definition typeof_number (v : value) : bool :=
  match v with VNum _ => true | _ => false end.

Definition isArray (v : value) : bool :=
  match v with VArr _ => true | _ => false end.

(** ToBoolean. *)
Definition truthy (v : value) : bool :=
  match v with
  | VUndef | VNull => false
  | VBool b => b
  | VNum n => negb (n =? 0)%Z
  | VStr s => negb (s =? "")
  | VArr _ | VObj _ => true
  end.

Definition nullish (v : value) : bool :=
  match v with VUndef | VNull => true | _ => false end.

(** [a ?? b] and [a || b]. *)
Definition coalesce (a b : value) : value := if nullish a then b else a.

Definition or_else (a b : value) : value := if truthy a then a else b.

(** The own property [k] of an object literal or parsed JSON object; the
    first binding of a key is the property. *)
Fixpoint lookup (k : string) (props : list (string * value)) : value :=
  match props with
  | [] => VUndef
  | (k', v) :: rest => if k =? k' then v else lookup k rest
  end.

(** [v.k] for a receiver that is not null or undefined.  The keys the
    program reads are fixed identifiers, none of them a member of a
    primitive's or an array's prototype, so anything but an object
    answers undefined. *)
Definition get (v : value) (k : string) : value :=
  match v with
  | VObj props => lookup k props
  | _ => VUndef
  end.

(** [v[i]] on an array. *)
Definition index (v : value) (i : nat) : value :=
  match v with
  | VArr items => nth i items VUndef
  | _ => VUndef
  end.

(** [v === 'lit']. *)
Definition is_string (v : value) (lit : string) : bool :=
  match v with VStr s => s =? lit | _ => false end.

(** Does the object carry the key at all? *)
Definition has_key (v : value) (k : string) : bool :=
  match v with
  | VObj props => existsb (fun kv => k =? fst kv) props
  | _ => false
  end.

(** A thrown value: an [Error] with its [name] and [message]. *)
Record error : Type := mkError { name : string; message : string }.

(** How a promise settles. *)
Inductive settled (A : Type) : Type :=
| Resolved (a : A)
| Rejected (e : error).
Arguments Resolved {A} a.
Arguments Rejected {A} e.

(** [String(err)] for an [Error]. *)
Definition String_of_error (e : error) : string :=
  if message e =? "" then name e
  else if name e =? "" then message e
  else name e ++ ": " ++ message e.

(** [(err && err.message) ? err.message : String(err)] *)
Definition message_or_string (e : error) : string :=
  if message e =? "" then String_of_error e else message e.

End JS.
Import JS.

(** ** The webview reducer of [src/webview-ui/src/App.tsx] *)

Module App.

(** [type WebviewData]; a field holds whatever value the reducer stored. *)
Record WebviewData : Type := mkWebviewData {
  prompt : value;
  plan : value;
  currentStepIndex : value;
  artifacts : value
}.

(** The initial [useState] value. *)
Definition initial : WebviewData :=
  {| prompt := VStr ""; plan := VArr []; currentStepIndex := VNum 0;
     artifacts := VArr [] |}.

(** [const raw = event.data ?? {}] and [const msg = raw.data ?? raw]. *)
Definition raw_of (event_data : value) : value := coalesce event_data (VObj []).

Definition msg_of (event_data : value) : value :=
  let raw := raw_of event_data in coalesce (get raw "data") raw.

(** The [message] event handler: [setData((prev) => ({...prev, ...}))]. *)
Definition handler (event_data : value) (prev : WebviewData) : WebviewData :=
  let raw := raw_of event_data in
  let msg := msg_of event_data in
  {| prompt :=
       if typeof_string (get msg "prompt") then get msg "prompt"
       else if typeof_string (get raw "prompt") then get raw "prompt"
       else prompt prev;
     plan :=
       if isArray (get msg "plan") then get msg "plan"
       else if isArray (get raw "plan") then get raw "plan"
       else plan prev;
     currentStepIndex :=
       if typeof_number (get msg "currentStepIndex") then get msg "currentStepIndex"
       else if typeof_number (get raw "currentStepIndex") then get raw "currentStepIndex"
       else currentStepIndex prev;
     artifacts :=
       if isArray (get msg "artifacts") then get msg "artifacts"
       else if isArray (get raw "artifacts") then get raw "artifacts"
       else artifacts prev |}.

(** The fields of the snapshot, to state properties once for all of them. *)
Inductive field : Type := Fprompt | Fplan | FcurrentStepIndex | Fartifacts.

Definition key (f : field) : string :=
  match f with
  | Fprompt => "prompt"
  | Fplan => "plan"
  | FcurrentStepIndex => "currentStepIndex"
  | Fartifacts => "artifacts"
  end.

(** The type test the reducer applies to a field's incoming value. *)
Definition well_typed (f : field) (v : value) : bool :=
  match f with
  | Fprompt => typeof_string v
  | Fplan | Fartifacts => isArray v
  | FcurrentStepIndex => typeof_number v
  end.

Definition proj (f : field) (d : WebviewData) : value :=
  match f with
  | Fprompt => prompt d
  | Fplan => plan d
  | FcurrentStepIndex => currentStepIndex d
  | Fartifacts => artifacts d
  end.

(** A snapshot whose fields all hold values of their declared types. *)
Definition valid (d : WebviewData) : Prop :=
  forall f, well_typed f (proj f d) = true.

End App.

(** ** The webview of [src/unnamed/part_003]: reducer, approval gate and
       approval handlers *)

Module AppApproval.

Record WebviewData : Type := mkWebviewData {
  prompt : value;
  plan : value;
  currentStepIndex : value;
  artifacts : value;
  next : value;
  taskId : value;
  proposedToolCall : value;
  thought_trace : value;
  active_model : value
}.

(** The initial [useState] value; keys it leaves out read as undefined. *)
Definition initial : WebviewData :=
  {| prompt := VStr ""; plan := VArr []; currentStepIndex := VNum 0;
     artifacts := VArr []; next := VUndef; taskId := VUndef;
     proposedToolCall := VUndef; thought_trace := VUndef;
     active_model := VUndef |}.

Definition raw_of (event_data : value) : value := coalesce event_data (VObj []).

Definition msg_of (event_data : value) : value :=
  let raw := raw_of event_data in coalesce (get raw "data") raw.

(** [Array.isArray(m.artifacts) && m.artifacts[0] &&
     typeof m.artifacts[0].call === 'string'] *)
Definition has_artifact_call (m : value) : bool :=
  isArray (get m "artifacts")
  && truthy (index (get m "artifacts") 0)
  && typeof_string (get (index (get m "artifacts") 0) "call").

Definition artifact_call (m : value) : value :=
  get (index (get m "artifacts") 0) "call".

(** The [message] event handler: [setData((prev) => ({...prev, ...}))]. *)
Definition handler (event_data : value) (prev : WebviewData) : WebviewData :=
  let raw := raw_of event_data in
  let msg := msg_of event_data in
  {| prompt :=
       if typeof_string (get msg "prompt") then get msg "prompt"
       else if typeof_string (get raw "prompt") then get raw "prompt"
       else prompt prev;
     plan :=
       if isArray (get msg "plan") then get msg "plan"
       else if isArray (get raw "plan") then get raw "plan"
       else plan prev;
     currentStepIndex :=
       if typeof_number (get msg "currentStepIndex") then get msg "currentStepIndex"
       else if typeof_number (get raw "currentStepIndex") then get raw "currentStepIndex"
       else currentStepIndex prev;
     artifacts :=
       if isArray (get msg "artifacts") then get msg "artifacts"
       else if isArray (get raw "artifacts") then get raw "artifacts"
       else artifacts prev;
     next :=
       if typeof_string (get msg "next") then get msg "next"
       else if typeof_string (get raw "next") then get raw "next"
       else next prev;
     taskId :=
       if typeof_string (get msg "taskId") then get msg "taskId"
       else if typeof_string (get raw "taskId") then get raw "taskId"
       else taskId prev;
     proposedToolCall :=
       if typeof_string (get msg "proposedToolCall") then get msg "proposedToolCall"
       else if typeof_string (get raw "proposedToolCall") then get raw "proposedToolCall"
       else if has_artifact_call msg then artifact_call msg
       else if has_artifact_call raw then artifact_call raw
       else proposedToolCall prev;
     thought_trace :=
       if typeof_string (get msg "thought_trace") then get msg "thought_trace"
       else if typeof_string (get raw "thought_trace") then get raw "thought_trace"
       else thought_trace prev;
     active_model :=
       if typeof_string (get msg "active_model") then get msg "active_model"
       else if typeof_string (get raw "active_model") then get raw "active_model"
       else active_model prev |}.

Inductive field : Type :=
| Fprompt | Fplan | FcurrentStepIndex | Fartifacts | Fnext | FtaskId
| FproposedToolCall | Fthought_trace | Factive_model.

Definition key (f : field) : string :=
  match f with
  | Fprompt => "prompt"
  | Fplan => "plan"
  | FcurrentStepIndex => "currentStepIndex"
  | Fartifacts => "artifacts"
  | Fnext => "next"
  | FtaskId => "taskId"
  | FproposedToolCall => "proposedToolCall"
  | Fthought_trace => "thought_trace"
  | Factive_model => "active_model"
  end.

Definition well_typed (f : field) (v : value) : bool :=
  match f with
  | Fplan | Fartifacts => isArray v
  | FcurrentStepIndex => typeof_number v
  | _ => typeof_string v
  end.

Definition proj (f : field) (d : WebviewData) : value :=
  match f with
  | Fprompt => prompt d
  | Fplan => plan d
  | FcurrentStepIndex => currentStepIndex d
  | Fartifacts => artifacts d
  | Fnext => next d
  | FtaskId => taskId d
  | FproposedToolCall => proposedToolCall d
  | Fthought_trace => thought_trace d
  | Factive_model => active_model d
  end.

(** A snapshot whose fields all hold values of their declared types, or
    nothing yet. *)
Definition valid (d : WebviewData) : Prop :=
  forall f, well_typed f (proj f d) = true \/ proj f d = VUndef.

(** The fallback the reducer has for [proposedToolCall] alone: the first
    artifact's [call] string, of the payload and then of the envelope. *)
Definition derived (f : field) (event_data : value) : option value :=
  match f with
  | FproposedToolCall =>
      if has_artifact_call (msg_of event_data)
      then Some (artifact_call (msg_of event_data))
      else if has_artifact_call (raw_of event_data)
      then Some (artifact_call (raw_of event_data))
      else None
  | _ => None
  end.

(** [isPausedForApproval(next)]. *)
Definition isPausedForApproval (next : value) : bool :=
  match next with
  | VStr s => Str.includes (Str.toLowerCase s) "executor"
  | _ => false
  end.

(** The approval card is rendered when [isPausedForApproval(data.next)]. *)
Definition gate_active (d : WebviewData) : bool := isPausedForApproval (next d).

(** The messages the approval handlers post with [window.postMessage]. *)
Definition approval_error (m : string) : value :=
  VObj [("type", VStr "approval:error"); ("data", VObj [("message", VStr m)])].

Definition approval_approved (taskId : value) : value :=
  VObj [("type", VStr "approval:approved"); ("data", VObj [("taskId", taskId)])].

Definition approval_rejected (taskId : value) (feedback : string) : value :=
  VObj [("type", VStr "approval:rejected");
        ("data", VObj [("taskId", taskId); ("feedback", VStr feedback)])].

(** What a handler did: the [POST /task/{id}/approve] it attempted, as
    task and body, and the messages it posted to the window. *)
Record submission : Type := mkSubmission {
  attempted : option (value * value);
  window_messages : list value
}.

(** [handleApprove()], with how [await fetch(...)] ends. *)
Definition handleApprove (data : WebviewData) (r : settled unit) : submission :=
  if negb (truthy (taskId data))
  then {| attempted := None;
          window_messages := [approval_error "taskId missing for approval"] |}
  else
    match r with
    | Resolved _ =>
        {| attempted := Some (taskId data, VObj [("approved", VBool true)]);
           window_messages := [approval_approved (taskId data)] |}
    | Rejected err =>
        {| attempted := Some (taskId data, VObj [("approved", VBool true)]);
           window_messages := [approval_error (String_of_error err)] |}
    end.

(** [handleReject(feedback)], with how [await fetch(...)] ends. *)
Definition handleReject (data : WebviewData) (feedback : string) (r : settled unit)
  : submission :=
  if negb (truthy (taskId data))
  then {| attempted := None;
          window_messages := [approval_error "taskId missing for rejection"] |}
  else
    match r with
    | Resolved _ =>
        {| attempted := Some (taskId data,
                              VObj [("approved", VBool false); ("feedback", VStr feedback)]);
           window_messages := [approval_rejected (taskId data) feedback] |}
    | Rejected err =>
        {| attempted := Some (taskId data,
                              VObj [("approved", VBool false); ("feedback", VStr feedback)]);
           window_messages := [approval_error (String_of_error err)] |}
    end.

(** The window's own [message] listener is [handler]: what the handlers
    post to the window comes back through the reducer. *)
Definition deliver (messages : list value) (data : WebviewData) : WebviewData :=
  fold_left (fun d m => handler m d) messages data.

(** The snapshot once a decision was submitted. *)
Definition after_approve (data : WebviewData) (r : settled unit) : WebviewData :=
  deliver (window_messages (handleApprove data r)) data.

Definition after_reject (data : WebviewData) (feedback : string) (r : settled unit)
  : WebviewData :=
  deliver (window_messages (handleReject data feedback r)) data.

End AppApproval.

(** ** The extension host: what both revisions of [extension.ts] share *)

Module Host.

(** What the code reads of a fetch [Response]: [ok], [status] and how
    [json()] settles. *)
Record response : Type := mkResponse {
  ok : bool;
  status : Z;
  json : settled value
}.

(** What [await fetchFn(...)] gives: a rejection, or a response that the
    code also tests for falsiness ([!res], [!r]). *)
Definition fetched : Type := settled (option response).

(** The requests the extension issues. *)
Inductive request : Type :=
| PostTask (body : value) (timeoutMs : Z)
| GetTask (taskId : value).

(** The child process handle ([ChildProcess]): its pid, whether it has
    exited, and what [kill()] throws when it throws. *)
Record process : Type := mkProcess {
  pid : option Z;
  exited : bool;
  kill_throws : option error
}.

(** The lines appended to the output channel, one constructor per
    [outputChannel.appendLine] of the source, with the values it
    interpolates. *)
Inductive log_line : Type :=
| LogActivating
| LogNoFetch                               (* fetch is not available; cannot start task. *)
| LogCreateFailed (status : option Z)      (* Failed to create task (status ...) *)
| LogNoTaskId                              (* POST /task did not return a task_id. *)
| LogStarted (taskId : value)              (* Started task: ... *)
| LogNoResponse (taskId : value)           (* No response polling task ... *)
| LogCompleted (taskId : value)            (* Task ... completed; stopping poll. *)
| LogPollError (taskId : value) (e : error)(* Error polling task ...: ... *)
| LogCreateError (e : error)               (* Error creating task: ... *)
| LogUnreachable                           (* Server unreachable - falling back to simulated task. *)
| LogNotFallingBack                        (* Server returned an error; not falling back to simulation. *)
| LogSimStart                              (* Starting simulated task for UI verification (fallback). *)
| LogSimProgress (simTaskId : string) (idx : Z)
| LogSimCompleted (simTaskId : string)
| LogDeactivating                          (* Deactivating extension; cleaning up resources. *)
| LogKilled (pid : option Z)               (* Killed Python process (PID ...). *)
| LogKillError (e : error)                 (* Error killing Python process: ... *)
| LogNoProcess                             (* No Python process to kill. *)
| LogVenvFound                             (* Found bundled venv Python at ... *)
| LogVenvMissing                           (* Bundled venv Python not found; running initial setup. *)
| LogRunningSetup
| LogSetupSpawnFailed (e : error)          (* Failed to spawn setup script: ... *)
| LogSetupCompleted
| LogSetupStillMissing                     (* Setup finished but venv python still missing at ... *)
| LogSetupExit (code : option Z)           (* Agent server setup failed with code ... *)
| LogSetupFailed (e : error)               (* Agent server setup failed: ... *)
| LogVenvUnusable (e : error)              (* venv Python executable not found or not usable at ... *)
| LogSpawned (pid : option Z)              (* Python FastAPI sidecar spawned using ... (PID ...). *)
| LogSpawnFailed (e : error)               (* Failed to spawn Python server: ... *)
| LogSidecarFailed (e : error).            (* Failed to start Python sidecar: ... *)

(** The callback of a [setInterval]: the poll loop of a task, or the
    simulated run with its counter [idx]. *)
Inductive callback : Type :=
| PollTask (currentTaskId : value)
| Simulated (simTaskId : string) (idx : Z).

(** A [setInterval] registration.  [panel] is the dashboard panel the
    callback closes over ([const panel = dashboardPanel!]); [live] is
    false once [clearInterval] ran on it; [inflight] counts the poll
    requests it issued that have not settled yet. *)
Record interval : Type := mkInterval {
  period : Z;
  panel : nat;
  body : callback;
  live : bool;
  inflight : nat
}.

(** The state the extension reads and writes: its module-level variables
    and what it has done to the host.  Dashboard panels are numbered by
    creation. *)
Record state : Type := mkState {
  pythonProcess : option process;         (* let pythonProcess *)
  dashboardPanel : option nat;            (* let dashboardPanel *)
  panels : nat;                           (* createWebviewPanel calls so far *)
  disposed : list nat;                    (* panels closed since *)
  outputChannel : list log_line;          (* lines appended, oldest first *)
  posted : list value;                    (* messages delivered to a webview, oldest first *)
  intervals : list interval;              (* setInterval handles, by creation *)
  fetches : list request;                 (* requests issued, oldest first *)
  errorMessages : list string;            (* vscode.window.showErrorMessage *)
  commands : list string;                 (* vscode.commands.registerCommand *)
  spawned : list process;                 (* child processes started by spawn() *)
  killed : list process                   (* processes kill() was called on *)
}.

Definition initial : state :=
  {| pythonProcess := None; dashboardPanel := None; panels := 0; disposed := [];
     outputChannel := []; posted := []; intervals := []; fetches := [];
     errorMessages := []; commands := []; spawned := []; killed := [] |}.

(** *** Statements: state passing with exceptions *)

Inductive outcome (A : Type) : Type :=
| Returned (a : A)
| Thrown (e : error).
Arguments Returned {A} a.
Arguments Thrown {A} e.

Definition M (A : Type) : Type := state -> outcome A * state.

Definition ret {A} (a : A) : M A := fun s => (Returned a, s).

Definition throw {A} (e : error) : M A := fun s => (Thrown e, s).

Definition bind {A B} (m : M A) (k : A -> M B) : M B :=
  fun s => match m s with
           | (Returned a, s') => k a s'
           | (Thrown e, s') => (Thrown e, s')
           end.

(** [try { m } catch (err) { h err }] *)
Definition try_catch {A} (m : M A) (h : error -> M A) : M A :=
  fun s => match m s with
           | (Returned a, s') => (Returned a, s')
           | (Thrown e, s') => h e s'
           end.

Definition exec {A} (m : M A) (s : state) : state := snd (m s).

Notation "x <- m ;; k" := (bind m (fun x => k))
  (at level 61, m at next level, right associativity).
Notation "m ;; k" := (bind m (fun _ => k))
  (at level 61, right associativity).

(** [await p] *)
Definition await {A} (p : settled A) : M A :=
  match p with
  | Resolved a => ret a
  | Rejected e => throw e
  end.

(** The [TypeError] of a property read on null or undefined, in the
    wording of V8. *)
Definition type_error (v : value) (k : string) : error :=
  {| name := "TypeError";
     message := "Cannot read properties of "
                ++ (match v with VNull => "null" | _ => "undefined" end)
                ++ " (reading '" ++ k ++ "')" |}.

(** [v.k], which throws on null and undefined. *)
Definition prop (v : value) (k : string) : M value :=
  if nullish v then throw (type_error v k) else ret (get v k).

(** Decimal rendering of an integer in a template string. *)
Definition decimal (z : Z) : string := NilZero.string_of_int (Z.to_int z).

(** [String(v)] for a value that [JSON.parse] produced, or [None] where
    the conversion throws a [TypeError].  An object converts through
    [toString]; every member of a parsed object is data, so an object
    that has a member of that name has no callable [toString] (and the
    inherited [valueOf] returns the object itself): the conversion
    throws.  An array joins the strings of its elements with commas,
    the empty string standing for null and undefined. *)
Fixpoint ToString (v : value) : option string :=
  match v with
  | VUndef => Some "undefined"
  | VNull => Some "null"
  | VBool b => Some (if b then "true" else "false")
  | VNum n => Some (decimal n)
  | VStr s => Some s
  | VArr items =>
      (fix join (items : list value) : option string :=
         match items with
         | [] => Some ""
         | x :: rest =>
             match (if nullish x then Some "" else ToString x), join rest with
             | Some a, Some b =>
                 Some (match rest with [] => a | _ :: _ => a ++ "," ++ b end)
             | _, _ => None
             end
         end) items
  | VObj props =>
      if existsb (fun kv => fst kv =? "toString") props then None
      else Some "[object Object]"
  end.

Definition has_text (v : value) : bool :=
  match ToString v with Some _ => true | None => false end.

Definition no_primitive : error :=
  {| name := "TypeError"; message := "Cannot convert object to primitive value" |}.

(** The conversion of [v] inside a template literal. *)
Definition interpolate (v : value) : M unit :=
  if has_text v then ret tt else throw no_primitive.

(** Strings are held as the UTF-8 bytes of the JavaScript string.  A
    surrogate that is not half of a pair, which [JSON.parse] accepts
    from an escape, is held as the three bytes of its code point: the
    byte ED followed by a byte from A0 up.  No other character has
    these two bytes. *)
Fixpoint lone_surrogate (s : string) : bool :=
  match s with
  | EmptyString => false
  | String a rest =>
      match rest with
      | EmptyString => false
      | String b _ =>
          ((nat_of_ascii a =? 237)%nat && (160 <=? nat_of_ascii b)%nat)
          || lone_surrogate rest
      end
  end.

Definition uri_malformed : error := {| name := "URIError"; message := "URI malformed" |}.

(** [encodeURIComponent(v)]: it converts [v] to a string and throws a
    [URIError] on a lone surrogate.  The requests keep the identifier
    itself, so the encoded text is not computed. *)
Definition encodeURIComponent (v : value) : M unit :=
  match ToString v with
  | None => throw no_primitive
  | Some text => if lone_surrogate text then throw uri_malformed else ret tt
  end.

Definition appendLine (l : log_line) : M unit := fun s =>
  (Returned tt,
   {| pythonProcess := pythonProcess s; dashboardPanel := dashboardPanel s;
      panels := panels s; disposed := disposed s;
      outputChannel := outputChannel s ++ [l]; posted := posted s;
      intervals := intervals s; fetches := fetches s;
      errorMessages := errorMessages s; commands := commands s;
      spawned := spawned s; killed := killed s |}).

(** The error of [panel.webview] on a panel that was closed. *)
Definition webview_disposed : error := {| name := "Error"; message := "Webview is disposed" |}.

Definition is_disposed (s : state) (p : nat) : bool := existsb (Nat.eqb p) (disposed s).

(** [panel.webview.postMessage(m)], where [panel] is the panel [p] that
    the caller captured: the getter [webview] throws once the panel is
    disposed. *)
Definition postMessage (p : nat) (m : value) : M unit := fun s =>
  if is_disposed s p then (Thrown webview_disposed, s)
  else
    (Returned tt,
     {| pythonProcess := pythonProcess s; dashboardPanel := dashboardPanel s;
        panels := panels s; disposed := disposed s;
        outputChannel := outputChannel s; posted := posted s ++ [m];
        intervals := intervals s; fetches := fetches s;
        errorMessages := errorMessages s; commands := commands s;
        spawned := spawned s; killed := killed s |}).

Definition set_intervals (ts : list interval) (s : state) : state :=
  {| pythonProcess := pythonProcess s; dashboardPanel := dashboardPanel s;
     panels := panels s; disposed := disposed s;
     outputChannel := outputChannel s; posted := posted s; intervals := ts;
     fetches := fetches s; errorMessages := errorMessages s;
     commands := commands s; spawned := spawned s; killed := killed s |}.

(** [setInterval(cb, ms)], where the callback closes over the panel
    [p]: a new handle, the next index. *)
Definition setInterval (p : nat) (cb : callback) (ms : Z) : M nat := fun s =>
  (Returned (length (intervals s)),
   set_intervals
     (intervals s
      ++ [{| period := ms; panel := p; body := cb; live := true; inflight := 0 |}]) s).

(** Apply [f] to the registration with handle [h]. *)
Fixpoint update (h : nat) (f : interval -> interval) (ts : list interval)
  : list interval :=
  match ts, h with
  | [], _ => []
  | t :: ts', O => f t :: ts'
  | t :: ts', S h' => t :: update h' f ts'
  end.

Definition stop (t : interval) : interval :=
  {| period := period t; panel := panel t; body := body t; live := false;
     inflight := inflight t |}.

(** [clearInterval(h)]: no effect on a handle already cleared. *)
Definition clearInterval (h : nat) : M unit := fun s =>
  (Returned tt, set_intervals (update h stop (intervals s)) s).

Definition issue (r : request) : M unit := fun s =>
  (Returned tt,
   {| pythonProcess := pythonProcess s; dashboardPanel := dashboardPanel s;
      panels := panels s; disposed := disposed s;
      outputChannel := outputChannel s; posted := posted s;
      intervals := intervals s; fetches := fetches s ++ [r];
      errorMessages := errorMessages s; commands := commands s;
      spawned := spawned s; killed := killed s |}).

Definition showErrorMessage (m : string) : M unit := fun s =>
  (Returned tt,
   {| pythonProcess := pythonProcess s; dashboardPanel := dashboardPanel s;
      panels := panels s; disposed := disposed s;
      outputChannel := outputChannel s; posted := posted s;
      intervals := intervals s; fetches := fetches s;
      errorMessages := errorMessages s ++ [m]; commands := commands s;
      spawned := spawned s; killed := killed s |}).

Definition registerCommand (c : string) : M unit := fun s =>
  (Returned tt,
   {| pythonProcess := pythonProcess s; dashboardPanel := dashboardPanel s;
      panels := panels s; disposed := disposed s;
      outputChannel := outputChannel s; posted := posted s;
      intervals := intervals s; fetches := fetches s;
      errorMessages := errorMessages s; commands := commands s ++ [c];
      spawned := spawned s; killed := killed s |}).

Definition set_pythonProcess (p : option process) : M unit := fun s =>
  (Returned tt,
   {| pythonProcess := p; dashboardPanel := dashboardPanel s;
      panels := panels s; disposed := disposed s;
      outputChannel := outputChannel s; posted := posted s;
      intervals := intervals s; fetches := fetches s;
      errorMessages := errorMessages s; commands := commands s;
      spawned := spawned s; killed := killed s |}).

Definition get_pythonProcess : M (option process) := fun s =>
  (Returned (pythonProcess s), s).

(** [if (!dashboardPanel) await executeCommand('osae.openDashboard');
     const panel = dashboardPanel!]: the open panel, or a new one that
    the command creates and stores. *)
Definition ensureDashboard : M nat := fun s =>
  match dashboardPanel s with
  | Some p => (Returned p, s)
  | None =>
      (Returned (panels s),
       {| pythonProcess := pythonProcess s; dashboardPanel := Some (panels s);
          panels := S (panels s); disposed := disposed s;
          outputChannel := outputChannel s; posted := posted s;
          intervals := intervals s; fetches := fetches s;
          errorMessages := errorMessages s; commands := commands s;
          spawned := spawned s; killed := killed s |})
  end.

(** The panel [p] is disposed, and its [onDidDispose] callback runs
    ([dashboardPanel = undefined]). *)
Definition dispose (p : nat) : M unit := fun s =>
  (Returned tt,
   {| pythonProcess := pythonProcess s; dashboardPanel := None;
      panels := panels s; disposed := disposed s ++ [p];
      outputChannel := outputChannel s; posted := posted s;
      intervals := intervals s; fetches := fetches s;
      errorMessages := errorMessages s; commands := commands s;
      spawned := spawned s; killed := killed s |}).

(** The user closes the dashboard. *)
Definition closeDashboard : M unit := fun s =>
  match dashboardPanel s with
  | Some p => dispose p s
  | None => (Returned tt, s)
  end.

(** [proc.kill()] *)
Definition kill (p : process) : M unit := fun s =>
  (match kill_throws p with Some e => Thrown e | None => Returned tt end,
   {| pythonProcess := pythonProcess s; dashboardPanel := dashboardPanel s;
      panels := panels s; disposed := disposed s;
      outputChannel := outputChannel s; posted := posted s;
      intervals := intervals s; fetches := fetches s;
      errorMessages := errorMessages s; commands := commands s;
      spawned := spawned s; killed := killed s ++ [p] |}).

(** [spawn(...)] returned the handle [p]. *)
Definition record_spawn (p : process) : M unit := fun s =>
  (Returned tt,
   {| pythonProcess := pythonProcess s; dashboardPanel := dashboardPanel s;
      panels := panels s; disposed := disposed s;
      outputChannel := outputChannel s; posted := posted s;
      intervals := intervals s; fetches := fetches s;
      errorMessages := errorMessages s; commands := commands s;
      spawned := spawned s ++ [p]; killed := killed s |}).

(** Assignment to a variable the callback of interval [h] closes over. *)
Definition set_body (h : nat) (cb : callback) : M unit := fun s =>
  (Returned tt,
   set_intervals
     (update h (fun t => {| period := period t; panel := panel t; body := cb;
                            live := live t; inflight := inflight t |})
        (intervals s)) s).

(** A request of interval [h] leaves, and settles. *)
Definition request_sent (h : nat) : M unit := fun s =>
  (Returned tt,
   set_intervals
     (update h (fun t => {| period := period t; panel := panel t; body := body t;
                            live := live t; inflight := S (inflight t) |})
        (intervals s)) s).

Definition request_settled (h : nat) : M unit := fun s =>
  (Returned tt,
   set_intervals
     (update h (fun t => {| period := period t; panel := panel t; body := body t;
                            live := live t; inflight := pred (inflight t) |})
        (intervals s)) s).

(** *** The poll loop (the [setInterval] callback of [osae.start], the
        same text in both revisions) *)

Definition task_update (data : value) : value :=
  VObj [("type", VStr "task_update"); ("data", data)].

(** [json.task_status === 'completed' || json.status === 'completed'
     || json.state === 'completed'] *)
Definition isCompleted (json : value) : M bool :=
  a <- prop json "task_status" ;;
  if is_string a "completed" then ret true
  else
    b <- prop json "status" ;;
    if is_string b "completed" then ret true
    else
      c <- prop json "state" ;;
      ret (is_string c "completed").

(** The [catch] of the callback. *)
Definition pollFailed (currentTaskId : value) (err : error) : M unit :=
  interpolate currentTaskId ;;
  appendLine (LogPollError currentTaskId err).

(** The callback of interval [h] up to its [await fetchFn(...)]: the
    URL is built, and the request leaves. *)
Definition pollRequest (h : nat) (currentTaskId : value) : M unit :=
  try_catch
    (encodeURIComponent currentTaskId ;;
     request_sent h ;;
     issue (GetTask currentTaskId))
    (pollFailed currentTaskId).

(** The part of the callback of interval [h] that runs once its request
    has settled as [r]; [panel] is the panel the callback closes over. *)
Definition pollSettled (h : nat) (panel : nat) (currentTaskId : value) (r : fetched)
  : M unit :=
  try_catch
    (r <- await r ;;
     match r with
     | None =>
         interpolate currentTaskId ;;
         appendLine (LogNoResponse currentTaskId)
     | Some r =>
         json <- await (json r) ;;
         postMessage panel (task_update json) ;;
         done <- isCompleted json ;;
         if done
         then
           interpolate currentTaskId ;;
           appendLine (LogCompleted currentTaskId) ;;
           clearInterval h
         else ret tt
     end)
    (pollFailed currentTaskId).

(** *** [deactivate] (the same text in both revisions) *)

Definition deactivate : M unit :=
  appendLine LogDeactivating ;;
  p <- get_pythonProcess ;;
  match p with
  | Some proc =>
      try_catch
        (kill proc ;; appendLine (LogKilled (pid proc)))
        (fun err => appendLine (LogKillError err)) ;;
      set_pythonProcess None
  | None => appendLine LogNoProcess
  end.

End Host.

(** ** [src/extension/src/extension.ts]: task start with the simulated
       fallback *)

Module Extension.
Import Host.

Definition simulatedPlan : list string :=
  ["Gather context"; "Plan actions"; "Execute steps"].

Definition sim_started (simTaskId : string) : value :=
  VObj [("type", VStr "task_started"); ("task_id", VStr simTaskId);
        ("prompt", VStr "Simulated run")].

Definition sim_progress (idx : Z) : value :=
  task_update (VObj [("plan", VArr (map VStr simulatedPlan));
                     ("currentStepIndex", VNum idx)]).

Definition sim_completed (idx : Z) : value :=
  task_update (VObj [("plan", VArr (map VStr simulatedPlan));
                     ("currentStepIndex", VNum idx);
                     ("status", VStr "completed");
                     ("task_status", VStr "completed");
                     ("state", VStr "completed")]).

(** [startSimulatedTask()], with the value [Date.now()] returned and the
    panel the command captured. *)
Definition startSimulatedTask (now : Z) (panel : nat) : M unit :=
  appendLine LogSimStart ;;
  let simTaskId := "sim-" ++ decimal now in
  postMessage panel (sim_started simTaskId) ;;
  postMessage panel (sim_progress 0) ;;
  _ <- setInterval panel (Simulated simTaskId 0) 1000 ;;
  ret tt.

(** The callback of [simInterval], whose handle is [h] and whose counter
    holds [idx0] when it is called.  Nothing catches what it throws. *)
Definition simTick (h : nat) (panel : nat) (simTaskId : string) (idx0 : Z) : M unit :=
  let idx := (idx0 + 1)%Z in
  set_body h (Simulated simTaskId idx) ;;
  postMessage panel (sim_progress idx) ;;
  appendLine (LogSimProgress simTaskId idx) ;;
  if (idx >=? Z.of_nat (length simulatedPlan) - 1)%Z
  then
    postMessage panel (sim_completed idx) ;;
    appendLine (LogSimCompleted simTaskId) ;;
    clearInterval h
  else ret tt.

(** [/ECONNREFUSED|connect|failed to fetch|NetworkError/i.test(msg)] *)
Definition network_pattern (msg : string) : bool :=
  let m := Str.toLowerCase msg in
  Str.includes m "econnrefused" || Str.includes m "connect"
  || Str.includes m "failed to fetch" || Str.includes m "networkerror".

(** [err && (err.name === 'AbortError' || /.../i.test(msg))] *)
Definition isNetworkError (err : error) : bool :=
  (name err =? "AbortError") || network_pattern (message_or_string err).

Definition task_started (taskId : value) : value :=
  VObj [("type", VStr "task_started"); ("task_id", taskId)].

(** [data.task_id || data.id || data.taskId] *)
Definition taskId_of (data : value) : M value :=
  a <- prop data "task_id" ;;
  if truthy a then ret a
  else
    b <- prop data "id" ;;
    if truthy b then ret b else prop data "taskId".

(** The [osae.start] command.  [has_fetch]: [typeof fetchFn === 'function'];
    [now]: what [Date.now()] returns; [create]: how the [POST /task]
    request settles, an abort by the 3000 ms deadline being one of its
    rejections; [closed]: the user closes the dashboard while the
    command waits for the request. *)
Definition osae_start (has_fetch : bool) (now : Z) (closed : bool) (create : fetched)
  : M unit :=
  panel <- ensureDashboard ;;
  if negb has_fetch then appendLine LogNoFetch
  else
    try_catch
      (issue (PostTask (VObj []) 3000) ;;
       (if closed then dispose panel else ret tt) ;;
       res <- await create ;;
       match res with
       | None => appendLine (LogCreateFailed None)
       | Some res =>
           if negb (ok res) then appendLine (LogCreateFailed (Some (status res)))
           else
             data <- await (json res) ;;
             taskId <- taskId_of data ;;
             if negb (truthy taskId) then appendLine LogNoTaskId
             else
               interpolate taskId ;;
               appendLine (LogStarted taskId) ;;
               postMessage panel (task_started taskId) ;;
               _ <- setInterval panel (PollTask taskId) 1000 ;;
               ret tt
       end)
      (fun err =>
         appendLine (LogCreateError err) ;;
         if isNetworkError err
         then appendLine LogUnreachable ;; startSimulatedTask now panel
         else appendLine LogNotFallingBack).

End Extension.

(** ** [src/unnamed/part_000]: the revision that launches the worker with
       the interpreter of the bundled venv and has no simulated fallback *)

Module ExtensionVenv.
Import Host.

(** How the first-run setup script ends. *)
Inductive setup_outcome : Type :=
| SetupThrows (e : error)                     (* spawn() of the script throws *)
| SetupErrorEvent (e : error)                 (* the child's 'error' event *)
| SetupClosed (code : option Z) (stderr : string) (venvExistsAfter : bool).

(** What [spawnSync(pythonExe, ['--version'])] does. *)
Inductive probe_outcome : Type :=
| ProbeThrows (e : error)
| ProbeStatus (status : option Z).            (* a number, or not one *)

(** What [spawn(pythonCmd, ...)] does. *)
Inductive spawn_outcome : Type :=
| SpawnThrows (e : error)
| SpawnReturns (p : process).

(** What activation finds on the machine. *)
Record launch : Type := mkLaunch {
  pythonExe : string;
  venvExists : bool;                          (* fs.existsSync(pythonExe) on entry *)
  setup : setup_outcome;
  probe : probe_outcome;
  spawn : spawn_outcome
}.

Definition Error (m : string) : error := {| name := "Error"; message := m |}.

(** [ensureAgentServerSetup(context)] *)
Definition ensureAgentServerSetup (env : launch) : M unit :=
  if venvExists env then appendLine LogVenvFound
  else
    appendLine LogVenvMissing ;;
    appendLine LogRunningSetup ;;
    match setup env with
    | SetupThrows e => throw e
    | SetupErrorEvent e =>
        appendLine (LogSetupSpawnFailed e) ;;
        showErrorMessage "[OSAE] Failed to start AI runtime setup. See OSAE output for details." ;;
        throw e
    | SetupClosed code stderr venvExistsAfter =>
        match code with
        | Some 0%Z =>
            appendLine LogSetupCompleted ;;
            if negb venvExistsAfter
            then
              appendLine LogSetupStillMissing ;;
              showErrorMessage "[OSAE] Setup completed but bundled Python not found. See OSAE output." ;;
              throw (Error "venv python missing after setup")
            else ret tt
        | _ =>
            appendLine (LogSetupExit code) ;;
            showErrorMessage "[OSAE] AI runtime setup failed. See OSAE output for details." ;;
            throw (Error (if stderr =? ""
                          then "setup exited with code "
                               ++ match code with Some c => decimal c | None => "null" end
                          else stderr))
        end
    end.

(** [spawnPythonServer(context)] *)
Definition spawnPythonServer (env : launch) : M (option process) :=
  try_catch
    (try_catch
       (match probe env with
        | ProbeThrows e => throw e
        | ProbeStatus (Some 0%Z) => ret tt
        | ProbeStatus _ =>
            throw (Error ("venv python not found or not executable at " ++ pythonExe env))
        end)
       (fun e => appendLine (LogVenvUnusable e) ;; throw e) ;;
     match spawn env with
     | SpawnThrows e => throw e
     | SpawnReturns proc =>
         record_spawn proc ;;
         set_pythonProcess (Some proc) ;;
         appendLine (LogSpawned (pid proc)) ;;
         ret (Some proc)
     end)
    (fun err => appendLine (LogSpawnFailed err) ;; ret None).

(** [activate(context)].  The health probe it schedules two seconds later
    only writes to the output channel and is left out. *)
Definition activate (env : launch) : M unit :=
  appendLine LogActivating ;;
  ready <- try_catch
             (ensureAgentServerSetup env ;; ret true)
             (fun err =>
                appendLine (LogSetupFailed err) ;;
                showErrorMessage ("[OSAE] Failed to initialize AI runtime: "
                                  ++ message_or_string err) ;;
                ret false) ;;
  if negb ready then ret tt
  else
    try_catch
      (p <- spawnPythonServer env ;; set_pythonProcess p)
      (fun err =>
         appendLine (LogSidecarFailed err) ;;
         showErrorMessage "[OSAE] Failed to start Python sidecar. See OSAE output for details." ;;
         set_pythonProcess None) ;;
    registerCommand "osae.openDashboard" ;;
    registerCommand "osae.start" ;;
    registerCommand "osae.reset".

(** The [osae.start] command of this revision. *)
Definition osae_start (has_fetch : bool) (closed : bool) (create : fetched) : M unit :=
  panel <- ensureDashboard ;;
  if negb has_fetch then appendLine LogNoFetch
  else
    try_catch
      (issue (PostTask (VObj [("prompt", VStr "")]) 3000) ;;
       (if closed then dispose panel else ret tt) ;;
       res <- await create ;;
       match res with
       | None => appendLine (LogCreateFailed None)
       | Some res =>
           if negb (ok res) then appendLine (LogCreateFailed (Some (status res)))
           else
             data <- await (json res) ;;
             taskId <- Extension.taskId_of data ;;
             if negb (truthy taskId) then appendLine LogNoTaskId
             else
               interpolate taskId ;;
               appendLine (LogStarted taskId) ;;
               postMessage panel (Extension.task_started taskId) ;;
               _ <- setInterval panel (PollTask taskId) 1000 ;;
               ret tt
       end)
      (fun err =>
         appendLine (LogCreateError err) ;;
         showErrorMessage ("[OSAE] Failed to create task: " ++ String_of_error err)).

(** Did first-run setup produce the interpreter, and did the interpreter
    answer [--version] with exit status 0? *)
Definition setup_succeeds (env : launch) : bool :=
  match setup env with
  | SetupClosed (Some 0%Z) _ true => true
  | _ => false
  end.

Definition probe_succeeds (env : launch) : bool :=
  match probe env with
  | ProbeStatus (Some 0%Z) => true
  | _ => false
  end.

(** How often the setup script was run, by the line written before it. *)
Definition setup_runs (s : state) : nat :=
  length (filter (fun l => match l with LogRunningSetup => true | _ => false end)
                 (outputChannel s)).

End ExtensionVenv.

(** ** The event loop: commands, interval firings and settling requests *)

Module Machine.
Import Host.

(** The two revisions of the extension. *)
Inductive build : Type := WithFallback | VenvOnly.

(** What happens to the extension: the user runs [osae.start] (a run of
    the command's handler, with what it finds: whether fetch exists, the
    clock, whether the user closes the dashboard while the creation
    request is pending, and how that request settles), the host fires
    an interval, a poll request settles, the user closes the dashboard,
    the host deactivates the extension. *)
Inductive event : Type :=
| Start (has_fetch : bool) (now : Z) (closed : bool) (create : fetched)
| Fire (h : nat)
| Settle (h : nat) (r : fetched)
| CloseDashboard
| Deactivate.

(** The host calls the callback of interval [h], which it does for live
    intervals only.  A poll callback runs up to its [await fetchFn(...)];
    the simulated one runs to its end, or to what it throws. *)
Definition fire (h : nat) : M unit := fun s =>
  match nth_error (intervals s) h with
  | Some t =>
      if live t then
        match body t with
        | PollTask currentTaskId => pollRequest h currentTaskId s
        | Simulated simTaskId idx => Extension.simTick h (panel t) simTaskId idx s
        end
      else (Returned tt, s)
  | None => (Returned tt, s)
  end.

(** A request that interval [h] has in flight settles, and the callback
    that issued it runs on, whether the interval is still live or not. *)
Definition settle (h : nat) (r : fetched) : M unit := fun s =>
  match nth_error (intervals s) h with
  | Some t =>
      match body t, inflight t with
      | PollTask currentTaskId, S _ =>
          (request_settled h ;; pollSettled h (panel t) currentTaskId r) s
      | _, _ => (Returned tt, s)
      end
  | None => (Returned tt, s)
  end.

Definition handle (b : build) (e : event) : M unit :=
  match e with
  | Start has_fetch now closed create =>
      match b with
      | WithFallback => Extension.osae_start has_fetch now closed create
      | VenvOnly => ExtensionVenv.osae_start has_fetch closed create
      end
  | Fire h => fire h
  | Settle h r => settle h r
  | CloseDashboard => closeDashboard
  | Deactivate => deactivate
  end.

Definition step (b : build) (s : state) (e : event) : state := exec (handle b e) s.

Definition run (b : build) (es : list event) (s : state) : state :=
  fold_left (step b) es s.

(** Is interval [h] registered and not cleared? *)
Definition is_live (s : state) (h : nat) : bool :=
  match nth_error (intervals s) h with
  | Some t => live t
  | None => false
  end.

(** The task whose poll loop interval [h] is. *)
Definition polls (s : state) (h : nat) : option value :=
  match nth_error (intervals s) h with
  | Some t => match body t with PollTask id => Some id | _ => None end
  | None => None
  end.

Definition pending (s : state) (h : nat) : nat :=
  match nth_error (intervals s) h with
  | Some t => inflight t
  | None => 0
  end.

(** Is the dashboard panel that interval [h] posts to still open? *)
Definition panel_open (s : state) (h : nat) : bool :=
  match nth_error (intervals s) h with
  | Some t => negb (is_disposed s (panel t))
  | None => false
  end.

(** The panel a run of [osae.start] posts to: the open one, or the one
    the command creates. *)
Definition panel_for (s : state) : nat :=
  match dashboardPanel s with
  | Some p => p
  | None => panels s
  end.

(** The state once [osae.start] has its panel. *)
Definition opened (s : state) : state := exec ensureDashboard s.

(** Can the identifier be put into the URL of a poll request: it has a
    string form, and that has no lone surrogate. *)
Definition encodable (id : value) : bool :=
  match ToString id with
  | Some text => negb (lone_surrogate text)
  | None => false
  end.

(** A state the extension can be in: the variable [dashboardPanel]
    holds a panel that was created and not closed, the closed panels
    were created, and the identifiers that are polled went through the
    template literal of [osae.start]. *)
Definition sound (s : state) : bool :=
  match dashboardPanel s with
  | Some p => (p <? panels s)%nat && negb (is_disposed s p)
  | None => true
  end
  && forallb (fun p => (p <? panels s)%nat) (disposed s)
  && forallb (fun t => match body t with
                       | PollTask id => has_text id
                       | Simulated _ _ => true
                       end) (intervals s).

(** The poll loops that are running. *)
Definition polling_now (t : interval) : bool :=
  live t && match body t with PollTask _ => true | _ => false end.

Definition live_polls (s : state) : list interval :=
  filter polling_now (intervals s).



(** A poll response in which one of the three status fields equals
    "completed". *)
Definition completes (r : fetched) : bool :=
  match r with
  | Resolved (Some resp) =>
      match json resp with
      | Resolved j =>
          is_string (get j "task_status") "completed"
          || is_string (get j "status") "completed"
          || is_string (get j "state") "completed"
      | Rejected _ => false
      end
  | _ => false
  end.


(** The task identifier of a creation that succeeded: a success status
    and a body with a truthy identifier under one of the three names. *)
Definition created_task (create : fetched) : option value :=
  match create with
  | Resolved (Some res) =>
      if ok res then
        match json res with
        | Resolved data =>
            if nullish data then None
            else
              let id := or_else (get data "task_id")
                                (or_else (get data "id") (get data "taskId")) in
              if truthy id then Some id else None
        | Rejected _ => None
        end
      else None
  | _ => None
  end.

(** The task a run of [osae.start] sets a poll loop up for: the
    creation succeeded, the identifier has a string form, and the
    dashboard was not closed while the request was pending. *)
Definition polled (closed : bool) (create : fetched) : option value :=
  match created_task create with
  | Some id => if has_text id && negb closed then Some id else None
  | None => None
  end.

(** The exception a creation attempt ends with, if it ends with one: the
    request's rejection, the rejection of reading the body of a success
    response, the read of an identifier off a null body, the conversion
    of an identifier that has no string form, or the post of the
    task-started message to a dashboard that was closed meanwhile. *)
Definition start_error (closed : bool) (create : fetched) : option error :=
  match create with
  | Rejected e => Some e
  | Resolved None => None
  | Resolved (Some res) =>
      if ok res then
        match json res with
        | Rejected e => Some e
        | Resolved data =>
            if nullish data then Some (type_error data "task_id")
            else
              let id := or_else (get data "task_id")
                                (or_else (get data "id") (get data "taskId")) in
              if truthy id then
                if has_text id
                then if closed then Some webview_disposed else None
                else Some no_primitive
              else None
        end
      else None
  end.

(** A change to one registration that keeps its period, its panel and
    the kind of its callback and never revives it. *)
Definition same_kind (a b : callback) : Prop :=
  match a, b with
  | PollTask x, PollTask y => x = y
  | Simulated x _, Simulated y _ => x = y
  | _, _ => False
  end.

Definition fades (t t' : interval) : Prop :=
  period t' = period t /\ panel t' = panel t /\ same_kind (body t) (body t')
  /\ (live t' = true -> live t = true).

(** How a list of registrations may evolve: the old handles keep
    designating registrations that only fade. *)
Definition evolves (ts ts' : list interval) : Prop :=
  forall h t, nth_error ts h = Some t ->
              exists t', nth_error ts' h = Some t' /\ fades t t'.

(** Does the event cancel interval [h] in state [s]: a request of [h]
    settles with a response that reports completion, and the callback
    gets as far as [clearInterval], which it does when the post to its
    panel does not throw. *)
Definition cancels (h : nat) (s : state) (e : event) : bool :=
  match e with
  | Settle h0 r =>
      (h0 =? h)%nat && (0 <? pending s h)%nat && completes r && panel_open s h
      && match polls s h with Some id => has_text id | None => false end
  | _ => false
  end.

(** The [osae.start] commands among the events. *)
Definition starts (es : list event) : nat :=
  length (filter (fun e => match e with Start _ _ _ _ => true | _ => false end) es).

(** The registration [osae.start] makes for the poll loop of a task, and
    the one [startSimulatedTask] makes. *)
Definition poll_interval (p : nat) (taskId : value) : interval :=
  {| period := 1000; panel := p; body := PollTask taskId; live := true; inflight := 0 |}.

Definition sim_interval (p : nat) (simTaskId : string) : interval :=
  {| period := 1000; panel := p; body := Simulated simTaskId 0; live := true;
     inflight := 0 |}.

(** The intervals a run of [osae.start] registers, [p] being the panel
    it posts to: the poll loop of the task it set up; or, in the
    revision with the fallback, the simulated run when the attempt
    ended with an exception that the test accepts and the dashboard is
    there to be posted to. *)
Definition registered (b : build) (has_fetch : bool) (now : Z) (closed : bool)
    (create : fetched) (p : nat) : list interval :=
  if has_fetch then
    match polled closed create with
    | Some id => [poll_interval p id]
    | None =>
        match b, start_error closed create with
        | WithFallback, Some e =>
            if Extension.isNetworkError e && negb closed
            then [sim_interval p ("sim-" ++ decimal now)]
            else []
        | _, _ => []
        end
    end
  else [].

End Machine.

(** ** Concrete inputs of the scenarios the properties are tried on *)

Module Scenario.

(** A snapshot of [App.tsx] that holds a plan and the prompt "x". *)
Definition held : App.WebviewData :=
  {| App.prompt := VStr "x"; App.plan := VArr [VStr "a"; VStr "b"];
     App.currentStepIndex := VNum 1; App.artifacts := VArr [] |}.

(** An update that carries a plan and nothing else. *)
Definition plan_only : value := VObj [("plan", VArr [VStr "c"])].

(** The same update in the envelope the extension posts. *)
Definition plan_only_enveloped : value :=
  VObj [("type", VStr "task_update"); ("data", VObj [("plan", VArr [VStr "c"])])].

(** An update whose [prompt] is a number. *)
Definition numeric_prompt : value := VObj [("prompt", VNum 5)].

(** A snapshot of the approval revision, paused on a proposed call. *)
Definition paused : AppApproval.WebviewData :=
  {| AppApproval.prompt := VStr "x";
     AppApproval.plan := VArr [VStr "a"; VStr "b"];
     AppApproval.currentStepIndex := VNum 1;
     AppApproval.artifacts := VArr [];
     AppApproval.next := VStr "Executor";
     AppApproval.taskId := VStr "abc123";
     AppApproval.proposedToolCall := VStr "write_file(a.txt)";
     AppApproval.thought_trace := VUndef;
     AppApproval.active_model := VUndef |}.

(** An update whose [proposedToolCall] is a number and whose first
    artifact describes a call. *)
Definition numeric_tool_call : value :=
  VObj [("proposedToolCall", VNum 7);
        ("artifacts", VArr [VObj [("call", VStr "delete_file(a.txt)")]])].

(** An enveloped update whose payload has an ill-typed [next] while the
    envelope has a string. *)
Definition next_on_envelope : value :=
  VObj [("type", VStr "task_update"); ("next", VStr "Planner");
        ("data", VObj [("next", VNull)])].

(** The poll response that lifts the pause. *)
Definition planner_update : value :=
  VObj [("type", VStr "task_update"); ("data", VObj [("next", VStr "Planner")])].

(** A response with a success status and the body [j]. *)
Definition responds (j : value) : Host.fetched :=
  Resolved (Some {| Host.ok := true; Host.status := 200; Host.json := Resolved j |}).

Definition created_abc : Host.fetched := responds (VObj [("task_id", VStr "abc123")]).

Definition created_def : Host.fetched := responds (VObj [("id", VStr "def456")]).

Definition running : Host.fetched := responds (VObj [("status", VStr "running")]).

Definition completed : Host.fetched := responds (VObj [("task_status", VStr "completed")]).


(** Scenario A up to its second poll request: the task "abc123" was
    created, its first poll answered "running", the second is in flight. *)
Definition polling : Host.state :=
  Machine.run Machine.WithFallback
    [Machine.Start true 0 false created_abc; Machine.Fire 0; Machine.Settle 0 running;
     Machine.Fire 0]
    Host.initial.

(** A creation request that a reachable server answers with status 500. *)
Definition server_error : Host.fetched :=
  Resolved (Some {| Host.ok := false; Host.status := 500;
                    Host.json := Resolved (VObj [("detail", VStr "Internal Server Error")]) |}).

(** A creation request aborted by its deadline, and a poll request that
    was refused. *)
Definition aborted : Host.fetched :=
  Rejected {| name := "AbortError"; message := "This operation was aborted" |}.


(** Scenario A with the dashboard closed while the second poll request
    is in flight. *)
Definition closed_while_polling : Host.state :=
  Machine.step Machine.WithFallback polling Machine.CloseDashboard.



(** A creation answered with an identifier that has no string form. *)
Definition created_odd : Host.fetched :=
  responds (VObj [("task_id", VObj [("toString", VNum 1)])]).

(** A machine whose venv interpreter exists and answers [--version] with
    exit status 1. *)
Definition unusable_venv : ExtensionVenv.launch :=
  {| ExtensionVenv.pythonExe := "agent-server/venv/bin/python";
     ExtensionVenv.venvExists := true;
     ExtensionVenv.setup := ExtensionVenv.SetupClosed (Some 0%Z) "" true;
     ExtensionVenv.probe := ExtensionVenv.ProbeStatus (Some 1%Z);
     ExtensionVenv.spawn :=
       ExtensionVenv.SpawnReturns
         {| Host.pid := Some 4242%Z; Host.exited := false; Host.kill_throws := None |} |}.

(** A machine with no venv interpreter, whose setup script exits with
    status 1. *)
Definition missing_venv : ExtensionVenv.launch :=
  {| ExtensionVenv.pythonExe := "agent-server/venv/bin/python";
     ExtensionVenv.venvExists := false;
     ExtensionVenv.setup := ExtensionVenv.SetupClosed (Some 1%Z) "pip: not found" false;
     ExtensionVenv.probe := ExtensionVenv.ProbeStatus None;
     ExtensionVenv.spawn :=
       ExtensionVenv.SpawnThrows {| name := "Error"; message := "spawn ENOENT" |} |}.

(** A state whose worker has already exited and whose [kill()] throws. *)
Definition worker_gone : Host.state :=
  {| Host.pythonProcess :=
       Some {| Host.pid := Some 4242%Z; Host.exited := true;
               Host.kill_throws := Some {| name := "Error"; message := "kill ESRCH" |} |};
     Host.dashboardPanel := None; Host.panels := 0; Host.disposed := [];
     Host.outputChannel := []; Host.posted := [];
     Host.intervals := []; Host.fetches := []; Host.errorMessages := [];
     Host.commands := []; Host.spawned := []; Host.killed := [] |}.

End Scenario.

(** ** Channels that only grow *)

Module Channels.
Import Host.
#[local] Open Scope list_scope.

(** [s'] holds what [s] held on the output channel, among the posted
    messages and among the requests, and possibly more after it. *)
Definition extends (s s' : state) : Prop :=
  (exists l, outputChannel s' = outputChannel s ++ l)
  /\ (exists p, posted s' = posted s ++ p)
  /\ (exists f, fetches s' = fetches s ++ f).

Definition appending {A} (m : M A) : Prop :=
  forall s, extends s (snd (m s)).

(** Task [id] was announced: its start was logged and the task-started
    message posted. *)
Definition announced (s : state) (id : value) : Prop :=
  In (LogStarted id) (outputChannel s)
  /\ In (Extension.task_started id) (posted s).

(** Every poll loop and every poll request is for an announced task. *)
Definition polls_announced (s : state) : Prop :=
  (forall t id, In t (intervals s) -> body t = PollTask id -> announced s id)
  /\ (forall id, In (GetTask id) (fetches s) -> announced s id).


End Channels.

(** ** What a poll response and a failed creation show the user *)

Module Shown.
Import Host.
#[local] Open Scope list_scope.

(** The body of a poll response, when it could be read. *)
Definition readable_body (r : fetched) : option value :=
  match r with
  | Resolved (Some resp) =>
      match json resp with
      | Resolved j => Some j
      | Rejected _ => None
      end
  | _ => None
  end.

End Shown.

(** ** Further concrete inputs *)

Module Scenario2.

(** A machine whose venv interpreter answers [--version] and starts. *)
Definition working_venv : ExtensionVenv.launch :=
  {| ExtensionVenv.pythonExe := "agent-server/venv/bin/python";
     ExtensionVenv.venvExists := true;
     ExtensionVenv.setup := ExtensionVenv.SetupClosed (Some 0%Z) "" true;
     ExtensionVenv.probe := ExtensionVenv.ProbeStatus (Some 0%Z);
     ExtensionVenv.spawn :=
       ExtensionVenv.SpawnReturns
         {| Host.pid := Some 4242%Z; Host.exited := false; Host.kill_throws := None |} |}.

(** A poll response of Scenario B: the worker is about to execute. *)
Definition executor_update : value :=
  VObj [("status", VStr "running"); ("plan", VArr [VStr "a"; VStr "b"]);
        ("currentStepIndex", VNum 1); ("next", VStr "Executor");
        ("proposedToolCall", VStr "write_file(a.txt)")].

(** The artifacts of an agent that wrote one file, "App.tsx". *)
Definition one_file : value :=
  VArr [VObj [("type", VStr "code"); ("filename", VStr "App.tsx");
              ("code", VStr "export default 1")]].

End Scenario2.

(** ** Messages of the extension as the approval webview reads them *)

Module Wire.
#[local] Open Scope list_scope.

(** A message the extension posts that cannot set the snapshot's
    [taskId]: the task-started event (which names the task [task_id]),
    or an update whose body has no string under [taskId]. *)
Definition without_taskId (m : value) : Prop :=
  (exists id, m = Extension.task_started id)
  \/ (exists j, m = Host.task_update j /\ typeof_string (get j "taskId") = false).

End Wire.

(** ** [PlanViewer] (the component at the end of [src/unnamed/part_003],
       and its revision with the retry badge, [src/unnamed/part_004]) *)

Module PlanViewer.
#[local] Open Scope list_scope.

Inductive status : Type := completed | in_progress | pending.

(** [idx < currentStepIndex ? 'completed'
     : idx === currentStepIndex ? 'in-progress' : 'pending'],
    for an integral [currentStepIndex]. *)
Definition status_of (currentStepIndex : Z) (idx : nat) : status :=
  if (Z.of_nat idx <? currentStepIndex)%Z then completed
  else if (Z.of_nat idx =? currentStepIndex)%Z then in_progress
  else pending.

(** One [<li>] of the list: the step's text, its status, and whether the
    "Retrying" badge is on it ([isCurrent && currentStepRetry]). *)
Record item : Type := mkItem {
  step : value;
  state : status;
  retrying : bool
}.

(** [plan.map((step, idx) => ...)], from index [idx] on. *)
Fixpoint items_from (idx : nat) (plan : list value) (currentStepIndex : Z)
    (currentStepRetry : bool) : list item :=
  match plan with
  | [] => []
  | s :: rest =>
      {| step := s;
         state := status_of currentStepIndex idx;
         retrying := (Z.of_nat idx =? currentStepIndex)%Z && currentStepRetry |}
      :: items_from (S idx) rest currentStepIndex currentStepRetry
  end.

(** What the component renders: the "Reflecting..." banner or not, and
    the list, which is the single entry "No steps" for an empty plan. *)
Inductive steps : Type :=
| NoSteps
| Steps (items : list item).

Record view : Type := mkView {
  reflecting : bool;
  entries : steps
}.

(** The component of [part_004]; a property that is not passed reads
    as false. *)
Definition PlanViewer (plan : list value) (currentStepIndex : Z)
    (isReflecting currentStepRetry : bool) : view :=
  {| reflecting := isReflecting;
     entries := if (length plan =? 0)%nat then NoSteps
             else Steps (items_from 0 plan currentStepIndex currentStepRetry) |}.

(** The component of [part_003], which has neither banner nor badge. *)
Definition PlanViewer_basic (plan : list value) (currentStepIndex : Z) : view :=
  PlanViewer plan currentStepIndex false false.

(** How many of [n] steps lie before [currentStepIndex]. *)
Definition done_steps (currentStepIndex : Z) (n : nat) : nat :=
  Z.to_nat (Z.min (Z.max currentStepIndex 0) (Z.of_nat n)).

End PlanViewer.

(** ** The plan section of [App.tsx]:
       [<PlanViewer plan={data.plan || []}
                    currentStepIndex={data.currentStepIndex || 0} />] *)

Module AppView.
#[local] Open Scope list_scope.

Definition plan_prop (d : App.WebviewData) : value :=
  or_else (App.plan d) (VArr []).

Definition index_prop (d : App.WebviewData) : value :=
  or_else (App.currentStepIndex d) (VNum 0).

(** The plan section, for properties of the types the component
    declares (an array and a number). *)
Definition plan_section (d : App.WebviewData) : option PlanViewer.view :=
  match plan_prop d, index_prop d with
  | VArr items, VNum c => Some (PlanViewer.PlanViewer_basic items c)
  | _, _ => None
  end.

(** The snapshot after the messages [ms], oldest first. *)
Definition deliver (ms : list value) (d : App.WebviewData) : App.WebviewData :=
  fold_left (fun d m => App.handler m d) ms d.

End AppView.

(** ** The files handed to the live preview ([src/unnamed/part_003],
       lines 131-194, and [components/LivePreview.tsx]) *)

Module Sandpack.
#[local] Open Scope list_scope.

(** A [Record<string, string>] as the code builds it: the keys in the
    order of their first assignment, each once, with the value assigned
    last. *)
Definition files : Type := list (string * value).

Fixpoint lookup (k : string) (m : files) : option value :=
  match m with
  | [] => None
  | (k', v) :: rest => if (k =? k')%string then Some v else lookup k rest
  end.

(** [m[k] = v] *)
Fixpoint assign (k : string) (v : value) (m : files) : files :=
  match m with
  | [] => [(k, v)]
  | (k', v') :: rest =>
      if (k =? k')%string then (k, v) :: rest else (k', v') :: assign k v rest
  end.

(** [Object.keys(m)] *)
Definition keys (m : files) : list string := map fst m.

(** [a && b] *)
Definition and_then (a b : value) : value := if truthy a then b else a.

(** [s.startsWith(p)] and [s.endsWith(p)] *)
Definition startsWith (s p : string) : bool := String.prefix p s.

Definition endsWith (s p : string) : bool :=
  (String.length p <=? String.length s)%nat
  && (substring (String.length s - String.length p) (String.length p) s =? p)%string.

(** [typeof (art && art.filename) === 'string' ? art.filename : ''], and
    the same for [code]. *)
Definition filename_of (art : value) : value :=
  if typeof_string (and_then art (get art "filename")) then get art "filename"
  else VStr "".

Definition code_of (art : value) : value :=
  if typeof_string (and_then art (get art "code")) then get art "code"
  else VStr "".

(** The reducer's callback.  A truthy [filename] is a string, the only
    kind of value [startsWith] is called on. *)
Definition add_artifact (acc : files) (art : value) : files :=
  let filename := filename_of art in
  let code := code_of art in
  if negb (truthy filename) then acc
  else
    match filename with
    | VStr f => assign (if startsWith f "/" then f else "/" ++ f)%string code acc
    | _ => acc
    end.

(** [sandpackFilesFromArtifacts], for the value of [data.artifacts]. *)
Definition sandpackFilesFromArtifacts (artifacts : value) : files :=
  fold_left add_artifact
    (match artifacts with VArr items => items | _ => [] end) [].

(** [Object.keys(m).some((k) => k.endsWith(s1) || k.endsWith(s2) || ...)] *)
Definition some_key_ends (m : files) (suffixes : list string) : bool :=
  existsb (fun k => existsb (endsWith k) suffixes) (keys m).

(** [hasAgentEntry] *)
Definition hasAgentEntry (m : files) : bool :=
  some_key_ends m ["App.tsx"; "/App.tsx"; "index.html"; "/index.html"].

Definition dq : string := String (Ascii.ascii_of_nat 34) EmptyString.

Definition app_skeleton : string :=
  "import React from 'react';
export default function App() {
  return <div style={{ padding: 20 }}>App skeleton</div>;
}"%string.

Definition index_skeleton : string :=
  "import React from 'react';
import { createRoot } from 'react-dom/client';
import App from './App';
const root = createRoot(document.getElementById('root'));
root.render(<App />);"%string.

Definition html_skeleton : string :=
  ("<!doctype html>
<html>
  <head>
    <meta charset=" ++ dq ++ "utf-8" ++ dq ++ " />
    <meta name=" ++ dq ++ "viewport" ++ dq ++ " content=" ++ dq
   ++ "width=device-width,initial-scale=1" ++ dq ++ " />
    <title>Live Preview</title>
  </head>
  <body>
    <div id=" ++ dq ++ "root" ++ dq ++ "></div>
  </body>
</html>")%string.

Definition app_suffixes : list string := ["App.tsx"; "/App.tsx"; "App.jsx"; "App.js"].

Definition index_suffixes : list string :=
  ["index.tsx"; "/index.tsx"; "index.jsx"; "index.js"].

(** [sandpackFiles]: the agent's files, and a skeleton for each entry
    point they lack. *)
Definition sandpackFiles (artifacts : value) : files :=
  let m0 := sandpackFilesFromArtifacts artifacts in
  let m1 := if negb (some_key_ends m0 app_suffixes)
            then assign "/App.tsx" (VStr app_skeleton) m0 else m0 in
  let m2 := if negb (some_key_ends m1 index_suffixes)
            then assign "/index.tsx" (VStr index_skeleton) m1 else m1 in
  match lookup "/index.html" m2 with
  | Some _ => m2
  | None => assign "/index.html" (VStr html_skeleton) m2
  end.

(** [defaultFiles] of [LivePreview.tsx]. *)
Definition defaultFiles : files :=
  [("/index.html", VStr html_skeleton);
   ("/index.js",
    VStr ("import React from " ++ dq ++ "react" ++ dq ++ ";
import { createRoot } from " ++ dq ++ "react-dom/client" ++ dq ++ ";
import App from " ++ dq ++ "./App" ++ dq ++ ";
const root = createRoot(document.getElementById(" ++ dq ++ "root" ++ dq ++ "));
root.render(<App />);")%string);
   ("/App.js",
    VStr ("import React from " ++ dq ++ "react" ++ dq ++ ";
export default function App() {
  return <div style={{ padding: 20 }}>Live Preview</div>;
}")%string)].

(** [{ ...a, ...b }] *)
Definition spread (a b : files) : files :=
  fold_left (fun acc kv => assign (fst kv) (snd kv) acc) b a.

(** [mergedFiles] of [LivePreview]. *)
Definition mergedFiles (given : files) : files := spread defaultFiles given.

(** The path and code an artifact contributes, if it contributes. *)
Definition entry_of (art : value) : option (string * value) :=
  match filename_of art with
  | VStr f =>
      if (f =? "")%string then None
      else Some ((if startsWith f "/" then f else "/" ++ f)%string, code_of art)
  | _ => None
  end.

(** The code of the last artifact that contributes path [p]. *)
Definition last_code (p : string) (artifacts : list value) : option value :=
  fold_left
    (fun found art =>
       match entry_of art with
       | Some (p', c) => if (p =? p')%string then Some c else found
       | None => found
       end)
    artifacts None.

End Sandpack.

(** ** Activation, the dashboard panel, the health probe and the reset
       command ([src/extension/src/extension.ts], lines 14-156 and
       265-284; [src/unnamed/part_000], lines 73-93, 244-275 and
       360-382) *)

Module Lifecycle.
#[local] Open Scope list_scope.

(** The lines of the output channel: those of the task commands, and
    those of the functions modelled here. *)
Inductive line : Type :=
| Common (l : Host.log_line)
| LogNoUsablePython        (* No usable Python executable found in PATH; sidecar will not start. *)
| LogSpawnedWith (cmd : string) (pid : option Z)
                           (* Python FastAPI sidecar spawned using "..." (PID ...). *)
| LogHealthNoFetch         (* fetch is not available in this environment; skipping health check. *)
| LogHealthOk (status : Z) (* Health check succeeded (status ...) at ... *)
| LogHealthFailed (status : option Z)
                           (* Health check failed (status ...) at ... *)
| LogHealthError (e : error)
                           (* Health check error: ... *)
| LogHealthSkipped         (* Python process not available; skipping health check. *)
| LogResetNoFetch          (* fetch is not available; cannot perform reset. *)
| LogResetFailed (status : option Z)
                           (* Reset request failed (status ...) *)
| LogResetDone             (* TASK_STORE reset via sidecar. *)
| LogResetError (e : error)
                           (* Error calling reset endpoint: ... *)
| LogResetCommandError (e : error).
                           (* Error executing osae.reset command: ... *)

(** The requests of the functions modelled here. *)
Inductive call : Type := GetHealth | PostReset.

(** The module-level variables and what was done to the host.  Panels
    are numbered by creation. *)
Record state : Type := mkState {
  pythonProcess : option Host.process;     (* let pythonProcess *)
  dashboardPanel : option nat;             (* let dashboardPanel *)
  output : list line;                      (* outputChannel, oldest first *)
  commands : list string;                  (* registerCommand *)
  spawned : list (string * Host.process);  (* spawn(cmd, ...) and its handle *)
  killed : list Host.process;              (* handles kill() was called on *)
  panels : nat;                            (* createWebviewPanel calls *)
  open_panels : list nat;                  (* panels created and not disposed *)
  reveals : list nat;                      (* panel.reveal() *)
  html_loads : list nat;                   (* panel.webview.html = ... *)
  calls : list call;                       (* requests issued *)
  timeouts : nat                           (* health checks scheduled, not yet run *)
}.

Definition initial : state :=
  {| pythonProcess := None; dashboardPanel := None; output := []; commands := [];
     spawned := []; killed := []; panels := 0; open_panels := []; reveals := [];
     html_loads := []; calls := []; timeouts := 0 |}.

(** Statements, as in [Host]: state passing with exceptions. *)
Definition M (A : Type) : Type := state -> Host.outcome A * state.

Definition ret {A} (a : A) : M A := fun s => (Host.Returned a, s).

Definition throw {A} (e : error) : M A := fun s => (Host.Thrown e, s).

Definition bind {A B} (m : M A) (k : A -> M B) : M B :=
  fun s => match m s with
           | (Host.Returned a, s') => k a s'
           | (Host.Thrown e, s') => (Host.Thrown e, s')
           end.

Definition try_catch {A} (m : M A) (h : error -> M A) : M A :=
  fun s => match m s with
           | (Host.Returned a, s') => (Host.Returned a, s')
           | (Host.Thrown e, s') => h e s'
           end.

Definition exec {A} (m : M A) (s : state) : state := snd (m s).

Notation "x <- m ;; k" := (bind m (fun x => k))
  (at level 61, m at next level, right associativity).
Notation "m ;; k" := (bind m (fun _ => k))
  (at level 61, right associativity).

Definition await {A} (p : settled A) : M A :=
  match p with
  | Resolved a => ret a
  | Rejected e => throw e
  end.

(** [outputChannel.appendLine(...)] *)
Definition appendLine (l : line) : M unit := fun s =>
  (Host.Returned tt,
   {| pythonProcess := pythonProcess s; dashboardPanel := dashboardPanel s;
     output := output s ++ [l]; commands := commands s; spawned := spawned s;
     killed := killed s; panels := panels s; open_panels := open_panels s;
     reveals := reveals s; html_loads := html_loads s; calls := calls s;
     timeouts := timeouts s |}).

(** [pythonProcess = ...] *)
Definition set_pythonProcess (p : option Host.process) : M unit := fun s =>
  (Host.Returned tt,
   {| pythonProcess := p; dashboardPanel := dashboardPanel s; output := output s;
     commands := commands s; spawned := spawned s; killed := killed s;
     panels := panels s; open_panels := open_panels s; reveals := reveals s;
     html_loads := html_loads s; calls := calls s; timeouts := timeouts s |}).

(** [vscode.commands.registerCommand(c, ...)] *)
Definition registerCommand (c : string) : M unit := fun s =>
  (Host.Returned tt,
   {| pythonProcess := pythonProcess s; dashboardPanel := dashboardPanel s;
     output := output s; commands := commands s ++ [c]; spawned := spawned s;
     killed := killed s; panels := panels s; open_panels := open_panels s;
     reveals := reveals s; html_loads := html_loads s; calls := calls s;
     timeouts := timeouts s |}).

(** [spawn(cmd, ...)] returned the handle [p]. *)
Definition record_spawn (cmd : string) (p : Host.process) : M unit := fun s =>
  (Host.Returned tt,
   {| pythonProcess := pythonProcess s; dashboardPanel := dashboardPanel s;
     output := output s; commands := commands s;
     spawned := spawned s ++ [(cmd, p)]; killed := killed s; panels := panels s;
     open_panels := open_panels s; reveals := reveals s;
     html_loads := html_loads s; calls := calls s; timeouts := timeouts s |}).

(** A request leaves. *)
Definition issue (c : call) : M unit := fun s =>
  (Host.Returned tt,
   {| pythonProcess := pythonProcess s; dashboardPanel := dashboardPanel s;
     output := output s; commands := commands s; spawned := spawned s;
     killed := killed s; panels := panels s; open_panels := open_panels s;
     reveals := reveals s; html_loads := html_loads s; calls := calls s ++ [c];
     timeouts := timeouts s |}).

(** [setTimeout(healthCallback, 2000)] *)
Definition setTimeout : M unit := fun s =>
  (Host.Returned tt,
   {| pythonProcess := pythonProcess s; dashboardPanel := dashboardPanel s;
     output := output s; commands := commands s; spawned := spawned s;
     killed := killed s; panels := panels s; open_panels := open_panels s;
     reveals := reveals s; html_loads := html_loads s; calls := calls s;
     timeouts := S (timeouts s) |}).

(** [panel.reveal(vscode.ViewColumn.One)] *)
Definition reveal (id : nat) : M unit := fun s =>
  (Host.Returned tt,
   {| pythonProcess := pythonProcess s; dashboardPanel := dashboardPanel s;
     output := output s; commands := commands s; spawned := spawned s;
     killed := killed s; panels := panels s; open_panels := open_panels s;
     reveals := reveals s ++ [id]; html_loads := html_loads s; calls := calls s;
     timeouts := timeouts s |}).

(** [panel.webview.html = getWebviewContent(context, panel.webview)] *)
Definition load_html (id : nat) : M unit := fun s =>
  (Host.Returned tt,
   {| pythonProcess := pythonProcess s; dashboardPanel := dashboardPanel s;
     output := output s; commands := commands s; spawned := spawned s;
     killed := killed s; panels := panels s; open_panels := open_panels s;
     reveals := reveals s; html_loads := html_loads s ++ [id]; calls := calls s;
     timeouts := timeouts s |}).

(** [dashboardPanel = vscode.window.createWebviewPanel(...)]: a new panel,
    open, and the variable holds it. *)
Definition createWebviewPanel : M nat := fun s =>
  (Host.Returned (panels s),
   {| pythonProcess := pythonProcess s; dashboardPanel := Some (panels s);
     output := output s; commands := commands s; spawned := spawned s;
     killed := killed s; panels := S (panels s);
     open_panels := open_panels s ++ [panels s]; reveals := reveals s;
     html_loads := html_loads s; calls := calls s; timeouts := timeouts s |}).

(** [dashboardPanel = undefined] *)
Definition clear_dashboardPanel : M unit := fun s =>
  (Host.Returned tt,
   {| pythonProcess := pythonProcess s; dashboardPanel := None; output := output s;
     commands := commands s; spawned := spawned s; killed := killed s;
     panels := panels s; open_panels := open_panels s; reveals := reveals s;
     html_loads := html_loads s; calls := calls s; timeouts := timeouts s |}).

(** [proc.kill()] *)
Definition kill (p : Host.process) : M unit := fun s =>
  (match Host.kill_throws p with
   | Some e => Host.Thrown e
   | None => Host.Returned tt
   end,
 {| pythonProcess := pythonProcess s; dashboardPanel := dashboardPanel s;
     output := output s; commands := commands s; spawned := spawned s;
     killed := killed s ++ [p]; panels := panels s; open_panels := open_panels s;
     reveals := reveals s; html_loads := html_loads s; calls := calls s;
     timeouts := timeouts s |}).

Definition get_pythonProcess : M (option Host.process) := fun s =>
  (Host.Returned (pythonProcess s), s).

Definition get_dashboardPanel : M (option nat) := fun s =>
  (Host.Returned (dashboardPanel s), s).

(** What activation finds on the machine: the platform, what
    [spawnSync(candidate, ['--version'])] does for a launcher name, and
    what [spawn(cmd, ...)] does. *)
Record machine : Type := mkMachine {
  win32 : bool;
  probe : string -> ExtensionVenv.probe_outcome;
  spawn : string -> ExtensionVenv.spawn_outcome
}.

(** [process.platform === 'win32' ? ['py', 'python', 'python3']
                                  : ['python3', 'python']] *)
Definition candidates (env : machine) : list string :=
  if win32 env then ["py"; "python"; "python3"] else ["python3"; "python"].

(** Does the launcher answer [--version] with exit status 0? *)
Definition answers (env : machine) (candidate : string) : bool :=
  match probe env candidate with
  | ExtensionVenv.ProbeStatus (Some 0%Z) => true
  | _ => false
  end.

(** The [for] loop over the candidates: the first one that answers; a
    probe that throws is passed over. *)
Fixpoint pick (env : machine) (cs : list string) : option string :=
  match cs with
  | [] => None
  | candidate :: rest =>
      match probe env candidate with
      | ExtensionVenv.ProbeThrows _ => pick env rest
      | ExtensionVenv.ProbeStatus (Some 0%Z) => Some candidate
      | ExtensionVenv.ProbeStatus _ => pick env rest
      end
  end.

(** [spawnPythonServer(context)] of [extension.ts]. *)
Definition spawnPythonServer (env : machine) : M (option Host.process) :=
  try_catch
    (match pick env (candidates env) with
     | None => appendLine LogNoUsablePython ;; ret None
     | Some pythonCmd =>
         match spawn env pythonCmd with
         | ExtensionVenv.SpawnThrows e => throw e
         | ExtensionVenv.SpawnReturns proc =>
             record_spawn pythonCmd proc ;;
             set_pythonProcess (Some proc) ;;
             appendLine (LogSpawnedWith pythonCmd (Host.pid proc)) ;;
             ret (Some proc)
         end
     end)
    (fun err => appendLine (Common (Host.LogSpawnFailed err)) ;; ret None).

(** [pollHealthEndpoint()], the same text in both revisions. *)
Definition pollHealthEndpoint (has_fetch : bool) (res : Host.fetched) : M unit :=
  try_catch
    (if negb has_fetch then appendLine LogHealthNoFetch
     else
       issue GetHealth ;;
       res <- await res ;;
       match res with
       | Some r =>
           if Host.ok r then appendLine (LogHealthOk (Host.status r))
           else appendLine (LogHealthFailed (Some (Host.status r)))
       | None => appendLine (LogHealthFailed None)
       end)
    (fun err => appendLine (LogHealthError err)).

(** The callback of the [setTimeout] of [activate]. *)
Definition healthCallback (has_fetch : bool) (res : Host.fetched) : M unit :=
  p <- get_pythonProcess ;;
  match p with
  | Some _ => pollHealthEndpoint has_fetch res
  | None => appendLine LogHealthSkipped
  end.

(** [activate(context)] of [extension.ts]. *)
Definition activate (env : machine) : M unit :=
  appendLine (Common Host.LogActivating) ;;
  p <- spawnPythonServer env ;;
  set_pythonProcess p ;;
  setTimeout ;;
  registerCommand "osae.openDashboard" ;;
  registerCommand "osae.start".

(** The [osae.openDashboard] command. *)
Definition openDashboard : M unit :=
  panel <- get_dashboardPanel ;;
  match panel with
  | Some id => reveal id
  | None =>
      id <- createWebviewPanel ;;
      load_html id
  end.

(** The panel [id] is disposed: it is no longer open, and its
    [onDidDispose] callback runs. *)
Definition dispose (id : nat) : M unit := fun s =>
  if existsb (Nat.eqb id) (open_panels s)
  then
    clear_dashboardPanel
      {| pythonProcess := pythonProcess s; dashboardPanel := dashboardPanel s;
         output := output s; commands := commands s; spawned := spawned s;
         killed := killed s; panels := panels s;
         open_panels := filter (fun p => negb (Nat.eqb id p)) (open_panels s);
         reveals := reveals s; html_loads := html_loads s; calls := calls s;
         timeouts := timeouts s |}
  else (Host.Returned tt, s).

(** The [osae.reset] command of [part_000]. *)
Definition osae_reset (has_fetch : bool) (res : Host.fetched) : M unit :=
  if negb has_fetch then appendLine LogResetNoFetch
  else
    try_catch
      (issue PostReset ;;
       res <- await res ;;
       match res with
       | Some r =>
           if Host.ok r then
             appendLine LogResetDone ;;
             panel <- get_dashboardPanel ;;
             match panel with
             | Some id => load_html id
             | None => ret tt
             end
           else appendLine (LogResetFailed (Some (Host.status r)))
       | None => appendLine (LogResetFailed None)
       end)
      (fun err => appendLine (LogResetError err)).

(** Does [osae.reset] get as far as refreshing the page: [fetch]
    exists and the response is there and [ok]. *)
Definition reset_reloads (has_fetch : bool) (res : Host.fetched) : bool :=
  match res with
  | Resolved (Some r) => has_fetch && Host.ok r
  | _ => false
  end.

(** The [onDidReceiveMessage] handler of the panel, in [part_000]:
    [if (msg && msg.type === 'osae.reset')]. *)
Definition onDidReceiveMessage (msg : value) (has_fetch : bool) (res : Host.fetched)
  : M unit :=
  if truthy msg && is_string (get msg "type") "osae.reset"
  then
    try_catch
      (osae_reset has_fetch res)
      (fun err => appendLine (LogResetCommandError err))
  else ret tt.

(** [deactivate()], the same text as in [Host]. *)
Definition deactivate : M unit :=
  appendLine (Common Host.LogDeactivating) ;;
  p <- get_pythonProcess ;;
  match p with
  | Some proc =>
      try_catch
        (kill proc ;; appendLine (Common (Host.LogKilled (Host.pid proc))))
        (fun err => appendLine (Common (Host.LogKillError err))) ;;
      set_pythonProcess None
  | None => appendLine (Common Host.LogNoProcess)
  end.

(** What happens to an activated extension. *)
Inductive event : Type :=
| HealthTimer (has_fetch : bool) (res : Host.fetched)
| OpenDashboard
| Dispose (id : nat)
| Message (msg : value) (has_fetch : bool) (res : Host.fetched)
| Reset (has_fetch : bool) (res : Host.fetched)
| Deactivate.

(** The health callback runs once per scheduled timeout. *)
Definition healthTimer (has_fetch : bool) (res : Host.fetched) : M unit := fun s =>
  match timeouts s with
  | O => (Host.Returned tt, s)
  | S n =>
      healthCallback has_fetch res
        {| pythonProcess := pythonProcess s; dashboardPanel := dashboardPanel s;
           output := output s; commands := commands s; spawned := spawned s;
           killed := killed s; panels := panels s; open_panels := open_panels s;
           reveals := reveals s; html_loads := html_loads s; calls := calls s;
           timeouts := n |}
  end.

(** A message arrives from the webview of an open panel.  Only the
    panels of [part_000] listen. *)
Definition message (b : Machine.build) (msg : value) (has_fetch : bool)
    (res : Host.fetched) : M unit :=
  fun s =>
    match b, open_panels s with
    | Machine.VenvOnly, _ :: _ => onDidReceiveMessage msg has_fetch res s
    | _, _ => (Host.Returned tt, s)
    end.

(** [osae.reset] is a command of [part_000] only. *)
Definition reset (b : Machine.build) (has_fetch : bool) (res : Host.fetched) : M unit :=
  match b with
  | Machine.VenvOnly => osae_reset has_fetch res
  | Machine.WithFallback => ret tt
  end.

Definition handle (b : Machine.build) (e : event) : M unit :=
  match e with
  | HealthTimer has_fetch res => healthTimer has_fetch res
  | OpenDashboard => openDashboard
  | Dispose id => dispose id
  | Message msg has_fetch res => message b msg has_fetch res
  | Reset has_fetch res => reset b has_fetch res
  | Deactivate => deactivate
  end.

Definition step (b : Machine.build) (s : state) (e : event) : state :=
  exec (handle b e) s.

Definition run (b : Machine.build) (es : list event) (s : state) : state :=
  fold_left (step b) es s.

(** The variable [dashboardPanel] and the panels on screen agree: the
    open panels are the one the variable holds, or none. *)
Definition panel_tracked (s : state) : Prop :=
  open_panels s = match dashboardPanel s with
                  | Some id => [id]
                  | None => []
                  end
  /\ (forall id, In id (open_panels s) -> id < panels s).

End Lifecycle.

(** ** The asset bundler ([src/scripts/bundle-assets.js]) *)

Module Bundle.
#[local] Open Scope list_scope.

(** A path, as its components below the repository root. *)
Definition path : Type := list string.

(** [path.basename(p)], [path.dirname(p)] and [path.join(p, entry)]. *)
Definition basename (p : path) : string := last p "".

Definition dirname (p : path) : path := removelast p.

Definition join (p : path) (entry : string) : path := p ++ [entry].

#[local] Set Warnings "-register-all".

(** What [lstat] finds at a source path, with what the file system
    answers to the calls the script makes for it ([None]: the call
    succeeds). *)
Inductive node : Type :=
| Missing                                      (* lstat throws *)
| Dir (entries : list (string * node))         (* readdir's names, and what is there *)
      (mkdir_fails readdir_fails : option error)
| Link (readlink : settled string) (unlink_fails symlink_fails : option error)
| File (mode : Z) (mkdir_fails copy_fails chmod_fails : option error)
| Other.                                       (* a socket, a device, a pipe *)

(** What the script writes to the console. *)
Inductive console : Type :=
| WarnSkippingMissing (src : path)             (* Skipping missing: ... *)
| WarnSymlink (src : path) (msg : string)      (* Failed to copy symlink: ... *)
| ErrorCopyFile (src : path) (msg : string)    (* Failed to copy file: ... *)
| WarnMode (dst : path) (msg : string)         (* Failed to set mode for ... *)
| LogCopying (name : string) (src dst : path)  (* Copying name: src -> dest *)
| ErrorCopying (name : string) (e : error)     (* Error copying name: ... *)
| LogComplete                                  (* Asset bundling complete. *)
| ErrorFatal (e : error).                      (* Fatal error during bundling: ... *)

(** The calls the script makes, in order; a call that fails is
    recorded too. *)
Inductive op : Type :=
| Mkdir (p : path)                             (* fsp.mkdir(p, { recursive: true }) *)
| Unlink (p : path)
| Symlink (target : string) (p : path)
| CopyFile (src dst : path)
| Chmod (p : path) (mode : Z)
| Console (c : console)
| Exit (code : Z).

Definition trace : Type := list op.

(** Statements, as in [Host], over the trace. *)
Definition M (A : Type) : Type := trace -> Host.outcome A * trace.

Definition ret {A} (a : A) : M A := fun t => (Host.Returned a, t).

Definition throw {A} (e : error) : M A := fun t => (Host.Thrown e, t).

Definition bind {A B} (m : M A) (k : A -> M B) : M B :=
  fun t => match m t with
           | (Host.Returned a, t') => k a t'
           | (Host.Thrown e, t') => (Host.Thrown e, t')
           end.

Definition try_catch {A} (m : M A) (h : error -> M A) : M A :=
  fun t => match m t with
           | (Host.Returned a, t') => (Host.Returned a, t')
           | (Host.Thrown e, t') => h e t'
           end.

Definition exec {A} (m : M A) (t : trace) : trace := snd (m t).

Notation "x <- m ;; k" := (bind m (fun x => k))
  (at level 61, m at next level, right associativity).
Notation "m ;; k" := (bind m (fun _ => k))
  (at level 61, right associativity).

(** A call is made, and fails or not. *)
Definition call (o : op) (fails : option error) : M unit := fun t =>
  (match fails with Some e => Host.Thrown e | None => Host.Returned tt end, t ++ [o]).

Definition say (c : console) : M unit := call (Console c) None.

(** [ensureDir(dir)] *)
Definition ensureDir (dir : path) (fails : option error) : M unit :=
  call (Mkdir dir) fails.

(** [opts]: the names to leave out. *)
Record options : Type := mkOptions {
  skipDirs : list string;
  skipFiles : list string
}.

(** [set.has(name)] *)
Definition has (set : list string) (name : string) : bool :=
  existsb (String.eqb name) set.

(** [copyRecursive(src, dst, opts)], where [n] is what is at [src]. *)
Fixpoint copyRecursive (opts : options) (src dst : path) (n : node) : M unit :=
  match n with
  | Missing => say (WarnSkippingMissing src)
  | Dir entries mkdir_fails readdir_fails =>
      if has (skipDirs opts) (basename src) then ret tt
      else
        ensureDir dst mkdir_fails ;;
        match readdir_fails with
        | Some e => throw e
        | None =>
            (fix each (entries : list (string * node)) : M unit :=
               match entries with
               | [] => ret tt
               | (entry, child) :: rest =>
                   copyRecursive opts (join src entry) (join dst entry) child ;;
                   each rest
               end) entries
        end
  | Link readlink unlink_fails symlink_fails =>
      try_catch
        (match readlink with
         | Rejected e => throw e
         | Resolved link =>
             try_catch (call (Unlink dst) unlink_fails) (fun _ => ret tt) ;;
             call (Symlink link dst) symlink_fails
         end)
        (fun err => say (WarnSymlink src (message err)))
  | File mode mkdir_fails copy_fails chmod_fails =>
      if has (skipFiles opts) (basename src) then ret tt
      else
        ensureDir (dirname dst) mkdir_fails ;;
        try_catch
          (call (CopyFile src dst) copy_fails)
          (fun err => say (ErrorCopyFile src (message err)) ;; throw err) ;;
        try_catch
          (call (Chmod dst (Z.land mode 511)) chmod_fails)
          (fun err => say (WarnMode dst (message err)))
  | Other => ret tt
  end.

(** The loop over the entries of a directory. *)
Fixpoint each (opts : options) (src dst : path) (entries : list (string * node))
  : M unit :=
  match entries with
  | [] => ret tt
  | (entry, child) :: rest =>
      copyRecursive opts (join src entry) (join dst entry) child ;;
      each opts src dst rest
  end.

(** One element of [sources]. *)
Record source : Type := mkSource {
  name : string;
  src : path;
  dest : path;
  opts : options
}.

Definition sources : list source :=
  [ {| name := "agent-server"; src := ["agent-server"];
       dest := ["extension"; "agent-server"];
       opts := {| skipDirs := ["venv"; "__pycache__"]; skipFiles := [".env"] |} |};
    {| name := "scripts"; src := ["scripts"];
       dest := ["extension"; "scripts"];
       opts := {| skipDirs := []; skipFiles := [] |} |};
    {| name := "bundled-mcp"; src := ["bundled-mcp"];
       dest := ["extension"; "bundled-mcp"];
       opts := {| skipDirs := ["venv"; "__pycache__"]; skipFiles := [] |} |} ].

(** [copyAll()], where [world] says what is at each source.  The loop
    is written for any list of sources. *)
Fixpoint copy_sources (world : string -> node) (ss : list source) : M unit :=
  match ss with
  | [] => ret tt
  | s :: rest =>
      say (LogCopying (name s) (src s) (dest s)) ;;
      try_catch
        (copyRecursive (opts s) (src s) (dest s) (world (name s)))
        (fun err => say (ErrorCopying (name s) err)) ;;
      copy_sources world rest
  end.

Definition copyAll (world : string -> node) : M unit := copy_sources world sources.

(** [main()] *)
Definition main (world : string -> node) : M unit :=
  try_catch
    (copyAll world ;;
     say LogComplete ;;
     call (Exit 0) None)
    (fun err =>
       say (ErrorFatal err) ;;
       call (Exit 2) None).

(** The file or link at [src ++ rel] is reached from [src] through
    directories that are not left out. *)
Definition reachable (opts : options) (src : path) (rel : path) : Prop :=
  forall k, k < length rel ->
            has (skipDirs opts) (basename (src ++ firstn k rel)) = false.

(** What is at the relative path [rel] below what [lstat] finds at
    the source: one entry of a directory per component. *)
Inductive at_path : node -> path -> node -> Prop :=
| at_here (n : node) : at_path n [] n
| at_below (entries : list (string * node)) (m r : option error) (entry : string)
    (child : node) (rel : path) (n : node) :
    In (entry, child) entries -> at_path child rel n ->
    at_path (Dir entries m r) (entry :: rel) n.

(** A call for the copy of [src], where [root] is, to [dst] stays
    inside [dst], mirrors the place of its source below [src], and
    concerns nothing that is left out: a file is copied from where a
    file is, and the mode set on the copy is the mode of that file,
    its permission bits only; a link is made where a link is. *)
Definition respects (opts : options) (src dst : path) (root : node) (o : op) : Prop :=
  match o with
  | CopyFile s d =>
      exists rel mode m c h,
        s = src ++ rel /\ d = dst ++ rel
        /\ reachable opts src rel
        /\ has (skipFiles opts) (basename s) = false
        /\ at_path root rel (File mode m c h)
  | Chmod d md =>
      exists rel mode m c h,
        d = dst ++ rel
        /\ reachable opts src rel
        /\ has (skipFiles opts) (basename (src ++ rel)) = false
        /\ at_path root rel (File mode m c h)
        /\ md = Z.land mode 511
  | Mkdir d =>
      (exists rel entries m r,
          d = dst ++ rel /\ reachable opts src rel
          /\ has (skipDirs opts) (basename (src ++ rel)) = false
          /\ at_path root rel (Dir entries m r))
      \/ (exists rel mode m c h,
             d = dirname (dst ++ rel) /\ reachable opts src rel
             /\ has (skipFiles opts) (basename (src ++ rel)) = false
             /\ at_path root rel (File mode m c h))
  | Unlink d | Symlink _ d =>
      exists rel l u s,
        d = dst ++ rel /\ reachable opts src rel /\ at_path root rel (Link l u s)
  | Console _ => True
  | Exit _ => False
  end.

(** A small source tree: two files to copy, a file and a directory to
    leave out. *)
Definition agent_server_tree : node :=
  Dir [ ("main.py", File 33188 None None None);
        (".env", File 33152 None None None);
        ("venv", Dir [("bin", Dir [("python", File 33261 None None None)] None None)]
                     None None);
        ("run.sh", File 33261 None None None) ]
      None None.

End Bundle.

(** * Properties *)

(** ** Facts about the string operations *)

Module StrFacts.
Import Str.

Lemma prefix_app (p s : string) :
  String.prefix p s = true <-> exists post, s = p ++ post.
Proof.
  revert s. induction p as [|c p IH]; intros [|d s]; simpl.
  - split; [intros _; now exists "" | reflexivity].
  - split; [intros _; now exists (String d s) | reflexivity].
  - split; [discriminate | intros [post H]; discriminate].
  - destruct (ascii_dec c d) as [->|Hne].
    + rewrite IH. split; intros [post H]; exists post; [now subst | now inversion H].
    + split; [discriminate | intros [post H]; inversion H; congruence].
Qed.

Lemma includes_app (s pat : string) :
  includes s pat = true <-> exists pre post, s = pre ++ pat ++ post.
Proof.
  induction s as [|c s IH]; cbn [includes].
  - destruct (String.prefix pat "") eqn:Hp.
    + split; [intros _|reflexivity].
      apply prefix_app in Hp as [post Hp]. now exists "", post.
    + split; [discriminate|]. intros (pre & post & H).
      destruct pre; [|discriminate]. simpl in H.
      assert (String.prefix pat "" = true) by (apply prefix_app; now exists post).
      congruence.
  - destruct (String.prefix pat (String c s)) eqn:Hp.
    + split; [intros _|reflexivity].
      apply prefix_app in Hp as [post Hp]. now exists "", post.
    + rewrite IH. split.
      * intros (pre & post & ->). now exists (String c pre), post.
      * intros (pre & post & H). destruct pre as [|d pre].
        -- simpl in H.
           assert (String.prefix pat (String c s) = true)
             by (apply prefix_app; now exists post).
           congruence.
        -- inversion H; subst. now exists pre, post.
Qed.

Lemma toLowerCase_app (a b : string) :
  toLowerCase (a ++ b) = toLowerCase a ++ toLowerCase b.
Proof. induction a as [|c a IH]; simpl; [reflexivity | now rewrite IH]. Qed.

Lemma toLowerCase_split (s a b : string) :
  toLowerCase s = a ++ b ->
  exists s1 s2, s = s1 ++ s2 /\ toLowerCase s1 = a /\ toLowerCase s2 = b.
Proof.
  revert s. induction a as [|c a IH]; intros s H; simpl in H.
  - now exists "", s.
  - destruct s as [|d s]; [discriminate|]. simpl in H. inversion H; subst.
    destruct (IH s H2) as (s1 & s2 & -> & <- & <-).
    now exists (String d s1), s2.
Qed.

Lemma eq_ignore_case_lower (a b : string) :
  eq_ignore_case a b <-> toLowerCase a = toLowerCase b.
Proof.
  revert b. induction a as [|c a IH]; intros [|d b]; simpl;
    try (split; [tauto | discriminate]); [tauto|].
  rewrite IH. split.
  - intros [-> ->]. reflexivity.
  - intros H. inversion H. auto.
Qed.

(** The code's search (lower-case, then [includes]) finds exactly the
    occurrences that ignore case, for a pattern already in lower case. *)
Lemma includes_lower_spec (s pat : string) :
  toLowerCase pat = pat ->
  (includes (toLowerCase s) pat = true <-> contains_ignoring_case s pat).
Proof.
  intros Hpat. rewrite includes_app. unfold contains_ignoring_case. split.
  - intros (a & b & H).
    destruct (toLowerCase_split _ _ _ H) as (pre & rest & -> & <- & Hrest).
    destruct (toLowerCase_split _ _ _ Hrest) as (mid & post & -> & Hmid & <-).
    exists pre, mid, post. split; [reflexivity|].
    apply eq_ignore_case_lower. congruence.
  - intros (pre & mid & post & -> & Hmid).
    apply eq_ignore_case_lower in Hmid.
    exists (toLowerCase pre), (toLowerCase post).
    rewrite !toLowerCase_app. congruence.
Qed.

End StrFacts.

(** ** The webview reducer *)

Module ReducerFacts.

(** Each field of the merged snapshot, in [App.tsx]: the payload's value
    when it has the field's type, else the envelope's, else the old one. *)
Lemma app_handler_field (f : App.field) (ev : value) (prev : App.WebviewData) :
  App.proj f (App.handler ev prev) =
    if App.well_typed f (get (App.msg_of ev) (App.key f))
    then get (App.msg_of ev) (App.key f)
    else if App.well_typed f (get (App.raw_of ev) (App.key f))
    then get (App.raw_of ev) (App.key f)
    else App.proj f prev.
Proof. destruct f; reflexivity. Qed.

(** The same in the approval revision, where [proposedToolCall] has one
    more source before the old value. *)
Lemma approval_handler_field (f : AppApproval.field) (ev : value)
    (prev : AppApproval.WebviewData) :
  AppApproval.proj f (AppApproval.handler ev prev) =
    if AppApproval.well_typed f (get (AppApproval.msg_of ev) (AppApproval.key f))
    then get (AppApproval.msg_of ev) (AppApproval.key f)
    else if AppApproval.well_typed f (get (AppApproval.raw_of ev) (AppApproval.key f))
    then get (AppApproval.raw_of ev) (AppApproval.key f)
    else match AppApproval.derived f ev with
         | Some v => v
         | None => AppApproval.proj f prev
         end.
Proof.
  destruct f; try reflexivity.
  cbn [AppApproval.proj AppApproval.handler AppApproval.proposedToolCall
       AppApproval.well_typed AppApproval.key AppApproval.derived].
  destruct (typeof_string (get (AppApproval.msg_of ev) "proposedToolCall")); [reflexivity|].
  destruct (typeof_string (get (AppApproval.raw_of ev) "proposedToolCall")); [reflexivity|].
  destruct (AppApproval.has_artifact_call (AppApproval.msg_of ev)); [reflexivity|].
  destruct (AppApproval.has_artifact_call (AppApproval.raw_of ev)); reflexivity.
Qed.

Lemma app_undefined_ill_typed (f : App.field) : App.well_typed f VUndef = false.
Proof. destruct f; reflexivity. Qed.

Lemma approval_undefined_ill_typed (f : AppApproval.field) :
  AppApproval.well_typed f VUndef = false.
Proof. destruct f; reflexivity. Qed.

(** The receivers the reducer reads properties of are never null or
    undefined, so no read of it throws. *)
Lemma raw_not_nullish (ev : value) : nullish (AppApproval.raw_of ev) = false.
Proof. destruct ev; reflexivity. Qed.

Lemma msg_not_nullish (ev : value) : nullish (AppApproval.msg_of ev) = false.
Proof.
  unfold AppApproval.msg_of, coalesce at 1.
  destruct (nullish (get (AppApproval.raw_of ev) "data")) eqn:E; [apply raw_not_nullish | exact E].
Qed.

(** The snapshots the components start from are well typed. *)
Lemma app_initial_valid : App.valid App.initial.
Proof. intros f. destruct f; reflexivity. Qed.

Lemma approval_initial_valid : AppApproval.valid AppApproval.initial.
Proof. intros f. destruct f; cbn; auto. Qed.

(** What a derived [proposedToolCall] is: a string. *)
Lemma derived_is_string (f : AppApproval.field) (ev v : value) :
  AppApproval.derived f ev = Some v -> typeof_string v = true.
Proof.
  destruct f; try discriminate. cbn [AppApproval.derived].
  unfold AppApproval.has_artifact_call, AppApproval.artifact_call.
  destruct (isArray (get (AppApproval.msg_of ev) "artifacts")
            && truthy (index (get (AppApproval.msg_of ev) "artifacts") 0)
            && typeof_string (get (index (get (AppApproval.msg_of ev) "artifacts") 0) "call"))
    eqn:E1.
  - intros [= <-]. now apply andb_true_iff in E1 as [_ E1].
  - destruct (isArray (get (AppApproval.raw_of ev) "artifacts")
              && truthy (index (get (AppApproval.raw_of ev) "artifacts") 0)
              && typeof_string (get (index (get (AppApproval.raw_of ev) "artifacts") 0) "call"))
      eqn:E2; [|discriminate].
    intros [= <-]. now apply andb_true_iff in E2 as [_ E2].
Qed.

End ReducerFacts.

(** ** UI Sync Channel: the snapshot and the approval gate *)

Module UiSync.
Import ReducerFacts.

(** C2, as stated, fails: the update [{prompt: 5}] includes the field
    [prompt], and the reducer of [App.tsx] keeps the held "x" instead of
    replacing it by the update's value. *)
Lemma included_field_not_replaced :
  has_key Scenario.numeric_prompt "prompt" = true
  /\ App.prompt (App.handler Scenario.numeric_prompt Scenario.held) = VStr "x"
  /\ App.prompt (App.handler Scenario.numeric_prompt Scenario.held)
     <> get Scenario.numeric_prompt "prompt".
Proof. repeat split. discriminate. Qed.

(** C2 (amended): for every snapshot and every incoming message, in both
    revisions of the reducer: a field that the message carries neither in
    its payload nor on its envelope keeps the value held before (in the
    approval revision [proposedToolCall] does so when the message has no
    first-artifact call string either); a field whose value in the payload
    has the field's type replaces the held value by exactly that value,
    arrays and objects included, with no merging; and a snapshot holding
    a plan and prompt "x" that receives an update with only a plan keeps
    prompt "x" and takes the new plan. *)
Theorem field_level_merge :
  (forall f ev prev,
      get (App.msg_of ev) (App.key f) = VUndef ->
      get (App.raw_of ev) (App.key f) = VUndef ->
      App.proj f (App.handler ev prev) = App.proj f prev)
  /\ (forall f ev prev,
      App.well_typed f (get (App.msg_of ev) (App.key f)) = true ->
      App.proj f (App.handler ev prev) = get (App.msg_of ev) (App.key f))
  /\ (forall f ev prev,
      get (AppApproval.msg_of ev) (AppApproval.key f) = VUndef ->
      get (AppApproval.raw_of ev) (AppApproval.key f) = VUndef ->
      AppApproval.derived f ev = None ->
      AppApproval.proj f (AppApproval.handler ev prev) = AppApproval.proj f prev)
  /\ (forall f ev prev,
      AppApproval.well_typed f (get (AppApproval.msg_of ev) (AppApproval.key f)) = true ->
      AppApproval.proj f (AppApproval.handler ev prev)
      = get (AppApproval.msg_of ev) (AppApproval.key f))
  /\ (forall prev q m,
      m = VObj [("plan", VArr q)]
      \/ m = VObj [("type", VStr "task_update"); ("data", VObj [("plan", VArr q)])] ->
      App.prompt prev = VStr "x" ->
      App.prompt (App.handler m prev) = VStr "x"
      /\ App.plan (App.handler m prev) = VArr q)
  /\ (forall prev q m,
      m = VObj [("plan", VArr q)]
      \/ m = VObj [("type", VStr "task_update"); ("data", VObj [("plan", VArr q)])] ->
      AppApproval.prompt prev = VStr "x" ->
      AppApproval.prompt (AppApproval.handler m prev) = VStr "x"
      /\ AppApproval.plan (AppApproval.handler m prev) = VArr q).
Proof.
  repeat apply conj.
  - intros f ev prev Hm Hr. rewrite app_handler_field, Hm, Hr.
    now rewrite app_undefined_ill_typed.
  - intros f ev prev Hm. now rewrite app_handler_field, Hm.
  - intros f ev prev Hm Hr Hd. rewrite approval_handler_field, Hm, Hr, Hd.
    now rewrite approval_undefined_ill_typed.
  - intros f ev prev Hm. now rewrite approval_handler_field, Hm.
  - intros prev q m [->| ->] Hx; (split; [exact Hx | reflexivity]).
  - intros prev q m [->| ->] Hx; (split; [exact Hx | reflexivity]).
Qed.

(** The scenario of section 8 on the reducer of [App.tsx], for the bare
    update and for the enveloped one. *)
Lemma field_level_merge_witness :
  (App.prompt (App.handler Scenario.plan_only Scenario.held) = VStr "x"
   /\ App.plan (App.handler Scenario.plan_only Scenario.held) = VArr [VStr "c"])
  /\ (App.prompt (App.handler Scenario.plan_only_enveloped Scenario.held) = VStr "x"
      /\ App.plan (App.handler Scenario.plan_only_enveloped Scenario.held)
         = VArr [VStr "c"]).
Proof.
  destruct field_level_merge as (_ & _ & _ & _ & H & _).
  split.
  - exact (H Scenario.held [VStr "c"] _ (or_introl eq_refl) eq_refl).
  - exact (H Scenario.held [VStr "c"] _ (or_intror eq_refl) eq_refl).
Defined.

(** C10, as stated, fails: the update carries [proposedToolCall] as a
    number, and the reducer of the approval revision does not retain the
    held proposal but stores the first artifact's call description. *)
Lemma ill_typed_tool_call_not_retained :
  has_key Scenario.numeric_tool_call "proposedToolCall" = true
  /\ typeof_string (get Scenario.numeric_tool_call "proposedToolCall") = false
  /\ AppApproval.proposedToolCall
       (AppApproval.handler Scenario.numeric_tool_call Scenario.paused)
     = VStr "delete_file(a.txt)"
  /\ AppApproval.proposedToolCall
       (AppApproval.handler Scenario.numeric_tool_call Scenario.paused)
     <> AppApproval.proposedToolCall Scenario.paused.
Proof. repeat split. discriminate. Qed.

(** C10 (amended): a value of the wrong type is never stored.  When the
    payload's value of a field has the wrong type, the reducer takes the
    envelope's value of that field if that one has the right type, and
    otherwise retains the value held before; for [proposedToolCall] in the
    approval revision the first artifact's call string, when the message
    has one, comes before the held value.  So a snapshot whose fields are
    well typed stays so under every message. *)
Theorem ill_typed_field_ignored :
  (forall f ev prev,
      App.well_typed f (get (App.msg_of ev) (App.key f)) = false ->
      App.proj f (App.handler ev prev)
      = if App.well_typed f (get (App.raw_of ev) (App.key f))
        then get (App.raw_of ev) (App.key f)
        else App.proj f prev)
  /\ (forall f ev prev,
      AppApproval.well_typed f (get (AppApproval.msg_of ev) (AppApproval.key f)) = false ->
      AppApproval.proj f (AppApproval.handler ev prev)
      = if AppApproval.well_typed f (get (AppApproval.raw_of ev) (AppApproval.key f))
        then get (AppApproval.raw_of ev) (AppApproval.key f)
        else match AppApproval.derived f ev with
             | Some call => call
             | None => AppApproval.proj f prev
             end)
  /\ (forall f ev, f <> AppApproval.FproposedToolCall -> AppApproval.derived f ev = None)
  /\ (forall ev prev, App.valid prev -> App.valid (App.handler ev prev))
  /\ (forall ev prev, AppApproval.valid prev -> AppApproval.valid (AppApproval.handler ev prev)).
Proof.
  repeat apply conj.
  - intros f ev prev Hm. now rewrite app_handler_field, Hm.
  - intros f ev prev Hm. now rewrite approval_handler_field, Hm.
  - intros f ev Hf. destruct f; try reflexivity. congruence.
  - intros ev prev Hv f. rewrite app_handler_field.
    destruct (App.well_typed f (get (App.msg_of ev) (App.key f))) eqn:E1; [exact E1|].
    destruct (App.well_typed f (get (App.raw_of ev) (App.key f))) eqn:E2; [exact E2|].
    apply Hv.
  - intros ev prev Hv f. rewrite approval_handler_field.
    destruct (AppApproval.well_typed f (get (AppApproval.msg_of ev) (AppApproval.key f)))
      eqn:E1; [now left|].
    destruct (AppApproval.well_typed f (get (AppApproval.raw_of ev) (AppApproval.key f)))
      eqn:E2; [now left|].
    destruct (AppApproval.derived f ev) as [v|] eqn:E3; [|apply Hv].
    left. pose proof (derived_is_string _ _ _ E3) as Hs.
    destruct f; try discriminate. exact Hs.
Qed.

(** An ill-typed [next] in the payload: the envelope's string is taken. *)
Lemma ill_typed_field_ignored_witness :
  AppApproval.next (AppApproval.handler Scenario.next_on_envelope Scenario.paused)
  = VStr "Planner".
Proof.
  destruct ill_typed_field_ignored as (_ & H & _).
  exact (H AppApproval.Fnext Scenario.next_on_envelope Scenario.paused eq_refl).
Defined.

(** What the handlers post to the window passes the reducer without
    changing the snapshot. *)
Lemma approval_notice_ignored (d : AppApproval.WebviewData) (m : string) :
  AppApproval.handler (AppApproval.approval_error m) d = d.
Proof. destruct d; reflexivity. Qed.

Lemma approved_notice_ignored (d : AppApproval.WebviewData) :
  AppApproval.handler (AppApproval.approval_approved (AppApproval.taskId d)) d = d.
Proof. destruct d as [? ? ? ? ? tid ? ? ?]; destruct tid; reflexivity. Qed.

Lemma rejected_notice_ignored (d : AppApproval.WebviewData) (feedback : string) :
  AppApproval.handler (AppApproval.approval_rejected (AppApproval.taskId d) feedback) d = d.
Proof. destruct d as [? ? ? ? ? tid ? ? ?]; destruct tid; reflexivity. Qed.

(** C4: the approval gate is active exactly when the snapshot's [next] is
    a string that contains "executor" with case ignored; submitting an
    approval or a rejection, however its request ends, leaves the whole
    snapshot, and so the gate, as it was; and a gate that is active
    before a message and inactive after it was cleared by a [next] string
    of that message which does not match. *)
Theorem approval_gate_follows_next :
  (forall d,
      AppApproval.gate_active d = true <->
      exists s, AppApproval.next d = VStr s /\ Str.contains_ignoring_case s "executor")
  /\ (forall d r, AppApproval.after_approve d r = d)
  /\ (forall d feedback r, AppApproval.after_reject d feedback r = d)
  /\ (forall d ev,
      AppApproval.gate_active d = true ->
      AppApproval.gate_active (AppApproval.handler ev d) = false ->
      exists s,
        (get (AppApproval.msg_of ev) "next" = VStr s
         \/ get (AppApproval.raw_of ev) "next" = VStr s)
        /\ AppApproval.next (AppApproval.handler ev d) = VStr s
        /\ ~ Str.contains_ignoring_case s "executor").
Proof.
  assert (Hgate : forall v,
             AppApproval.isPausedForApproval v = true <->
             exists s, v = VStr s /\ Str.contains_ignoring_case s "executor").
  { intros v. unfold AppApproval.isPausedForApproval.
    destruct v; try (split; [discriminate | intros (s0 & H & _); discriminate]).
    rewrite StrFacts.includes_lower_spec by reflexivity. split.
    - intros H. now exists s.
    - intros (s0 & [= <-] & H). exact H. }
  repeat apply conj.
  - intros d. apply Hgate.
  - intros d r. unfold AppApproval.after_approve, AppApproval.handleApprove.
    destruct (negb (truthy (AppApproval.taskId d))); [|destruct r]; cbn;
      auto using approval_notice_ignored, approved_notice_ignored.
  - intros d feedback r. unfold AppApproval.after_reject, AppApproval.handleReject.
    destruct (negb (truthy (AppApproval.taskId d))); [|destruct r]; cbn;
      auto using approval_notice_ignored, rejected_notice_ignored.
  - intros d ev Hon Hoff. unfold AppApproval.gate_active in *.
    pose proof (approval_handler_field AppApproval.Fnext ev d) as Hn.
    cbn [AppApproval.proj AppApproval.well_typed AppApproval.key AppApproval.derived] in Hn.
    destruct (typeof_string (get (AppApproval.msg_of ev) "next")) eqn:E1.
    + destruct (get (AppApproval.msg_of ev) "next") as [| | | |s| |] eqn:Em; try discriminate.
      exists s. repeat split; auto.
      intros Hc. rewrite Hn in Hoff.
      assert (AppApproval.isPausedForApproval (VStr s) = true) by (apply Hgate; eauto).
      congruence.
    + destruct (typeof_string (get (AppApproval.raw_of ev) "next")) eqn:E2.
      * destruct (get (AppApproval.raw_of ev) "next") as [| | | |s| |] eqn:Er; try discriminate.
        exists s. repeat split; auto.
        intros Hc. rewrite Hn in Hoff.
        assert (AppApproval.isPausedForApproval (VStr s) = true) by (apply Hgate; eauto).
        congruence.
      * rewrite Hn in Hoff. congruence.
Qed.

(** Scenario B: the gate is up on [next: "Executor"], stays up when the
    user approves, and the poll response [next: "Planner"] clears it. *)
Lemma approval_gate_follows_next_witness :
  AppApproval.gate_active Scenario.paused = true
  /\ AppApproval.gate_active
       (AppApproval.after_approve Scenario.paused (Resolved tt)) = true
  /\ exists s,
       (get (AppApproval.msg_of Scenario.planner_update) "next" = VStr s
        \/ get (AppApproval.raw_of Scenario.planner_update) "next" = VStr s)
       /\ AppApproval.next (AppApproval.handler Scenario.planner_update Scenario.paused)
          = VStr s
       /\ ~ Str.contains_ignoring_case s "executor".
Proof.
  destruct approval_gate_follows_next as (_ & Happ & _ & Hclear).
  split; [reflexivity|]. split; [now rewrite Happ|].
  exact (Hclear Scenario.paused Scenario.planner_update eq_refl eq_refl).
Defined.

End UiSync.

(** ** The extension host: intervals under the handlers *)

Module HostFacts.
Import Host Machine.
#[local] Open Scope list_scope.
#[local] Arguments Extension.isNetworkError : simpl never.
#[local] Arguments type_error : simpl never.
#[local] Arguments decimal : simpl never.
#[local] Arguments ToString : simpl never.
#[local] Arguments has_text : simpl never.
#[local] Arguments lone_surrogate : simpl never.

Lemma update_length (h : nat) (f : interval -> interval) (ts : list interval) :
  length (update h f ts) = length ts.
Proof.
  revert h. induction ts as [|t ts IH]; intros [|h]; simpl; auto.
Qed.

Lemma update_same (h : nat) (f : interval -> interval) (ts : list interval) :
  nth_error (update h f ts) h = option_map f (nth_error ts h).
Proof.
  revert h. induction ts as [|t ts IH]; intros [|h]; simpl; auto.
Qed.

Lemma update_other (h h' : nat) (f : interval -> interval) (ts : list interval) :
  h <> h' -> nth_error (update h f ts) h' = nth_error ts h'.
Proof.
  revert h h'. induction ts as [|t ts IH]; intros [|h] [|h'] Hne; simpl; auto.
  congruence.
Qed.



Lemma same_kind_refl (a : callback) : same_kind a a.
Proof. destruct a; reflexivity. Qed.


Lemma fades_refl (t : interval) : fades t t.
Proof. repeat split; auto using same_kind_refl. Qed.


Lemma evolves_refl (ts : list interval) : evolves ts ts.
Proof. intros h t H. exists t. auto using fades_refl. Qed.


Lemma evolves_app (ts new : list interval) : evolves ts (ts ++ new).
Proof.
  intros h t H. exists t. split; [|apply fades_refl].
  rewrite nth_error_app1; [exact H|]. apply nth_error_Some. congruence.
Qed.

Lemma evolves_update (h : nat) (f : interval -> interval) (ts : list interval) :
  (forall t, fades t (f t)) -> evolves ts (update h f ts).
Proof.
  intros Hf h' t Ht. destruct (Nat.eq_dec h h') as [->|Hne].
  - exists (f t). rewrite update_same, Ht. auto.
  - exists t. rewrite update_other by exact Hne. auto using fades_refl.
Qed.

Create HintDb host.

#[local] Hint Resolve evolves_refl evolves_app evolves_update fades_refl : host.

(** *** Reads that throw, and conversions *)

Lemma taskId_of_returns (data : value) (s : state) :
  nullish data = false ->
  Extension.taskId_of data s
  = (Returned (or_else (get data "task_id") (or_else (get data "id") (get data "taskId"))), s).
Proof.
  intros Hn. unfold Extension.taskId_of, prop, bind, ret, or_else. rewrite Hn. cbn.
  destruct (truthy (get data "task_id")); [reflexivity|].
  destruct (truthy (get data "id")); reflexivity.
Qed.

Lemma taskId_of_throws (data : value) (s : state) :
  nullish data = true ->
  Extension.taskId_of data s = (Thrown (type_error data "task_id"), s).
Proof.
  intros Hn. unfold Extension.taskId_of, prop, bind. now rewrite Hn.
Qed.

Lemma isCompleted_returns (j : value) (s : state) :
  nullish j = false ->
  isCompleted j s
  = (Returned (is_string (get j "task_status") "completed"
               || is_string (get j "status") "completed"
               || is_string (get j "state") "completed"), s).
Proof.
  intros Hn. unfold isCompleted, prop, bind, ret. rewrite Hn. cbn.
  destruct (is_string (get j "task_status") "completed"); [reflexivity|].
  destruct (is_string (get j "status") "completed"); reflexivity.
Qed.

Lemma isCompleted_throws (j : value) (s : state) :
  nullish j = true -> isCompleted j s = (Thrown (type_error j "task_status"), s).
Proof. intros Hn. unfold isCompleted, prop, bind. now rewrite Hn. Qed.

Lemma nullish_get (j : value) (k : string) : nullish j = true -> get j k = VUndef.
Proof. destruct j; try discriminate; reflexivity. Qed.

Lemma completes_nullish (resp : response) (j : value) :
  json resp = Resolved j -> nullish j = true -> completes (Resolved (Some resp)) = false.
Proof.
  intros Hj Hn. unfold completes. rewrite Hj. now rewrite !(nullish_get j) by exact Hn.
Qed.

(** The errors of the extension's own making are no connectivity
    failures for the test of [osae.start]. *)
Lemma null_body_not_network (data : value) :
  nullish data = true -> Extension.isNetworkError (type_error data "task_id") = false.
Proof. destruct data; try discriminate; intros _; vm_compute; reflexivity. Qed.

Lemma no_primitive_not_network : Extension.isNetworkError no_primitive = false.
Proof. vm_compute. reflexivity. Qed.

Lemma webview_disposed_not_network : Extension.isNetworkError webview_disposed = false.
Proof. vm_compute. reflexivity. Qed.

(** *** The poll callback once its request has settled *)

(** Case analysis of a run of [pollSettled]. *)
Ltac poll_cases h p id r s :=
  unfold exec, pollSettled, pollFailed, try_catch, bind, await, interpolate,
    postMessage;
  destruct (has_text id) eqn:Htext;
  (destruct r as [[resp|]|e]; cbn;
   [ destruct (json resp) as [j|e] eqn:Hj; cbn;
     [ destruct (is_disposed s p) eqn:Hdisp; cbn;
       [ | destruct (nullish j) eqn:Hn;
           [ rewrite isCompleted_throws by exact Hn
           | rewrite isCompleted_returns by exact Hn;
             destruct (is_string (get j "task_status") "completed"
                       || is_string (get j "status") "completed"
                       || is_string (get j "state") "completed") eqn:Hdone ];
           cbn ]
     | ]
   | | ]).

(** The poll callback clears its own interval when the response reports
    completion and the callback gets as far as [clearInterval]; it
    touches no interval otherwise. *)
Lemma pollSettled_intervals (h p : nat) (id : value) (r : fetched) (s : state) :
  intervals (exec (pollSettled h p id r) s)
  = if completes r && negb (is_disposed s p) && has_text id
    then update h stop (intervals s) else intervals s.
Proof.
  poll_cases h p id r s; unfold completes; rewrite ?Hj, ?Hdone;
    rewrite ?(nullish_get j) by exact Hn; cbn; rewrite ?andb_false_r; reflexivity.
Qed.

Lemma pollSettled_posted (h p : nat) (id : value) (r : fetched) (s : state) :
  posted (exec (pollSettled h p id r) s)
  = posted s ++ (if is_disposed s p then []
                 else match r with
                      | Resolved (Some resp) =>
                          match json resp with
                          | Resolved j => [task_update j]
                          | Rejected _ => []
                          end
                      | _ => []
                      end).
Proof.
  poll_cases h p id r s; rewrite ?Hj; cbn; rewrite ?app_nil_r; try reflexivity;
    destruct (is_disposed s p); now rewrite ?app_nil_r.
Qed.

(** What the callback leaves alone. *)
Lemma pollSettled_frame (h p : nat) (id : value) (r : fetched) (s : state) :
  let s' := exec (pollSettled h p id r) s in
  fetches s' = fetches s /\ disposed s' = disposed s /\ panels s' = panels s
  /\ dashboardPanel s' = dashboardPanel s /\ errorMessages s' = errorMessages s.
Proof.
  cbv zeta. poll_cases h p id r s; repeat split.
Qed.


(** On a closed panel a body that could be read is not delivered: the
    post throws, and the callback logs that as a poll error. *)
Lemma pollSettled_closed_log (h p : nat) (id : value) (resp : response) (j : value)
    (s : state) :
  has_text id = true -> is_disposed s p = true -> json resp = Resolved j ->
  outputChannel (exec (pollSettled h p id (Resolved (Some resp))) s)
  = outputChannel s ++ [LogPollError id webview_disposed].
Proof.
  intros Ht Hd Hr.
  unfold exec, pollSettled, pollFailed, try_catch, bind, await, interpolate, postMessage.
  cbn. rewrite Hr. cbn. rewrite Hd, Ht. reflexivity.
Qed.

(** *** [osae.start] *)

Lemma ensureDashboard_eq (s : state) :
  ensureDashboard s = (Returned (panel_for s), opened s).
Proof.
  unfold opened, exec, panel_for, ensureDashboard.
  destruct (dashboardPanel s); reflexivity.
Qed.

Lemma is_disposed_app (s : state) (p : nat) (l : list nat) :
  existsb (Nat.eqb p) (disposed s ++ l) = is_disposed s p || existsb (Nat.eqb p) l.
Proof. apply existsb_app. Qed.

(** Case analysis of a run of [osae.start] on an open dashboard [p]. *)
Ltac start_cases b hf closed create s p Hp Hopen :=
  unfold step, handle, exec;
  destruct b;
  unfold Extension.osae_start, ExtensionVenv.osae_start, Extension.startSimulatedTask,
    try_catch, bind, await, ensureDashboard, interpolate, postMessage;
  rewrite Hp; cbn;
  (destruct hf; cbn;
   [ destruct closed; cbn;
     (destruct create as [[res|]|e]; cbn;
      [ destruct (ok res) eqn:Hok; cbn;
        [ destruct (json res) as [data|e] eqn:Hj; cbn;
          [ destruct (nullish data) eqn:Hn;
            [ rewrite taskId_of_throws by exact Hn
            | rewrite taskId_of_returns by exact Hn;
              destruct (truthy (or_else (get data "task_id")
                                        (or_else (get data "id") (get data "taskId"))))
                eqn:Htruthy;
              cbn;
              [ destruct (has_text (or_else (get data "task_id")
                                            (or_else (get data "id") (get data "taskId"))))
                  eqn:Htext
              | ] ];
            cbn
          | ]
        | ]
      | | ])
   | ]);
  unfold is_disposed in *; cbn;
  repeat (first [rewrite Hopen | rewrite existsb_app | rewrite Nat.eqb_refl
                | rewrite orb_true_r]; cbn);
  rewrite ?null_body_not_network by assumption;
  rewrite ?no_primitive_not_network, ?webview_disposed_not_network; cbn;
  try match goal with
      | |- context [Extension.isNetworkError ?e] =>
          destruct (Extension.isNetworkError e) eqn:Hnet; cbn;
          unfold postMessage, is_disposed; cbn;
          repeat (first [rewrite Hopen | rewrite existsb_app | rewrite Nat.eqb_refl
                        | rewrite orb_true_r]; cbn)
      end.

(** [osae.start] registers at most one interval and leaves the others as
    they are. *)
Lemma start_intervals_open (b : build) (has_fetch : bool) (now : Z) (closed : bool)
    (create : fetched) (s : state) (p : nat) :
  dashboardPanel s = Some p -> is_disposed s p = false ->
  intervals (step b s (Start has_fetch now closed create))
  = intervals s ++ registered b has_fetch now closed create p.
Proof.
  intros Hp Hopen. unfold registered, polled, created_task, start_error.
  start_cases b has_fetch closed create s p Hp Hopen.
  all: rewrite ?Hok, ?Hj, ?Hn, ?Htruthy, ?Htext, ?Hnet; cbn.
  all: rewrite ?null_body_not_network by assumption;
    rewrite ?no_primitive_not_network, ?webview_disposed_not_network, ?app_nil_r; cbn.
  all: reflexivity.
Qed.

(** The messages a run of [osae.start] posts go with the interval it
    registers: the task-started message before a poll loop, the two
    first messages of the simulated run before its timer. *)
Lemma start_posted_open (b : build) (has_fetch : bool) (now : Z) (closed : bool)
    (create : fetched) (s : state) (p : nat) :
  dashboardPanel s = Some p -> is_disposed s p = false ->
  posted (step b s (Start has_fetch now closed create))
  = posted s
    ++ match registered b has_fetch now closed create p with
       | t :: _ =>
           match body t with
           | PollTask id => [Extension.task_started id]
           | Simulated sid _ => [Extension.sim_started sid; Extension.sim_progress 0]
           end
       | [] => []
       end.
Proof.
  intros Hp Hopen. unfold registered, polled, created_task, start_error.
  start_cases b has_fetch closed create s p Hp Hopen.
  all: rewrite ?Hok, ?Hj, ?Hn, ?Htruthy, ?Htext, ?Hnet; cbn.
  all: rewrite ?null_body_not_network by assumption;
    rewrite ?no_primitive_not_network, ?webview_disposed_not_network, ?app_nil_r; cbn.
  all: rewrite <- ?app_assoc; reflexivity.
Qed.

Lemma start_fetches_open (b : build) (has_fetch : bool) (now : Z) (closed : bool)
    (create : fetched) (s : state) (p : nat) :
  dashboardPanel s = Some p -> is_disposed s p = false ->
  fetches (step b s (Start has_fetch now closed create))
  = fetches s
    ++ (if has_fetch
        then [PostTask (match b with
                        | WithFallback => VObj []
                        | VenvOnly => VObj [("prompt", VStr "")]
                        end) 3000]
        else []).
Proof.
  intros Hp Hopen.
  start_cases b has_fetch closed create s p Hp Hopen.
  all: rewrite ?app_nil_r; reflexivity.
Qed.

(** The revision without the fallback shows an error message for every
    exception of the attempt, and for nothing else; the one with the
    fallback shows none. *)
Lemma start_errors_open (b : build) (has_fetch : bool) (now : Z) (closed : bool)
    (create : fetched) (s : state) (p : nat) :
  dashboardPanel s = Some p -> is_disposed s p = false ->
  errorMessages (step b s (Start has_fetch now closed create))
  = errorMessages s
    ++ match b, (if has_fetch then start_error closed create else None) with
       | VenvOnly, Some e => [("[OSAE] Failed to create task: " ++ String_of_error e)%string]
       | _, _ => []
       end.
Proof.
  intros Hp Hopen. unfold start_error.
  start_cases b has_fetch closed create s p Hp Hopen.
  all: rewrite ?Hok, ?Hj, ?Hn, ?Htruthy, ?Htext; cbn.
  all: rewrite ?app_nil_r; reflexivity.
Qed.

(** The dashboard after [osae.start]: closed if the user closed it. *)
Lemma start_dashboard_open (b : build) (has_fetch : bool) (now : Z) (closed : bool)
    (create : fetched) (s : state) (p : nat) :
  dashboardPanel s = Some p -> is_disposed s p = false ->
  let s' := step b s (Start has_fetch now closed create) in
  dashboardPanel s' = (if has_fetch && closed then None else Some p)
  /\ disposed s' = disposed s ++ (if has_fetch && closed then [p] else [])
  /\ panels s' = panels s
  /\ pythonProcess s' = pythonProcess s /\ commands s' = commands s
  /\ spawned s' = spawned s /\ killed s' = killed s.
Proof.
  intros Hp Hopen. cbv zeta.
  start_cases b has_fetch closed create s p Hp Hopen.
  all: rewrite ?app_nil_r, ?Hp; repeat split; reflexivity.
Qed.

(** A start that sets a poll loop up writes the Started line, and
    nothing else, to the output channel. *)
Lemma start_announces_open (b : build) (has_fetch : bool) (now : Z) (closed : bool)
    (create : fetched) (s : state) (p : nat) (id : value) :
  dashboardPanel s = Some p -> is_disposed s p = false ->
  has_fetch = true ->
  polled closed create = Some id ->
  outputChannel (step b s (Start has_fetch now closed create))
  = outputChannel s ++ [LogStarted id].
Proof.
  intros Hp Hopen. unfold polled, created_task.
  start_cases b has_fetch closed create s p Hp Hopen.
  all: rewrite ?Hok, ?Hj, ?Hn, ?Htruthy, ?Htext; cbn; try discriminate.
  all: intros _; try discriminate.
  all: now intros [= <-].
Qed.

(** *** From an open dashboard to any sound state *)

Lemma opened_fields (s : state) :
  dashboardPanel (opened s) = Some (panel_for s)
  /\ disposed (opened s) = disposed s
  /\ panels (opened s) = match dashboardPanel s with Some _ => panels s | None => S (panels s) end
  /\ outputChannel (opened s) = outputChannel s /\ posted (opened s) = posted s
  /\ intervals (opened s) = intervals s /\ fetches (opened s) = fetches s
  /\ errorMessages (opened s) = errorMessages s
  /\ pythonProcess (opened s) = pythonProcess s /\ commands (opened s) = commands s
  /\ spawned (opened s) = spawned s /\ killed (opened s) = killed s.
Proof.
  unfold opened, exec, panel_for, ensureDashboard.
  destruct (dashboardPanel s) eqn:E; cbn; rewrite ?E; repeat split.
Qed.

Lemma start_opened (b : build) (has_fetch : bool) (now : Z) (closed : bool)
    (create : fetched) (s : state) :
  step b s (Start has_fetch now closed create)
  = step b (opened s) (Start has_fetch now closed create).
Proof.
  unfold step, handle, exec, opened, exec.
  destruct b; unfold Extension.osae_start, ExtensionVenv.osae_start, bind, ensureDashboard;
    destruct (dashboardPanel s) eqn:E; cbn; rewrite ?E; reflexivity.
Qed.

Lemma forallb_lt_fresh (n : nat) (l : list nat) :
  forallb (fun p => (p <? n)%nat) l = true -> existsb (Nat.eqb n) l = false.
Proof.
  induction l as [|x l IH]; cbn; [reflexivity|].
  intros H. apply andb_true_iff in H as [Hx Hl]. rewrite (IH Hl), orb_false_r.
  apply Nat.ltb_lt in Hx. apply Nat.eqb_neq. lia.
Qed.

Lemma sound_parts (s : state) :
  sound s = true ->
  (forall p, dashboardPanel s = Some p -> (p < panels s)%nat /\ is_disposed s p = false)
  /\ forallb (fun p => (p <? panels s)%nat) (disposed s) = true
  /\ forallb (fun t => match body t with
                       | PollTask id => has_text id
                       | Simulated _ _ => true
                       end) (intervals s) = true.
Proof.
  unfold sound. intros H. apply andb_true_iff in H as [H H3].
  apply andb_true_iff in H as [H1 H2]. split; [|split; assumption].
  intros p Hp. rewrite Hp in H1. apply andb_true_iff in H1 as [Ha Hb]. split.
  - now apply Nat.ltb_lt.
  - now apply negb_true_iff.
Qed.

(** In a sound state the panel [osae.start] posts to is open. *)
Lemma sound_open (s : state) :
  sound s = true -> is_disposed (opened s) (panel_for s) = false.
Proof.
  intros Hs. destruct (sound_parts s Hs) as (H1 & H2 & _).
  unfold is_disposed. destruct (opened_fields s) as (_ & -> & _).
  unfold panel_for. destruct (dashboardPanel s) as [p|] eqn:E.
  - apply (H1 p eq_refl).
  - apply forallb_lt_fresh. exact H2.
Qed.

Lemma start_intervals (b : build) (has_fetch : bool) (now : Z) (closed : bool)
    (create : fetched) (s : state) :
  sound s = true ->
  intervals (step b s (Start has_fetch now closed create))
  = intervals s ++ registered b has_fetch now closed create (panel_for s).
Proof.
  intros Hs. destruct (opened_fields s) as (Hp & _ & _ & _ & _ & Hi & _).
  rewrite start_opened, (start_intervals_open _ _ _ _ _ _ _ Hp (sound_open s Hs)).
  now rewrite Hi.
Qed.

Lemma start_posted (b : build) (has_fetch : bool) (now : Z) (closed : bool)
    (create : fetched) (s : state) :
  sound s = true ->
  posted (step b s (Start has_fetch now closed create))
  = posted s
    ++ match registered b has_fetch now closed create (panel_for s) with
       | t :: _ =>
           match body t with
           | PollTask id => [Extension.task_started id]
           | Simulated sid _ => [Extension.sim_started sid; Extension.sim_progress 0]
           end
       | [] => []
       end.
Proof.
  intros Hs. destruct (opened_fields s) as (Hp & _ & _ & _ & Hi & _).
  rewrite start_opened, (start_posted_open _ _ _ _ _ _ _ Hp (sound_open s Hs)).
  now rewrite Hi.
Qed.

Lemma start_fetches (b : build) (has_fetch : bool) (now : Z) (closed : bool)
    (create : fetched) (s : state) :
  sound s = true ->
  fetches (step b s (Start has_fetch now closed create))
  = fetches s
    ++ (if has_fetch
        then [PostTask (match b with
                        | WithFallback => VObj []
                        | VenvOnly => VObj [("prompt", VStr "")]
                        end) 3000]
        else []).
Proof.
  intros Hs. destruct (opened_fields s) as (Hp & _ & _ & _ & _ & _ & Hi & _).
  rewrite start_opened, (start_fetches_open _ _ _ _ _ _ _ Hp (sound_open s Hs)).
  now rewrite Hi.
Qed.

Lemma start_errors (b : build) (has_fetch : bool) (now : Z) (closed : bool)
    (create : fetched) (s : state) :
  sound s = true ->
  errorMessages (step b s (Start has_fetch now closed create))
  = errorMessages s
    ++ match b, (if has_fetch then start_error closed create else None) with
       | VenvOnly, Some e => [("[OSAE] Failed to create task: " ++ String_of_error e)%string]
       | _, _ => []
       end.
Proof.
  intros Hs. destruct (opened_fields s) as (Hp & _ & _ & _ & _ & _ & _ & Hi & _).
  rewrite start_opened, (start_errors_open _ _ _ _ _ _ _ Hp (sound_open s Hs)).
  now rewrite Hi.
Qed.

Lemma start_announces (b : build) (now : Z) (closed : bool) (create : fetched)
    (s : state) (id : value) :
  sound s = true ->
  polled closed create = Some id ->
  outputChannel (step b s (Start true now closed create)) = outputChannel s ++ [LogStarted id].
Proof.
  intros Hs Hc. destruct (opened_fields s) as (Hp & _ & _ & Hi & _).
  rewrite start_opened,
    (start_announces_open _ _ _ _ _ _ _ _ Hp (sound_open s Hs) eq_refl Hc).
  now rewrite Hi.
Qed.

Lemma start_dashboard (b : build) (has_fetch : bool) (now : Z) (closed : bool)
    (create : fetched) (s : state) :
  sound s = true ->
  let s' := step b s (Start has_fetch now closed create) in
  dashboardPanel s' = (if has_fetch && closed then None else Some (panel_for s))
  /\ disposed s' = disposed s ++ (if has_fetch && closed then [panel_for s] else [])
  /\ panels s' = match dashboardPanel s with Some _ => panels s | None => S (panels s) end
  /\ pythonProcess s' = pythonProcess s /\ commands s' = commands s
  /\ spawned s' = spawned s /\ killed s' = killed s.
Proof.
  intros Hs. cbv zeta.
  destruct (opened_fields s)
    as (Hp & Hd & Hn & _ & _ & _ & _ & _ & H1 & H2 & H3 & H4).
  rewrite start_opened.
  destruct (start_dashboard_open b has_fetch now closed create _ _ Hp (sound_open s Hs))
    as (E1 & E2 & E3 & E4 & E5 & E6 & E7).
  cbv zeta in *. rewrite E1, E2, E3, E4, E5, E6, E7, Hd, Hn, H1, H2, H3, H4.
  repeat split.
Qed.

(** *** A tick *)

(** Case analysis of the callback of interval [h]. *)
Ltac fire_cases h s :=
  unfold exec, fire;
  destruct (nth_error (intervals s) h) as [ft|] eqn:Hft;
  [ destruct (live ft) eqn:Hfl;
    [ destruct (body ft) as [fid|fsid fidx] eqn:Hfb;
      [ unfold pollRequest, pollFailed, try_catch, bind, encodeURIComponent,
          interpolate, has_text;
        destruct (ToString fid) as [text|] eqn:Hftext;
        [ destruct (lone_surrogate text) eqn:Hfsur | ]; cbn
      | unfold Extension.simTick, bind, postMessage, is_disposed; cbn;
        destruct (existsb (Nat.eqb (panel ft)) (disposed s)) eqn:Hfdisp; cbn;
        [ | destruct (fidx + 1 >=? 2)%Z eqn:Hflast; cbn; rewrite ?Hfdisp; cbn ] ]
    | ]
  | ].

Lemma fire_other (h0 h : nat) (s : state) :
  h0 <> h -> nth_error (intervals (exec (fire h0) s)) h = nth_error (intervals s) h.
Proof.
  intros Hne. fire_cases h0 s; now rewrite ?update_other by exact Hne.
Qed.

Lemma fire_poll (h : nat) (s : state) (t : interval) (id : value) :
  nth_error (intervals s) h = Some t -> body t = PollTask id ->
  nth_error (intervals (exec (fire h) s)) h
  = Some (if live t && encodable id
          then {| period := period t; panel := panel t; body := body t; live := live t;
                  inflight := S (inflight t) |}
          else t).
Proof.
  intros Ht Hb. unfold encodable.
  fire_cases h s; try discriminate;
    injection Ht as ->; rewrite ?Hfl; cbn;
    try (rewrite Hfb in Hb; injection Hb as ->; rewrite ?Hftext, ?Hfsur; cbn);
    rewrite ?update_same, ?Hft; cbn; rewrite ?Hfb, ?Hfl; try reflexivity; try congruence.
Qed.

Lemma fire_simulated (h : nat) (s : state) (t : interval) (sid : string) (idx : Z) :
  nth_error (intervals s) h = Some t -> body t = Simulated sid idx -> live t = true ->
  nth_error (intervals (exec (fire h) s)) h
  = Some {| period := period t; panel := panel t; body := Simulated sid (idx + 1);
            live := is_disposed s (panel t) || negb (idx + 1 >=? 2)%Z;
            inflight := inflight t |}.
Proof.
  intros Ht Hb Hl. unfold is_disposed.
  fire_cases h s; try discriminate;
    injection Ht as ->; try congruence;
    rewrite Hfb in Hb; injection Hb as -> ->; rewrite ?Hfdisp, ?Hflast; cbn;
    rewrite ?update_same, ?Hft; cbn; rewrite ?update_same, ?Hft; cbn;
    now rewrite ?Hl.
Qed.

Lemma fire_not_live (h : nat) (s : state) (t : interval) :
  nth_error (intervals s) h = Some t -> live t = false -> exec (fire h) s = s.
Proof. intros Ht Hl. unfold exec, fire. now rewrite Ht, Hl. Qed.

Lemma fire_evolves (h : nat) (s : state) :
  evolves (intervals s) (intervals (exec (fire h) s)).
Proof.
  intros h' t' Ht'. destruct (Nat.eq_dec h h') as [->|Hne].
  - destruct (body t') as [id|sid idx] eqn:Hb.
    + rewrite (fire_poll _ _ _ _ Ht' Hb).
      destruct (live t' && encodable id); eexists; (split; [reflexivity|]);
        [|apply fades_refl].
      repeat split; cbn; auto. rewrite Hb. reflexivity.
    + destruct (live t') eqn:Hl.
      * rewrite (fire_simulated _ _ _ _ _ Ht' Hb Hl).
        eexists; split; [reflexivity|]. repeat split; cbn; auto.
        rewrite Hb. reflexivity.
      * rewrite (fire_not_live _ _ _ Ht' Hl). eauto using fades_refl.
  - rewrite fire_other by exact Hne. eauto using fades_refl.
Qed.

Lemma fire_length (h : nat) (s : state) :
  length (intervals (exec (fire h) s)) = length (intervals s).
Proof. fire_cases h s; now rewrite ?update_length. Qed.

(** What a tick leaves alone. *)
Lemma fire_frame (h : nat) (s : state) :
  let s' := exec (fire h) s in
  disposed s' = disposed s /\ panels s' = panels s
  /\ dashboardPanel s' = dashboardPanel s /\ errorMessages s' = errorMessages s.
Proof. cbv zeta. fire_cases h s; repeat split. Qed.

(** The request of a tick: the poll request of the task whose live
    interval fires, if its identifier can be put into the URL. *)
Lemma fire_fetches (h : nat) (s : state) :
  fetches (exec (fire h) s)
  = fetches s
    ++ match polls s h with
       | Some id => if is_live s h && encodable id then [GetTask id] else []
       | None => []
       end.
Proof.
  unfold polls, is_live, encodable.
  fire_cases h s; rewrite ?Hftext, ?Hfsur; cbn; try (destruct (body ft));
    now rewrite ?app_nil_r.
Qed.

(** *** A poll request settles *)

Lemma settle_runs_callback (h : nat) (r : fetched) (s : state) (t : interval)
    (id : value) :
  nth_error (intervals s) h = Some t -> body t = PollTask id -> 0 < inflight t ->
  exec (settle h r) s = exec (pollSettled h (panel t) id r) (exec (request_settled h) s).
Proof.
  intros Ht Hb Hn. unfold exec at 1, settle. rewrite Ht, Hb.
  destruct (inflight t); [lia|]. reflexivity.
Qed.

Lemma settle_idle (h : nat) (r : fetched) (s : state) :
  pending s h = 0 -> exec (settle h r) s = s.
Proof.
  unfold pending, exec, settle.
  destruct (nth_error (intervals s) h) as [t|]; [|reflexivity].
  intros ->. destruct (body t); reflexivity.
Qed.

Lemma settle_simulated (h : nat) (r : fetched) (s : state) (t : interval)
    (sid : string) (idx : Z) :
  nth_error (intervals s) h = Some t -> body t = Simulated sid idx ->
  exec (settle h r) s = s.
Proof. intros Ht Hb. unfold exec, settle. now rewrite Ht, Hb. Qed.

Lemma settle_unregistered (h : nat) (r : fetched) (s : state) :
  nth_error (intervals s) h = None -> exec (settle h r) s = s.
Proof. intros Ht. unfold exec, settle. now rewrite Ht. Qed.

Lemma settle_intervals (h : nat) (r : fetched) (s : state) (t : interval) (id : value) :
  nth_error (intervals s) h = Some t -> body t = PollTask id -> 0 < inflight t ->
  intervals (exec (settle h r) s)
  = (if completes r && negb (is_disposed s (panel t)) && has_text id
     then update h stop else fun ts => ts)
      (update h (fun t0 => {| period := period t0; panel := panel t0; body := body t0;
                              live := live t0; inflight := pred (inflight t0) |})
         (intervals s)).
Proof.
  intros Ht Hb Hn. rewrite (settle_runs_callback _ _ _ _ _ Ht Hb Hn).
  rewrite pollSettled_intervals.
  change (is_disposed (exec (request_settled h) s) (panel t))
    with (is_disposed s (panel t)).
  destruct (completes r && negb (is_disposed s (panel t)) && has_text id); reflexivity.
Qed.

Lemma settle_other (h0 h : nat) (r : fetched) (s : state) :
  h0 <> h -> nth_error (intervals (exec (settle h0 r) s)) h = nth_error (intervals s) h.
Proof.
  intros Hne.
  destruct (nth_error (intervals s) h0) as [t|] eqn:Ht;
    [|now rewrite settle_unregistered].
  destruct (body t) as [id|sid idx] eqn:Hb;
    [|now rewrite (settle_simulated _ _ _ _ _ _ Ht Hb)].
  destruct (inflight t) as [|n] eqn:Hi.
  - rewrite settle_idle; [reflexivity|]. unfold pending. now rewrite Ht.
  - rewrite (settle_intervals _ _ _ _ _ Ht Hb) by lia.
    destruct (completes r && negb (is_disposed s (panel t)) && has_text id);
      now rewrite ?update_other by exact Hne.
Qed.

Lemma settle_poll (h : nat) (r : fetched) (s : state) (t : interval) (id : value) :
  nth_error (intervals s) h = Some t -> body t = PollTask id -> 0 < inflight t ->
  nth_error (intervals (exec (settle h r) s)) h
  = Some {| period := period t; panel := panel t; body := body t;
            live := live t
                    && negb (completes r && negb (is_disposed s (panel t)) && has_text id);
            inflight := pred (inflight t) |}.
Proof.
  intros Ht Hb Hn. rewrite (settle_intervals _ _ _ _ _ Ht Hb Hn).
  destruct (completes r && negb (is_disposed s (panel t)) && has_text id);
    rewrite !update_same, ?Ht; cbn; rewrite ?Ht; cbn.
  - now rewrite andb_false_r.
  - now rewrite andb_true_r.
Qed.

Lemma settle_evolves (h : nat) (r : fetched) (s : state) :
  evolves (intervals s) (intervals (exec (settle h r) s)).
Proof.
  intros h' t' Ht'. destruct (Nat.eq_dec h h') as [->|Hne].
  - destruct (body t') as [id|sid idx] eqn:Hb.
    + destruct (inflight t') as [|n] eqn:Hi.
      * rewrite settle_idle by (unfold pending; now rewrite Ht').
        eauto using fades_refl.
      * rewrite (settle_poll _ _ _ _ _ Ht' Hb) by lia.
        eexists; split; [reflexivity|]. repeat split; cbn.
        -- rewrite Hb. reflexivity.
        -- intros H. now apply andb_true_iff in H as [H _].
    + rewrite (settle_simulated _ _ _ _ _ _ Ht' Hb). eauto using fades_refl.
  - rewrite settle_other by exact Hne. eauto using fades_refl.
Qed.

Lemma settle_length (h : nat) (r : fetched) (s : state) :
  length (intervals (exec (settle h r) s)) = length (intervals s).
Proof.
  destruct (nth_error (intervals s) h) as [t|] eqn:Ht;
    [|now rewrite settle_unregistered].
  destruct (body t) as [id|sid idx] eqn:Hb;
    [|now rewrite (settle_simulated _ _ _ _ _ _ Ht Hb)].
  destruct (inflight t) as [|n] eqn:Hi.
  - rewrite settle_idle; [reflexivity|]. unfold pending. now rewrite Ht.
  - rewrite (settle_intervals _ _ _ _ _ Ht Hb) by lia.
    destruct (completes r && negb (is_disposed s (panel t)) && has_text id);
      now rewrite ?update_length.
Qed.

(** What the settling of a request leaves alone. *)
Lemma settle_frame (h : nat) (r : fetched) (s : state) :
  let s' := exec (settle h r) s in
  fetches s' = fetches s /\ disposed s' = disposed s /\ panels s' = panels s
  /\ dashboardPanel s' = dashboardPanel s /\ errorMessages s' = errorMessages s.
Proof.
  cbv zeta.
  destruct (nth_error (intervals s) h) as [t|] eqn:Ht;
    [|rewrite settle_unregistered by exact Ht; repeat split].
  destruct (body t) as [id|sid idx] eqn:Hb;
    [|rewrite (settle_simulated _ _ _ _ _ _ Ht Hb); repeat split].
  destruct (inflight t) as [|n] eqn:Hi.
  - rewrite settle_idle; [repeat split|]. unfold pending. now rewrite Ht.
  - rewrite (settle_runs_callback _ _ _ _ _ Ht Hb) by lia.
    apply (pollSettled_frame h (panel t) id r (exec (request_settled h) s)).
Qed.

(** *** The dashboard is closed; the extension is deactivated *)

Lemma close_fields (s : state) :
  let s' := exec closeDashboard s in
  intervals s' = intervals s /\ fetches s' = fetches s /\ posted s' = posted s
  /\ outputChannel s' = outputChannel s /\ errorMessages s' = errorMessages s
  /\ panels s' = panels s /\ dashboardPanel s' = None
  /\ disposed s' = disposed s ++ match dashboardPanel s with
                                 | Some p => [p]
                                 | None => []
                                 end.
Proof.
  cbv zeta. unfold exec, closeDashboard.
  destruct (dashboardPanel s) as [p|] eqn:E; cbn; rewrite ?app_nil_r; repeat split.
  exact E.
Qed.

Lemma deactivate_fields (s : state) :
  let s' := exec deactivate s in
  intervals s' = intervals s /\ fetches s' = fetches s /\ posted s' = posted s
  /\ errorMessages s' = errorMessages s /\ panels s' = panels s
  /\ dashboardPanel s' = dashboardPanel s /\ disposed s' = disposed s.
Proof.
  cbv zeta. unfold exec, deactivate, bind, try_catch, get_pythonProcess. cbn.
  destruct (pythonProcess s) as [p|]; cbn; [|repeat split].
  unfold kill. destruct (kill_throws p); repeat split.
Qed.

Lemma deactivate_intervals (s : state) : intervals (exec deactivate s) = intervals s.
Proof. apply deactivate_fields. Qed.

(** *** Steps and runs *)

Lemma polled_has_text (closed : bool) (create : fetched) (id : value) :
  polled closed create = Some id -> has_text id = true /\ closed = false.
Proof.
  unfold polled. destruct (created_task create) as [id'|]; [|discriminate].
  destruct (has_text id') eqn:E; [|discriminate].
  destruct closed; [discriminate|]. now intros [= <-].
Qed.

Lemma registered_at_most_one (b : build) (has_fetch : bool) (now : Z) (closed : bool)
    (create : fetched) (p : nat) :
  length (registered b has_fetch now closed create p) <= 1.
Proof.
  unfold registered. destruct has_fetch; [|cbn; lia].
  destruct (polled closed create); [cbn; lia|].
  destruct b; [|cbn; lia].
  destruct (start_error closed create) as [e|]; [|cbn; lia].
  destruct (Extension.isNetworkError e && negb closed); cbn; lia.
Qed.

Lemma registered_has_text (b : build) (has_fetch : bool) (now : Z) (closed : bool)
    (create : fetched) (p : nat) :
  forallb (fun t => match body t with
                    | PollTask id => has_text id
                    | Simulated _ _ => true
                    end) (registered b has_fetch now closed create p) = true.
Proof.
  unfold registered. destruct has_fetch; [|reflexivity].
  destruct (polled closed create) as [id|] eqn:E.
  - cbn. now rewrite (proj1 (polled_has_text _ _ _ E)).
  - destruct b; [|reflexivity].
    destruct (start_error closed create) as [e|]; [|reflexivity].
    destruct (Extension.isNetworkError e && negb closed); reflexivity.
Qed.

Lemma registered_panel (b : build) (has_fetch : bool) (now : Z) (closed : bool)
    (create : fetched) (p : nat) (t : interval) :
  In t (registered b has_fetch now closed create p) ->
  panel t = p /\ live t = true /\ closed = false.
Proof.
  unfold registered. destruct has_fetch; [|contradiction].
  destruct (polled closed create) as [id|] eqn:E.
  - intros [<-|[]]. cbn. repeat split. exact (proj2 (polled_has_text _ _ _ E)).
  - destruct b; [|contradiction].
    destruct (start_error closed create) as [e|]; [|contradiction].
    destruct (Extension.isNetworkError e); [|contradiction].
    destruct closed; [contradiction|]. intros [<-|[]]. repeat split.
Qed.

(** Every step lets the registered intervals only fade. *)
Lemma step_evolves (b : build) (s : state) (e : event) :
  sound s = true -> evolves (intervals s) (intervals (step b s e)).
Proof.
  intros Hs. destruct e as [hf now cl c|h|h r| |].
  - rewrite start_intervals by exact Hs. apply evolves_app.
  - apply fire_evolves.
  - apply settle_evolves.
  - unfold step, handle. destruct (close_fields s) as (-> & _). apply evolves_refl.
  - unfold step, handle. rewrite deactivate_intervals. apply evolves_refl.
Qed.

Lemma step_length (b : build) (s : state) (e : event) :
  sound s = true ->
  length (intervals (step b s e))
  = length (intervals s)
    + match e with
      | Start has_fetch now closed create =>
          length (registered b has_fetch now closed create (panel_for s))
      | _ => 0
      end.
Proof.
  intros Hs. destruct e as [hf now cl c|h|h r| |].
  - now rewrite start_intervals, length_app.
  - rewrite Nat.add_0_r. apply fire_length.
  - rewrite Nat.add_0_r. apply settle_length.
  - unfold step, handle. destruct (close_fields s) as (-> & _). now rewrite Nat.add_0_r.
  - unfold step, handle. now rewrite deactivate_intervals, Nat.add_0_r.
Qed.

(** A closed panel stays closed, and panels are only added. *)
Lemma step_disposed (b : build) (s : state) (e : event) :
  sound s = true ->
  (exists l, disposed (step b s e) = disposed s ++ l) /\ panels s <= panels (step b s e).
Proof.
  intros Hs. destruct e as [hf now cl c|h|h r| |].
  - destruct (start_dashboard b hf now cl c s Hs) as (_ & -> & -> & _).
    split; [eauto|]. destruct (dashboardPanel s); lia.
  - destruct (fire_frame h s) as (E1 & E2 & _). unfold step, handle.
    rewrite E1, E2. split; [exists []; now rewrite app_nil_r | lia].
  - destruct (settle_frame h r s) as (_ & E1 & E2 & _). unfold step, handle.
    rewrite E1, E2. split; [exists []; now rewrite app_nil_r | lia].
  - destruct (close_fields s) as (_ & _ & _ & _ & _ & E2 & _ & E1). unfold step, handle.
    rewrite E1, E2. split; [eauto | lia].
  - destruct (deactivate_fields s) as (_ & _ & _ & _ & E2 & _ & E1). unfold step, handle.
    rewrite E1, E2. split; [exists []; now rewrite app_nil_r | lia].
Qed.

Lemma is_disposed_step (b : build) (s : state) (e : event) (p : nat) :
  sound s = true -> is_disposed s p = true -> is_disposed (step b s e) p = true.
Proof.
  intros Hs Hd. destruct (step_disposed b s e Hs) as [[l E] _].
  unfold is_disposed in *. now rewrite E, existsb_app, Hd.
Qed.

Lemma sound_intro (s : state) :
  (forall p, dashboardPanel s = Some p -> (p < panels s)%nat /\ is_disposed s p = false) ->
  forallb (fun p => (p <? panels s)%nat) (disposed s) = true ->
  forallb (fun t => match body t with
                    | PollTask id => has_text id
                    | Simulated _ _ => true
                    end) (intervals s) = true ->
  sound s = true.
Proof.
  intros H1 H2 H3. unfold sound. rewrite H2, H3, !andb_true_r.
  destruct (dashboardPanel s) as [p|]; [|reflexivity].
  destruct (H1 p eq_refl) as [Ha Hb]. apply Nat.ltb_lt in Ha. now rewrite Ha, Hb.
Qed.

Lemma forallb_lt_le (n m : nat) (l : list nat) :
  n <= m -> forallb (fun p => (p <? n)%nat) l = true ->
  forallb (fun p => (p <? m)%nat) l = true.
Proof.
  intros Hle H. rewrite forallb_forall in *. intros x Hx.
  specialize (H x Hx). apply Nat.ltb_lt in H. apply Nat.ltb_lt. lia.
Qed.

Lemma evolves_has_text (ts ts' : list interval) :
  length ts' = length ts -> evolves ts ts' ->
  forallb (fun t => match body t with
                    | PollTask id => has_text id
                    | Simulated _ _ => true
                    end) ts = true ->
  forallb (fun t => match body t with
                    | PollTask id => has_text id
                    | Simulated _ _ => true
                    end) ts' = true.
Proof.
  revert ts'. induction ts as [|t ts IH]; intros [|t' ts'] Hlen Hev H;
    try discriminate; [reflexivity|].
  cbn in *. apply andb_true_iff in H as [Ht Hts].
  destruct (Hev 0 t eq_refl) as (x & [= <-] & _ & _ & K & _).
  rewrite IH; [|lia|intros h x Hx; exact (Hev (S h) x Hx)|exact Hts].
  rewrite andb_true_r.
  destruct (body t), (body t'); simpl in K; try contradiction; subst; auto.
Qed.

(** Every step keeps the state sound. *)
Lemma step_sound (b : build) (s : state) (e : event) :
  sound s = true -> sound (step b s e) = true.
Proof.
  intros Hs. destruct (sound_parts s Hs) as (H1 & H2 & H3).
  destruct e as [hf now cl c|h|h r| |].
  - destruct (start_dashboard b hf now cl c s Hs) as (E1 & E2 & E3 & _).
    assert (Hfresh : (panel_for s < match dashboardPanel s with
                                    | Some _ => panels s
                                    | None => S (panels s)
                                    end)%nat
                     /\ is_disposed s (panel_for s) = false).
    { unfold panel_for. destruct (dashboardPanel s) as [p|] eqn:E.
      - apply (H1 p eq_refl).
      - split; [lia|]. apply forallb_lt_fresh. exact H2. }
    destruct Hfresh as [Hlt Hopen].
    apply sound_intro.
    + rewrite E1, E3. intros p Hp. unfold is_disposed. rewrite E2.
      destruct (hf && cl); [discriminate|]. injection Hp as <-.
      rewrite app_nil_r. split; assumption.
    + rewrite E2, E3, forallb_app. apply andb_true_iff. split.
      * eapply forallb_lt_le; [|exact H2]. destruct (dashboardPanel s); lia.
      * destruct (hf && cl); [|reflexivity]. cbn [forallb].
        rewrite andb_true_r. now apply Nat.ltb_lt.
    + rewrite start_intervals by exact Hs. rewrite forallb_app, H3.
      apply registered_has_text.
  - destruct (fire_frame h s) as (E1 & E2 & E3 & _). unfold step, handle.
    apply sound_intro.
    + rewrite E2, E3. unfold is_disposed. rewrite E1. exact H1.
    + now rewrite E1, E2.
    + eapply evolves_has_text; [apply fire_length | apply fire_evolves | exact H3].
  - destruct (settle_frame h r s) as (_ & E1 & E2 & E3 & _). unfold step, handle.
    apply sound_intro.
    + rewrite E2, E3. unfold is_disposed. rewrite E1. exact H1.
    + now rewrite E1, E2.
    + eapply evolves_has_text; [apply settle_length | apply settle_evolves | exact H3].
  - destruct (close_fields s) as (E0 & _ & _ & _ & _ & E2 & E3 & E1). unfold step, handle.
    apply sound_intro.
    + rewrite E3. discriminate.
    + rewrite E1, E2, forallb_app, H2.
      destruct (dashboardPanel s) as [p|]; [|reflexivity].
      cbn [forallb andb]. rewrite andb_true_r. apply Nat.ltb_lt.
      apply (H1 p eq_refl).
    + now rewrite E0.
  - destruct (deactivate_fields s) as (E0 & _ & _ & _ & E2 & E3 & E1). unfold step, handle.
    apply sound_intro.
    + rewrite E2, E3. unfold is_disposed. rewrite E1. exact H1.
    + now rewrite E1, E2.
    + now rewrite E0.
Qed.

Lemma run_sound (b : build) (es : list event) (s : state) :
  sound s = true -> sound (run b es s) = true.
Proof.
  revert s. induction es as [|e es IH]; intros s Hs; [exact Hs|].
  apply (IH (step b s e)). now apply step_sound.
Qed.


Lemma run_disposed (b : build) (es : list event) (s : state) (p : nat) :
  sound s = true -> is_disposed s p = true -> is_disposed (run b es s) p = true.
Proof.
  revert s. induction es as [|e es IH]; intros s Hs Hd; [exact Hd|].
  apply (IH (step b s e)); [now apply step_sound | now apply is_disposed_step].
Qed.

(** An interval that polls a task keeps polling that task, for the same
    panel. *)
Lemma polls_step (b : build) (s : state) (e : event) (h : nat) (id : value) :
  sound s = true -> polls s h = Some id -> polls (step b s e) h = Some id.
Proof.
  intros Hs. unfold polls.
  destruct (nth_error (intervals s) h) as [t|] eqn:Ht; [|discriminate].
  destruct (step_evolves b s e Hs h t Ht) as (t' & -> & _ & _ & K & _).
  destruct (body t), (body t'); simpl in K; try discriminate; try contradiction.
  now subst.
Qed.

Lemma panel_closed_step (b : build) (s : state) (e : event) (h : nat) (id : value) :
  sound s = true -> polls s h = Some id -> panel_open s h = false ->
  panel_open (step b s e) h = false.
Proof.
  intros Hs. unfold polls, panel_open.
  destruct (nth_error (intervals s) h) as [t|] eqn:Ht; [|discriminate].
  destruct (step_evolves b s e Hs h t Ht) as (t' & -> & _ & P & _).
  intros _ Hd. apply negb_false_iff in Hd. apply negb_false_iff.
  rewrite P. now apply is_disposed_step.
Qed.

(** A step leaves a poll loop as live as it was, unless the step is the
    settling of one of its requests with a response that completes, on
    an open panel. *)
Lemma poll_liveness_step (b : build) (s : state) (e : event) (h : nat) (id : value) :
  sound s = true -> polls s h = Some id ->
  is_live (step b s e) h = is_live s h && negb (cancels h s e).
Proof.
  intros Hs. unfold cancels, polls, is_live, panel_open, pending.
  destruct (nth_error (intervals s) h) as [t|] eqn:Ht; [|discriminate].
  destruct (body t) as [id'|] eqn:Hb; [|discriminate]. intros [= ->].
  destruct e as [hf now cl c|h0|h0 r| |]; cbn [negb].
  - rewrite start_intervals by exact Hs.
    rewrite nth_error_app1, Ht, andb_true_r; [reflexivity|].
    apply nth_error_Some. congruence.
  - change (step b s (Fire h0)) with (exec (fire h0) s).
    rewrite andb_true_r. destruct (Nat.eq_dec h0 h) as [->|Hne].
    + rewrite (fire_poll _ _ _ _ Ht Hb).
      destruct (live t && encodable id) eqn:E; cbn; [|reflexivity].
      now apply andb_true_iff in E as [-> _].
    + now rewrite fire_other, Ht.
  - change (step b s (Settle h0 r)) with (exec (settle h0 r) s).
    destruct (Nat.eq_dec h0 h) as [->|Hne].
    + rewrite Nat.eqb_refl. destruct (inflight t) as [|n] eqn:Hi.
      * rewrite settle_idle by (unfold pending; now rewrite Ht).
        rewrite Ht. cbn. now rewrite andb_true_r.
      * rewrite (settle_poll _ _ _ _ _ Ht Hb) by lia. cbn. reflexivity.
    + rewrite settle_other, Ht by exact Hne.
      apply Nat.eqb_neq in Hne. rewrite Hne. cbn. now rewrite andb_true_r.
  - change (step b s CloseDashboard) with (exec closeDashboard s).
    destruct (close_fields s) as (-> & _). now rewrite Ht, andb_true_r.
  - change (step b s Deactivate) with (exec deactivate s).
    rewrite deactivate_intervals, Ht. now rewrite andb_true_r.
Qed.






(** *** The count of live loops *)

Lemma fades_polling (t t' : interval) :
  fades t t' -> polling_now t' = true -> polling_now t = true.
Proof.
  intros (_ & _ & K & L). unfold polling_now. intros H.
  apply andb_true_iff in H as [H1 H2]. rewrite (L H1).
  destruct (body t), (body t'); simpl in K; try contradiction; auto.
Qed.

Lemma evolves_tail (t t' : interval) (ts ts' : list interval) :
  evolves (t :: ts) (t' :: ts') -> fades t t' /\ evolves ts ts'.
Proof.
  intros H. split.
  - destruct (H 0 t eq_refl) as (x & [= <-] & F). exact F.
  - intros h x Hx. exact (H (S h) x Hx).
Qed.

Lemma polling_not_more (ts ts' : list interval) :
  length ts' = length ts -> evolves ts ts' ->
  length (filter polling_now ts') <= length (filter polling_now ts).
Proof.
  revert ts'. induction ts as [|t ts IH]; intros [|t' ts'] Hlen Hev;
    try discriminate; [reflexivity|].
  apply evolves_tail in Hev as [F Hev]. injection Hlen as Hlen.
  specialize (IH ts' Hlen Hev). cbn.
  destruct (polling_now t') eqn:E'.
  - rewrite (fades_polling t t' F E'). cbn. lia.
  - destruct (polling_now t); cbn; lia.
Qed.

Lemma live_polls_registered (b : build) (has_fetch : bool) (now : Z) (closed : bool)
    (create : fetched) (p : nat) :
  filter polling_now (registered b has_fetch now closed create p)
  = match (if has_fetch then polled closed create else None) with
    | Some id => [poll_interval p id]
    | None => []
    end.
Proof.
  unfold registered. destruct has_fetch; [|reflexivity].
  destruct (polled closed create); [reflexivity|].
  destruct b; [|reflexivity].
  destruct (start_error closed create) as [e|]; [|reflexivity].
  destruct (Extension.isNetworkError e && negb closed); reflexivity.
Qed.

Lemma live_polls_step (b : build) (s : state) (e : event) :
  sound s = true ->
  length (live_polls (step b s e))
  <= length (live_polls s) + match e with Start _ _ _ _ => 1 | _ => 0 end.
Proof.
  intros Hs. unfold live_polls.
  destruct e as [hf now cl c|h|h r| |].
  - rewrite start_intervals, filter_app, length_app, live_polls_registered by exact Hs.
    destruct (if hf then polled cl c else None); cbn; lia.
  - rewrite Nat.add_0_r. apply polling_not_more.
    + now rewrite step_length, Nat.add_0_r.
    + now apply step_evolves.
  - rewrite Nat.add_0_r. apply polling_not_more.
    + now rewrite step_length, Nat.add_0_r.
    + now apply step_evolves.
  - rewrite Nat.add_0_r. apply polling_not_more.
    + now rewrite step_length, Nat.add_0_r.
    + now apply step_evolves.
  - rewrite Nat.add_0_r. apply polling_not_more.
    + now rewrite step_length, Nat.add_0_r.
    + now apply step_evolves.
Qed.

Lemma live_polls_run (b : build) (es : list event) (s : state) :
  sound s = true ->
  length (live_polls (run b es s)) <= length (live_polls s) + starts es.
Proof.
  revert s. induction es as [|e es IH]; intros s Hs.
  - cbn. lia.
  - change (run b (e :: es) s) with (run b es (step b s e)).
    specialize (IH (step b s e) (step_sound b s e Hs)).
    pose proof (live_polls_step b s e Hs) as H.
    assert (Hst : starts (e :: es)
                  = match e with Start _ _ _ _ => 1 | _ => 0 end + starts es)
      by (destruct e; reflexivity).
    rewrite Hst. lia.
Qed.

End HostFacts.

(** ** Task Orchestrator: the poll loop *)

Module Orchestrator.
Import Host Machine HostFacts.
#[local] Open Scope list_scope.
#[local] Arguments has_text : simpl never.

Lemma sound_polls_text (s : state) (h : nat) (id : value) :
  sound s = true -> polls s h = Some id -> has_text id = true.
Proof.
  intros Hs. destruct (sound_parts s Hs) as (_ & _ & H3). unfold polls.
  destruct (nth_error (intervals s) h) as [t|] eqn:Ht; [|discriminate].
  destruct (body t) as [id'|] eqn:Hb; [|discriminate]. intros [= <-].
  rewrite forallb_forall in H3. specialize (H3 t (nth_error_In _ _ Ht)).
  now rewrite Hb in H3.
Qed.

(** A poll loop whose dashboard was closed is never stopped. *)
Lemma closed_loop_runs_on (b : build) (es : list event) :
  forall (s : state) (h : nat) (id : value),
    sound s = true -> polls s h = Some id -> is_live s h = true ->
    panel_open s h = false ->
    is_live (run b es s) h = true.
Proof.
  induction es as [|e es IH]; intros s h id Hs Hp Hl Hc; [exact Hl|].
  change (run b (e :: es) s) with (run b es (step b s e)).
  apply (IH _ h id).
  - now apply step_sound.
  - now apply polls_step.
  - rewrite (poll_liveness_step b s e h id Hs Hp), Hl. unfold cancels.
    destruct e; try reflexivity. rewrite Hc. now rewrite !andb_false_r.
  - now apply (panel_closed_step b s e h id).
Qed.

(** C1 (where the code departs from it): on a live poll loop whose
    dashboard panel was closed, a response whose body has "completed"
    under any of the three names [task_status], [status], [state] does
    not stop the loop.  The post to the closed panel throws before the
    test for completion; the callback writes the poll-error line,
    delivers nothing, and leaves its timer live; and whatever happens
    afterwards, further completed responses included, the timer stays
    live. *)
Theorem completed_poll_on_closed_dashboard (b : build) (s : state) (h : nat)
    (id : value) (resp : response) (j : value) (k : string) :
  sound s = true ->
  polls s h = Some id ->
  is_live s h = true ->
  0 < pending s h ->
  panel_open s h = false ->
  json resp = Resolved j ->
  In k ["task_status"; "status"; "state"] ->
  get j k = VStr "completed" ->
  is_live (step b s (Settle h (Resolved (Some resp)))) h = true
  /\ outputChannel (step b s (Settle h (Resolved (Some resp))))
     = outputChannel s ++ [LogPollError id webview_disposed]
  /\ posted (step b s (Settle h (Resolved (Some resp)))) = posted s
  /\ (forall es, is_live (run b (Settle h (Resolved (Some resp)) :: es) s) h = true).
Proof.
  intros Hs Hp Hl Hn Hc Hj Hk Hg.
  pose proof (sound_polls_text s h id Hs Hp) as Ht.
  assert (Hrun : forall es, is_live (run b es s) h = true).
  { intros es. now apply (closed_loop_runs_on b es s h id). }
  split; [exact (Hrun [Settle h (Resolved (Some resp))])|].
  split; [|split; [|intros es; apply Hrun]].
  - change (step b s (Settle h (Resolved (Some resp))))
      with (exec (settle h (Resolved (Some resp))) s).
    unfold polls, pending, panel_open in *.
    destruct (nth_error (intervals s) h) as [t|] eqn:Et; [|discriminate].
    destruct (body t) as [id'|] eqn:Hb; [|discriminate]. injection Hp as ->.
    rewrite (settle_runs_callback _ _ _ _ _ Et Hb Hn).
    apply negb_false_iff in Hc.
    now rewrite (pollSettled_closed_log h (panel t) id resp j
                   (exec (request_settled h) s) Ht Hc Hj).
  - change (step b s (Settle h (Resolved (Some resp))))
      with (exec (settle h (Resolved (Some resp))) s).
    unfold polls, pending, panel_open in *.
    destruct (nth_error (intervals s) h) as [t|] eqn:Et; [|discriminate].
    destruct (body t) as [id'|] eqn:Hb; [|discriminate]. injection Hp as ->.
    rewrite (settle_runs_callback _ _ _ _ _ Et Hb Hn).
    rewrite pollSettled_posted.
    change (is_disposed (exec (request_settled h) s) (panel t))
      with (is_disposed s (panel t)).
    apply negb_false_iff in Hc. rewrite Hc. apply app_nil_r.
Qed.

(** Scenario A with the dashboard closed before the second poll answers
    [{task_status: "completed"}]: the loop goes on. *)
Lemma completed_poll_on_closed_dashboard_witness :
  is_live (step WithFallback Scenario.closed_while_polling (Settle 0 Scenario.completed)) 0
  = true
  /\ outputChannel (step WithFallback Scenario.closed_while_polling
                      (Settle 0 Scenario.completed))
     = outputChannel Scenario.closed_while_polling
       ++ [LogPollError (VStr "abc123") webview_disposed]
  /\ posted (step WithFallback Scenario.closed_while_polling (Settle 0 Scenario.completed))
     = posted Scenario.closed_while_polling
  /\ (forall es,
         is_live (run WithFallback (Settle 0 Scenario.completed :: es)
                    Scenario.closed_while_polling) 0 = true).
Proof.
  apply (completed_poll_on_closed_dashboard WithFallback Scenario.closed_while_polling 0
           (VStr "abc123")
           {| ok := true; status := 200;
              json := Resolved (VObj [("task_status", VStr "completed")]) |}
           (VObj [("task_status", VStr "completed")]) "task_status").
  - reflexivity.
  - reflexivity.
  - reflexivity.
  - vm_compute. lia.
  - reflexivity.
  - reflexivity.
  - simpl. auto.
  - reflexivity.
Defined.






(** C5, as stated, fails: a second task started while the first is being
    polled leaves two poll timers live. *)
Lemma two_tasks_two_loops :
  length (live_polls
            (run WithFallback
               [Start true 0 false Scenario.created_abc; Fire 0;
                Start true 1 false Scenario.created_def]
               initial)) = 2
  /\ length (live_polls
               (run VenvOnly
                  [Start true 0 false Scenario.created_abc; Fire 0;
                   Start true 1 false Scenario.created_def]
                  initial)) = 2.
Proof. split; reflexivity. Qed.

(** C5 (amended): a run of [osae.start] registers at most one interval
    and leaves every interval registered before as it is, so the poll
    loop of a task that is still active keeps running beside the new
    one; it adds a live poll loop exactly when it has [fetch], the
    creation succeeded, the task identifier has a string form and the
    dashboard was not closed while the request was pending; and since
    no other step adds one, the live poll loops never outnumber the
    starts. *)
Theorem each_start_adds_a_loop (b : build) (s : state) (has_fetch : bool) (now : Z)
    (closed : bool) (create : fetched) :
  sound s = true ->
  intervals (step b s (Start has_fetch now closed create))
  = intervals s ++ registered b has_fetch now closed create (panel_for s)
  /\ length (registered b has_fetch now closed create (panel_for s)) <= 1
  /\ live_polls (step b s (Start has_fetch now closed create))
     = live_polls s
       ++ match (if has_fetch then created_task create else None) with
          | Some id =>
              if has_text id && negb closed then [poll_interval (panel_for s) id] else []
          | None => []
          end
  /\ (forall es, length (live_polls (run b es s)) <= length (live_polls s) + starts es).
Proof.
  intros Hs. repeat apply conj.
  - now apply start_intervals.
  - apply registered_at_most_one.
  - unfold live_polls. rewrite start_intervals, filter_app, live_polls_registered by exact Hs.
    unfold polled. destruct has_fetch; [|reflexivity].
    destruct (created_task create) as [id|]; [|reflexivity].
    destruct (has_text id && negb closed); reflexivity.
  - intros es. now apply live_polls_run.
Qed.

(** The first start of scenario A adds the poll loop of "abc123". *)
Lemma each_start_adds_a_loop_witness :
  live_polls (step WithFallback initial (Start true 0 false Scenario.created_abc))
  = [poll_interval 0 (VStr "abc123")].
Proof.
  destruct (each_start_adds_a_loop WithFallback initial true 0 false Scenario.created_abc
              eq_refl) as (_ & _ & H & _).
  exact H.
Defined.

End Orchestrator.

(** ** Simulation fallback *)

Module Fallback.
Import Host Machine HostFacts.
#[local] Open Scope list_scope.
#[local] Arguments Extension.isNetworkError : simpl never.
#[local] Arguments type_error : simpl never.
#[local] Arguments decimal : simpl never.
#[local] Arguments has_text : simpl never.











End Fallback.
(** ** Process Supervisor *)

Module Supervisor.
Import Host ExtensionVenv.
#[local] Open Scope list_scope.
#[local] Arguments ensureAgentServerSetup : simpl never.
#[local] Arguments spawnPythonServer : simpl never.

(** [spawnPythonServer] catches whatever its body throws and returns
    undefined instead. *)
Lemma spawnPythonServer_returns (env : launch) (s : state) :
  exists p, fst (spawnPythonServer env s) = Returned p.
Proof.
  unfold spawnPythonServer, try_catch, bind.
  destruct (probe env) as [e|[[| |]|]]; cbn; eauto.
  destruct (spawn env); cbn; eauto.
Qed.

(** With the interpreter in place, or put in place by the setup,
    [ensureAgentServerSetup] returns and starts or registers nothing. *)
Lemma setup_not_needed_or_done (env : launch) (s : state) :
  venvExists env = true \/ setup_succeeds env = true ->
  exists s1, ensureAgentServerSetup env s = (Returned tt, s1)
             /\ spawned s1 = spawned s /\ commands s1 = commands s.
Proof.
  intros Hv. unfold ensureAgentServerSetup, bind.
  destruct (venvExists env) eqn:Ev; cbn.
  - eexists; repeat split.
  - destruct Hv as [Hv|Hv]; [discriminate|]. unfold setup_succeeds in Hv.
    destruct (setup env) as [e|e|[[| |]|] stderr [|]]; try discriminate.
    cbn. eexists; repeat split.
Qed.

(** When the probe fails, [spawnPythonServer] writes the failure to the
    output channel and returns undefined without calling [spawn]. *)
Lemma probe_failure_swallowed (env : launch) (s : state) :
  probe_succeeds env = false ->
  exists e s1, spawnPythonServer env s = (Returned None, s1)
               /\ outputChannel s1 = outputChannel s ++ [LogVenvUnusable e; LogSpawnFailed e]
               /\ spawned s1 = spawned s /\ commands s1 = commands s.
Proof.
  intros Hp. unfold probe_succeeds in Hp.
  unfold spawnPythonServer, try_catch, bind.
  destruct (probe env) as [e|[[| |]|]]; cbn; try discriminate;
    eexists; eexists; (split; [reflexivity|]); cbn;
    rewrite <- app_assoc; repeat split.
Qed.

(** C8, as stated, fails: the venv interpreter exists and answers
    [--version] with status 1; no worker is started, and yet activation
    registers the task commands and shows no error message. *)
Lemma unusable_interpreter_keeps_commands :
  probe_succeeds Scenario.unusable_venv = false
  /\ spawned (exec (activate Scenario.unusable_venv) initial) = []
  /\ In "osae.start" (commands (exec (activate Scenario.unusable_venv) initial))
  /\ errorMessages (exec (activate Scenario.unusable_venv) initial) = [].
Proof. repeat split; vm_compute; auto. Qed.

(** C8 (amended): when the venv interpreter is absent and first-run
    setup does not produce it, activation runs the setup once, shows an
    error message, starts no worker and registers no command.  When the
    interpreter is there but its [--version] probe fails, no worker is
    started, the stored handle is undefined, the failure is written to
    the output channel, and the three commands are registered all the
    same. *)
Theorem launch_without_interpreter (env : launch) (s : state) :
  (venvExists env = false -> setup_succeeds env = false ->
   spawned (exec (activate env) s) = spawned s
   /\ pythonProcess (exec (activate env) s) = pythonProcess s
   /\ commands (exec (activate env) s) = commands s
   /\ (exists m rest, errorMessages (exec (activate env) s) = errorMessages s ++ m :: rest)
   /\ setup_runs (exec (activate env) s) = setup_runs s + 1)
  /\ (venvExists env = true \/ setup_succeeds env = true ->
      probe_succeeds env = false ->
      spawned (exec (activate env) s) = spawned s
      /\ pythonProcess (exec (activate env) s) = None
      /\ (exists e, In (LogVenvUnusable e) (outputChannel (exec (activate env) s)))
      /\ commands (exec (activate env) s)
         = commands s ++ ["osae.openDashboard"; "osae.start"; "osae.reset"]).
Proof.
  split.
  - intros Hv Hs.
    unfold setup_succeeds in Hs. unfold setup_runs.
    unfold exec, activate, ensureAgentServerSetup, try_catch, bind. cbn.
    rewrite Hv. cbn.
    destruct (setup env) as [e|e|[[| |]|] stderr [|]]; cbn; try discriminate;
      rewrite ?filter_app, ?length_app; cbn;
      repeat split; eauto; try lia.
    all: try (eexists; eexists; rewrite <- app_assoc; reflexivity).
  - intros Hv Hp.
    unfold exec, activate, bind, try_catch. cbn.
    match goal with
    | |- context [ensureAgentServerSetup env ?s0] =>
        destruct (setup_not_needed_or_done env s0 Hv) as (s1 & E1 & Hsp1 & Hc1)
    end.
    rewrite E1. cbn.
    destruct (probe_failure_swallowed env s1 Hp) as (e & s2 & E2 & Ho2 & Hsp2 & Hc2).
    rewrite E2. cbn. cbn in Hsp1, Hc1. rewrite Hsp2, Hsp1, Hc2, Hc1.
    repeat split.
    + exists e. rewrite Ho2. apply in_or_app. right. cbn. auto.
    + now rewrite <- !app_assoc.
Qed.

(** No interpreter and a failing setup: an error is shown and no command
    is registered. *)
Lemma launch_without_interpreter_witness :
  spawned (exec (activate Scenario.missing_venv) initial) = spawned initial
  /\ pythonProcess (exec (activate Scenario.missing_venv) initial) = pythonProcess initial
  /\ commands (exec (activate Scenario.missing_venv) initial) = commands initial
  /\ (exists m rest,
         errorMessages (exec (activate Scenario.missing_venv) initial)
         = errorMessages initial ++ m :: rest)
  /\ setup_runs (exec (activate Scenario.missing_venv) initial) = setup_runs initial + 1.
Proof.
  destruct (launch_without_interpreter Scenario.missing_venv initial) as [H _].
  exact (H eq_refl eq_refl).
Defined.

(** C9: [deactivate] returns normally in every state, whatever [kill()]
    does: with no worker handle it kills nothing; with a handle, of a
    running or an exited process, it calls [kill()] once and clears the
    handle; called again right after, it returns normally, finds no
    handle and kills nothing. *)
Theorem deactivate_idempotent (s : state) :
  fst (deactivate s) = Returned tt
  /\ pythonProcess (exec deactivate s) = None
  /\ (pythonProcess s = None -> killed (exec deactivate s) = killed s)
  /\ (forall p, pythonProcess s = Some p -> killed (exec deactivate s) = killed s ++ [p])
  /\ fst (deactivate (exec deactivate s)) = Returned tt
  /\ pythonProcess (exec deactivate (exec deactivate s)) = None
  /\ killed (exec deactivate (exec deactivate s)) = killed (exec deactivate s)
  /\ outputChannel (exec deactivate (exec deactivate s))
     = outputChannel (exec deactivate s) ++ [LogDeactivating; LogNoProcess].
Proof.
  assert (H1 : fst (deactivate s) = Returned tt /\ pythonProcess (exec deactivate s) = None).
  { unfold exec, deactivate, bind, try_catch, get_pythonProcess. cbn.
    destruct (pythonProcess s) as [p|] eqn:E; cbn.
    - unfold kill. destruct (kill_throws p); cbn; auto.
    - auto. }
  destruct H1 as [H1 H2].
  assert (Hnone : forall s0, pythonProcess s0 = None ->
            fst (deactivate s0) = Returned tt
            /\ pythonProcess (exec deactivate s0) = None
            /\ killed (exec deactivate s0) = killed s0
            /\ outputChannel (exec deactivate s0)
               = outputChannel s0 ++ [LogDeactivating; LogNoProcess]).
  { intros s0 E. unfold exec, deactivate, bind, try_catch, get_pythonProcess. cbn.
    rewrite E. cbn. rewrite ?E. repeat split. now rewrite <- app_assoc. }
  destruct (Hnone _ H2) as (A & B & C & D).
  repeat apply conj; auto.
  - intros E. now destruct (Hnone s E) as (_ & _ & K & _).
  - intros p E. unfold exec, deactivate, bind, try_catch, get_pythonProcess. cbn.
    rewrite E. cbn. unfold kill. destruct (kill_throws p); reflexivity.
Qed.

(** The worker has exited and [kill()] throws: [deactivate] still returns
    and clears the handle. *)
Lemma deactivate_idempotent_witness :
  killed (exec deactivate Scenario.worker_gone)
  = killed Scenario.worker_gone
    ++ [{| pid := Some 4242%Z; exited := true;
           kill_throws := Some {| name := "Error"; message := "kill ESRCH" |} |}].
Proof.
  destruct (deactivate_idempotent Scenario.worker_gone) as (_ & _ & _ & H & _).
  exact (H _ eq_refl).
Defined.

End Supervisor.

(** * Further properties of the code *)

(** ** How the handlers extend the channels *)

Module ChannelFacts.
Import Host Machine HostFacts Channels.
#[local] Open Scope list_scope.
#[local] Arguments Extension.isNetworkError : simpl never.
#[local] Arguments type_error : simpl never.
#[local] Arguments decimal : simpl never.
#[local] Arguments has_text : simpl never.
#[local] Arguments ToString : simpl never.
#[local] Arguments lone_surrogate : simpl never.

(** A statement only appends to the output channel, to the messages
    posted to the panel and to the requests issued. *)
Lemma extends_refl (s : state) : extends s s.
Proof. repeat split; exists []; now rewrite app_nil_r. Qed.

Lemma extends_trans (a b c : state) : extends a b -> extends b c -> extends a c.
Proof.
  intros ([l1 H1] & [p1 H2] & [f1 H3]) ([l2 H4] & [p2 H5] & [f2 H6]).
  repeat split.
  - exists (l1 ++ l2). now rewrite H4, H1, app_assoc.
  - exists (p1 ++ p2). now rewrite H5, H2, app_assoc.
  - exists (f1 ++ f2). now rewrite H6, H3, app_assoc.
Qed.

Lemma appending_ret {A} (a : A) : appending (ret a).
Proof. intros s. apply extends_refl. Qed.

Lemma appending_throw {A} (e : error) : appending (@throw A e).
Proof. intros s. apply extends_refl. Qed.

Lemma appending_bind {A B} (m : M A) (k : A -> M B) :
  appending m -> (forall a, appending (k a)) -> appending (bind m k).
Proof.
  intros Hm Hk s. unfold bind. specialize (Hm s).
  destruct (m s) as [[a|e] s']; cbn in *; [|exact Hm].
  eapply extends_trans; [exact Hm | apply Hk].
Qed.

Lemma appending_try {A} (m : M A) (h : error -> M A) :
  appending m -> (forall e, appending (h e)) -> appending (try_catch m h).
Proof.
  intros Hm Hh s. unfold try_catch. specialize (Hm s).
  destruct (m s) as [[a|e] s']; cbn in *; [exact Hm|].
  eapply extends_trans; [exact Hm | apply Hh].
Qed.

Lemma appending_await {A} (p : settled A) : appending (await p).
Proof. destruct p; [apply appending_ret | apply appending_throw]. Qed.

Lemma appending_prop (v : value) (k : string) : appending (prop v k).
Proof. unfold prop. destruct (nullish v); [apply appending_throw | apply appending_ret]. Qed.

Lemma appending_interpolate (v : value) : appending (interpolate v).
Proof.
  unfold interpolate. destruct (has_text v); [apply appending_ret | apply appending_throw].
Qed.

Lemma appending_encodeURIComponent (v : value) : appending (encodeURIComponent v).
Proof.
  unfold encodeURIComponent. destruct (ToString v) as [text|]; [|apply appending_throw].
  destruct (lone_surrogate text); [apply appending_throw | apply appending_ret].
Qed.

Lemma appending_appendLine (l : log_line) : appending (appendLine l).
Proof.
  intros s. repeat split; cbn; [now exists [l] | exists [] | exists []];
    now rewrite app_nil_r.
Qed.

Lemma appending_postMessage (p : nat) (m : value) : appending (postMessage p m).
Proof.
  intros s. unfold postMessage. destruct (is_disposed s p); [apply extends_refl|].
  repeat split; cbn; [exists [] | now exists [m] | exists []]; now rewrite app_nil_r.
Qed.

Lemma appending_issue (r : request) : appending (issue r).
Proof.
  intros s. repeat split; cbn; [exists [] | exists [] | now exists [r]];
    now rewrite app_nil_r.
Qed.

Lemma appending_set_intervals (f : state -> list interval) :
  appending (fun s => (Returned tt, set_intervals (f s) s)).
Proof. intros s. repeat split; cbn; exists []; now rewrite app_nil_r. Qed.

Lemma appending_setInterval (p : nat) (cb : callback) (ms : Z) :
  appending (setInterval p cb ms).
Proof. intros s. repeat split; cbn; exists []; now rewrite app_nil_r. Qed.

Lemma appending_clearInterval (h : nat) : appending (clearInterval h).
Proof. apply appending_set_intervals. Qed.

Lemma appending_set_body (h : nat) (cb : callback) : appending (set_body h cb).
Proof. unfold set_body. apply appending_set_intervals. Qed.

Lemma appending_request_sent (h : nat) : appending (request_sent h).
Proof. unfold request_sent. apply appending_set_intervals. Qed.

Lemma appending_request_settled (h : nat) : appending (request_settled h).
Proof. unfold request_settled. apply appending_set_intervals. Qed.

Lemma appending_ensureDashboard : appending ensureDashboard.
Proof.
  intros s. unfold ensureDashboard. destruct (dashboardPanel s); [apply extends_refl|].
  repeat split; cbn; exists []; now rewrite app_nil_r.
Qed.

Lemma appending_dispose (p : nat) : appending (dispose p).
Proof. intros s. repeat split; cbn; exists []; now rewrite app_nil_r. Qed.

Lemma appending_closeDashboard : appending closeDashboard.
Proof.
  intros s. unfold closeDashboard.
  destruct (dashboardPanel s); [apply appending_dispose | apply extends_refl].
Qed.

Lemma appending_showErrorMessage (m : string) : appending (showErrorMessage m).
Proof. intros s. repeat split; cbn; exists []; now rewrite app_nil_r. Qed.

Lemma appending_kill (p : process) : appending (kill p).
Proof. intros s. repeat split; cbn; exists []; now rewrite app_nil_r. Qed.

Lemma appending_set_pythonProcess (p : option process) : appending (set_pythonProcess p).
Proof. intros s. repeat split; cbn; exists []; now rewrite app_nil_r. Qed.

Lemma appending_get_pythonProcess : appending get_pythonProcess.
Proof. intros s. apply extends_refl. Qed.

Ltac appending_all :=
  repeat first
    [ apply appending_bind | apply appending_try | apply appending_ret
    | apply appending_throw | apply appending_await | apply appending_prop
    | apply appending_interpolate | apply appending_encodeURIComponent
    | apply appending_appendLine | apply appending_postMessage
    | apply appending_issue
    | apply appending_setInterval | apply appending_clearInterval
    | apply appending_set_body | apply appending_request_sent
    | apply appending_request_settled | apply appending_ensureDashboard
    | apply appending_dispose | apply appending_closeDashboard
    | apply appending_showErrorMessage | apply appending_kill
    | apply appending_set_pythonProcess | apply appending_get_pythonProcess
    | assumption
    | match goal with
      | |- forall _, _ => intro
      | |- appending (if ?b then _ else _) => destruct b
      | |- appending (match ?x with _ => _ end) => destruct x
      end ].

Lemma appending_isCompleted (j : value) : appending (isCompleted j).
Proof. unfold isCompleted. appending_all. Qed.

Lemma appending_taskId_of (data : value) : appending (Extension.taskId_of data).
Proof. unfold Extension.taskId_of. appending_all. Qed.

Lemma appending_pollFailed (id : value) (err : error) : appending (pollFailed id err).
Proof. unfold pollFailed. appending_all. Qed.

Lemma appending_pollRequest (h : nat) (id : value) : appending (pollRequest h id).
Proof. unfold pollRequest, pollFailed. appending_all. Qed.

Lemma appending_pollSettled (h p : nat) (id : value) (r : fetched) :
  appending (pollSettled h p id r).
Proof.
  unfold pollSettled, pollFailed. pose proof appending_isCompleted as Hc.
  appending_all; apply Hc.
Qed.

Lemma appending_startSimulatedTask (now : Z) (p : nat) :
  appending (Extension.startSimulatedTask now p).
Proof. unfold Extension.startSimulatedTask. appending_all. Qed.

Lemma appending_simTick (h p : nat) (sid : string) (idx : Z) :
  appending (Extension.simTick h p sid idx).
Proof. unfold Extension.simTick. appending_all. Qed.

Lemma appending_deactivate : appending deactivate.
Proof. unfold deactivate. appending_all. Qed.

Lemma appending_handle (b : build) (e : event) : appending (handle b e).
Proof.
  destruct e as [hf now cl c|h|h r| |]; cbn [handle].
  - pose proof appending_taskId_of as Ht. pose proof appending_startSimulatedTask as Hs.
    destruct b; unfold Extension.osae_start, ExtensionVenv.osae_start;
      appending_all; first [apply Ht | apply Hs].
  - intros s. unfold fire.
    destruct (nth_error (intervals s) h) as [t|]; [|apply extends_refl].
    destruct (live t); [|apply extends_refl].
    destruct (body t); [apply appending_pollRequest | apply appending_simTick].
  - intros s. unfold settle.
    destruct (nth_error (intervals s) h) as [t|]; [|apply extends_refl].
    destruct (body t); [|apply extends_refl].
    destruct (inflight t); [apply extends_refl|].
    apply (appending_bind (request_settled h)
             (fun _ => pollSettled h (panel t) currentTaskId r));
      [apply appending_request_settled | intros _; apply appending_pollSettled].
  - apply appending_closeDashboard.
  - apply appending_deactivate.
Qed.

Lemma step_extends (b : build) (s : state) (e : event) : extends s (step b s e).
Proof. apply appending_handle. Qed.

Lemma run_extends (b : build) (es : list event) (s : state) : extends s (run b es s).
Proof.
  revert s. induction es as [|e es IH]; intros s; cbn; [apply extends_refl|].
  eapply extends_trans; [apply step_extends | apply IH].
Qed.

Lemma announced_extends (s s' : state) (id : value) :
  extends s s' -> announced s id -> announced s' id.
Proof.
  intros ([l Hl] & [p Hp] & _) [A B]. split.
  - rewrite Hl. apply in_or_app. now left.
  - rewrite Hp. apply in_or_app. now left.
Qed.

End ChannelFacts.

(** ** The poll loop across whole runs *)

Module RunFacts.
Import Host Machine HostFacts Channels ChannelFacts.
#[local] Open Scope list_scope.
#[local] Arguments Extension.isNetworkError : simpl never.
#[local] Arguments type_error : simpl never.
#[local] Arguments decimal : simpl never.
#[local] Arguments has_text : simpl never.

(** The requests of a step: the creation request of a start, the poll
    request of the task whose interval fires, nothing else. *)
Lemma step_fetches (b : build) (s : state) (e : event) :
  sound s = true ->
  fetches (step b s e)
  = fetches s
    ++ match e with
       | Start has_fetch _ _ _ =>
           if has_fetch
           then [PostTask (match b with
                           | WithFallback => VObj []
                           | VenvOnly => VObj [("prompt", VStr "")]
                           end) 3000]
           else []
       | Fire h =>
           match polls s h with
           | Some id => if is_live s h && encodable id then [GetTask id] else []
           | None => []
           end
       | _ => []
       end.
Proof.
  intros Hs. destruct e as [hf now cl c|h|h r| |].
  - now apply start_fetches.
  - apply fire_fetches.
  - rewrite app_nil_r. apply (settle_frame h r s).
  - rewrite app_nil_r. apply (close_fields s).
  - rewrite app_nil_r. apply (deactivate_fields s).
Qed.

(** The poll loops after a step are those before it and the one a start
    registered. *)
Lemma step_poll_bodies (b : build) (s : state) (e : event) (t : interval) (id : value) :
  sound s = true ->
  In t (intervals (step b s e)) -> body t = PollTask id ->
  (exists t0, In t0 (intervals s) /\ body t0 = PollTask id)
  \/ (exists now closed create,
         e = Start true now closed create /\ polled closed create = Some id).
Proof.
  intros Hs Hin Hb.
  destruct (In_nth_error _ _ Hin) as [n Hn].
  destruct (nth_error (intervals s) n) as [t0|] eqn:Ht0.
  - left. destruct (step_evolves b s e Hs n t0 Ht0) as (t' & Ht' & _ & _ & K & _).
    rewrite Hn in Ht'. injection Ht' as <-. exists t0.
    split; [eapply nth_error_In; eauto|].
    rewrite Hb in K. destruct (body t0); simpl in K; [now subst | contradiction].
  - destruct e as [hf now cl c|h|h r| |].
    + rewrite start_intervals in Hin by exact Hs.
      apply in_app_or in Hin as [Hin|Hin]; [left; eauto|]. right.
      unfold registered in Hin. destruct hf; [|contradiction].
      destruct (polled cl c) as [id'|] eqn:Hc.
      * destruct Hin as [<-|[]]. cbn in Hb. injection Hb as ->. eauto.
      * destruct b; [|contradiction].
        destruct (start_error cl c) as [err|]; [|contradiction].
        destruct (Extension.isNetworkError err && negb cl); [|contradiction].
        destruct Hin as [<-|[]]. discriminate.
    + exfalso. apply nth_error_None in Ht0.
      pose proof (step_length b s (Fire h) Hs) as L. rewrite Nat.add_0_r in L.
      assert (n < length (intervals (step b s (Fire h))))
        by (apply nth_error_Some; congruence).
      lia.
    + exfalso. apply nth_error_None in Ht0.
      pose proof (step_length b s (Settle h r) Hs) as L. rewrite Nat.add_0_r in L.
      assert (n < length (intervals (step b s (Settle h r))))
        by (apply nth_error_Some; congruence).
      lia.
    + exfalso. apply nth_error_None in Ht0.
      pose proof (step_length b s CloseDashboard Hs) as L. rewrite Nat.add_0_r in L.
      assert (n < length (intervals (step b s CloseDashboard)))
        by (apply nth_error_Some; congruence).
      lia.
    + exfalso. apply nth_error_None in Ht0.
      pose proof (step_length b s Deactivate Hs) as L. rewrite Nat.add_0_r in L.
      assert (n < length (intervals (step b s Deactivate)))
        by (apply nth_error_Some; congruence).
      lia.
Qed.

Lemma polls_announced_step (b : build) (s : state) (e : event) :
  sound s = true -> polls_announced s -> polls_announced (step b s e).
Proof.
  intros Hs [Hi Hf]. pose proof (step_extends b s e) as Hext. split.
  - intros t id Hin Hb.
    destruct (step_poll_bodies b s e t id Hs Hin Hb)
      as [(t0 & Hin0 & Hb0)|(now & cl & c & -> & Hc)].
    + eapply announced_extends; eauto.
    + split.
      * rewrite (start_announces b now cl c s id Hs Hc). apply in_or_app. right. now left.
      * rewrite start_posted by exact Hs. unfold registered. rewrite Hc. cbn.
        apply in_or_app. right. now left.
  - intros id Hin. rewrite step_fetches in Hin by exact Hs.
    apply in_app_or in Hin as [Hin|Hin].
    + eapply announced_extends; eauto.
    + eapply announced_extends; [exact Hext|].
      destruct e as [hf now cl c|h|h r| |]; try contradiction.
      * destruct hf; [|contradiction]. destruct Hin as [H|[]]. discriminate.
      * unfold polls in Hin.
        destruct (nth_error (intervals s) h) as [t|] eqn:Ht; [|contradiction].
        destruct (body t) as [id'|] eqn:Hb; [|contradiction].
        destruct (is_live s h && encodable id'); [|contradiction].
        destruct Hin as [[= <-]|[]].
        apply (Hi t id'); [eapply nth_error_In; eauto | exact Hb].
Qed.

Lemma polls_announced_run (b : build) (es : list event) (s : state) :
  sound s = true -> polls_announced s -> polls_announced (run b es s).
Proof.
  revert s. induction es as [|e es IH]; intros s Hs H; cbn; [exact H|].
  apply IH; [now apply step_sound | now apply polls_announced_step].
Qed.

Lemma polls_announced_initial : polls_announced initial.
Proof. split; intros; contradiction. Qed.

(** X1: in every run of either revision from the initial state, a poll
    request is only ever issued for a task whose start was logged and
    whose task-started message was posted to the panel. *)
Theorem polls_only_created_tasks (b : build) (es : list event) (id : value) :
  In (GetTask id) (fetches (run b es initial)) ->
  In (LogStarted id) (outputChannel (run b es initial))
  /\ In (Extension.task_started id) (posted (run b es initial)).
Proof.
  intros H.
  exact (proj2 (polls_announced_run b es initial eq_refl polls_announced_initial) id H).
Qed.

(** Scenario A: the polls of "abc123". *)
Lemma polls_only_created_tasks_witness :
  In (LogStarted (VStr "abc123")) (outputChannel Scenario.polling)
  /\ In (Extension.task_started (VStr "abc123")) (posted Scenario.polling).
Proof.
  apply (polls_only_created_tasks WithFallback
           [Start true 0 false Scenario.created_abc; Fire 0; Settle 0 Scenario.running;
            Fire 0]
           (VStr "abc123")).
  vm_compute. auto.
Defined.




End RunFacts.

(** ** Forwarding, surfaced errors and the worker's life cycle *)

Module HostMore.
Import Host Machine HostFacts Shown.
#[local] Open Scope list_scope.
#[local] Arguments Extension.isNetworkError : simpl never.
#[local] Arguments type_error : simpl never.
#[local] Arguments decimal : simpl never.
#[local] Arguments has_text : simpl never.

(** X3: when a poll request of a task settles, the body of the response,
    if it could be read, is posted as one task-update message to the
    panel the task was started on, provided that panel has not been
    closed, whatever the HTTP status of the response and also when the
    body is null; a request that was rejected, gave no response or an
    unreadable body posts nothing, and nothing is posted once the panel
    was closed.  The interval need not be live. *)
Theorem poll_forwards_readable_bodies (b : build) (s : state) (h : nat) (id : value)
    (r : fetched) :
  polls s h = Some id ->
  0 < pending s h ->
  posted (step b s (Settle h r))
  = posted s ++ (if panel_open s h
                 then match readable_body r with
                      | Some j => [task_update j]
                      | None => []
                      end
                 else []).
Proof.
  intros Hp Hn. change (step b s (Settle h r)) with (exec (settle h r) s).
  unfold polls, pending, panel_open in *.
  destruct (nth_error (intervals s) h) as [t|] eqn:Ht; [|discriminate].
  destruct (body t) as [id'|] eqn:Hb; [|discriminate].
  rewrite (settle_runs_callback _ _ _ _ _ Ht Hb Hn).
  rewrite pollSettled_posted.
  change (is_disposed (exec (request_settled h) s) (panel t))
    with (is_disposed s (panel t)).
  change (posted (exec (request_settled h) s)) with (posted s).
  unfold readable_body.
  destruct (is_disposed s (panel t)); cbn; [reflexivity|].
  destruct r as [[resp|]|e]; try reflexivity.
  destruct (json resp); reflexivity.
Qed.

(** A poll answered with status 500 and a JSON body is forwarded; with
    the dashboard closed it is not. *)
Lemma poll_forwards_readable_bodies_witness :
  posted (step WithFallback Scenario.polling (Settle 0 Scenario.server_error))
  = posted Scenario.polling
    ++ [task_update (VObj [("detail", VStr "Internal Server Error")])]
  /\ posted (step WithFallback Scenario.closed_while_polling
               (Settle 0 Scenario.server_error))
     = posted Scenario.closed_while_polling ++ [].
Proof.
  split.
  - apply (poll_forwards_readable_bodies WithFallback Scenario.polling 0 (VStr "abc123")
             Scenario.server_error).
    + reflexivity.
    + vm_compute. lia.
  - apply (poll_forwards_readable_bodies WithFallback Scenario.closed_while_polling 0
             (VStr "abc123") Scenario.server_error).
    + reflexivity.
    + vm_compute. lia.
Defined.

(** X4: in the revision without the fallback, [osae.start] shows the
    user one error message exactly when the creation attempt ends with
    an exception: the request is rejected, the body of a success
    response cannot be read or is null, the task identifier has no
    string form, or the dashboard was closed while the request was
    pending, so that the post of the task-started message throws.  A
    non-success status, no response and a body without a task
    identifier show none.  Whenever no poll loop is set up, no interval
    is registered and nothing is posted to the panel. *)
Theorem venv_start_shows_exceptions (s : state) (now : Z) (closed : bool)
    (create : fetched) :
  sound s = true ->
  errorMessages (step VenvOnly s (Start true now closed create))
  = errorMessages s
    ++ match create with
       | Rejected e => [("[OSAE] Failed to create task: " ++ String_of_error e)%string]
       | Resolved None => []
       | Resolved (Some res) =>
           if ok res then
             match json res with
             | Rejected e =>
                 [("[OSAE] Failed to create task: " ++ String_of_error e)%string]
             | Resolved data =>
                 if nullish data
                 then [("[OSAE] Failed to create task: "
                        ++ String_of_error (type_error data "task_id"))%string]
                 else
                   let id := or_else (get data "task_id")
                                     (or_else (get data "id") (get data "taskId")) in
                   if truthy id then
                     if has_text id
                     then if closed
                          then [("[OSAE] Failed to create task: "
                                 ++ String_of_error webview_disposed)%string]
                          else []
                     else [("[OSAE] Failed to create task: "
                            ++ String_of_error no_primitive)%string]
                   else []
             end
           else []
       end
  /\ (polled closed create = None ->
      intervals (step VenvOnly s (Start true now closed create)) = intervals s
      /\ posted (step VenvOnly s (Start true now closed create)) = posted s).
Proof.
  intros Hs. split.
  - rewrite start_errors by exact Hs. f_equal. unfold start_error.
    destruct create as [[res|]|e]; try reflexivity.
    destruct (ok res); [|reflexivity].
    destruct (json res) as [data|e]; [|reflexivity].
    destruct (nullish data); [reflexivity|]. cbv zeta.
    destruct (truthy _); [|reflexivity].
    destruct (has_text _); [|reflexivity].
    destruct closed; reflexivity.
  - intros Hc. split.
    + rewrite start_intervals by exact Hs. unfold registered. rewrite Hc. apply app_nil_r.
    + rewrite start_posted by exact Hs. unfold registered. rewrite Hc. apply app_nil_r.
Qed.

(** An aborted request shows one message, and starts nothing. *)
Lemma venv_start_shows_exceptions_witness :
  errorMessages (step VenvOnly initial (Start true 0 false Scenario.aborted))
  = ["[OSAE] Failed to create task: AbortError: This operation was aborted"]
  /\ intervals (step VenvOnly initial (Start true 0 false Scenario.aborted)) = []
  /\ posted (step VenvOnly initial (Start true 0 false Scenario.aborted)) = [].
Proof.
  destruct (venv_start_shows_exceptions initial 0 false Scenario.aborted eq_refl)
    as [H1 H2].
  split; [exact H1 | exact (H2 eq_refl)].
Defined.

(** X5: activation of the venv revision followed by deactivation, from a
    state with no worker handle: the processes [kill()] is called on are
    exactly the processes activation spawned, at most one, and the
    handle ends undefined, whatever the machine looks like and whatever
    [kill()] does. *)
Theorem venv_worker_killed_on_deactivate (env : ExtensionVenv.launch) (s : state) :
  pythonProcess s = None ->
  exists ps,
    length ps <= 1
    /\ spawned (exec (ExtensionVenv.activate env) s) = spawned s ++ ps
    /\ killed (exec deactivate (exec (ExtensionVenv.activate env) s)) = killed s ++ ps
    /\ pythonProcess (exec deactivate (exec (ExtensionVenv.activate env) s)) = None.
Proof.
  intros Hnone.
  assert (Hact : exists ps,
             length ps <= 1
             /\ spawned (exec (ExtensionVenv.activate env) s) = spawned s ++ ps
             /\ killed (exec (ExtensionVenv.activate env) s) = killed s
             /\ pythonProcess (exec (ExtensionVenv.activate env) s)
                = match ps with p :: _ => Some p | [] => None end).
  { unfold exec, ExtensionVenv.activate, ExtensionVenv.ensureAgentServerSetup,
      ExtensionVenv.spawnPythonServer, try_catch, bind. cbn.
    destruct (ExtensionVenv.venvExists env); cbn.
    - destruct (ExtensionVenv.probe env) as [e|[[| |]|]]; cbn;
        try (exists []; cbn; rewrite ?app_nil_r; repeat split; auto; fail).
      destruct (ExtensionVenv.spawn env) as [e|p]; cbn.
      + exists []. cbn. rewrite app_nil_r. auto.
      + exists [p]. cbn. auto.
    - destruct (ExtensionVenv.setup env) as [e|e|[[| |]|] stderr [|]]; cbn;
        try (exists []; cbn; rewrite ?app_nil_r, ?Hnone; repeat split; auto; fail).
      destruct (ExtensionVenv.probe env) as [e|[[| |]|]]; cbn;
        try (exists []; cbn; rewrite ?app_nil_r; repeat split; auto; fail).
      destruct (ExtensionVenv.spawn env) as [e|p]; cbn.
      + exists []. cbn. rewrite app_nil_r. auto.
      + exists [p]. cbn. auto. }
  destruct Hact as (ps & Hlen & Hsp & Hk & Hp).
  exists ps. split; [exact Hlen|]. split; [exact Hsp|].
  unfold exec at 1 3, deactivate, bind, try_catch, get_pythonProcess. cbn.
  rewrite Hp. destruct ps as [|p ps]; cbn.
  - rewrite Hk, app_nil_r. auto.
  - destruct ps; [|cbn in Hlen; lia].
    unfold kill. destruct (kill_throws p); cbn; rewrite Hk; auto.
Qed.

(** A machine with a working venv: the spawned worker is the one killed. *)
Lemma venv_worker_killed_on_deactivate_witness :
  exists ps,
    length ps <= 1
    /\ spawned (exec (ExtensionVenv.activate Scenario2.working_venv) initial)
       = spawned initial ++ ps
    /\ killed (exec deactivate (exec (ExtensionVenv.activate Scenario2.working_venv) initial))
       = killed initial ++ ps
    /\ pythonProcess
         (exec deactivate (exec (ExtensionVenv.activate Scenario2.working_venv) initial))
       = None.
Proof.
  exact (venv_worker_killed_on_deactivate Scenario2.working_venv initial eq_refl).
Defined.

End HostMore.
(** ** The reducer: repeated messages, envelopes, and the task id *)

Module ReducerMore.
Import Wire.
#[local] Open Scope list_scope.

Ltac split_ifs :=
  repeat match goal with
         | |- context [if ?b then _ else _] => destruct b eqn:?
         end.

(** X6: applying the same message twice gives the same snapshot as
    applying it once, in both revisions of the reducer. *)
Theorem handler_idempotent :
  (forall ev prev, App.handler ev (App.handler ev prev) = App.handler ev prev)
  /\ (forall ev prev,
         AppApproval.handler ev (AppApproval.handler ev prev)
         = AppApproval.handler ev prev).
Proof.
  split; intros ev prev.
  - unfold App.handler. cbn [App.prompt App.plan App.currentStepIndex App.artifacts].
    f_equal; split_ifs; reflexivity.
  - unfold AppApproval.handler.
    cbn [AppApproval.prompt AppApproval.plan AppApproval.currentStepIndex
         AppApproval.artifacts AppApproval.next AppApproval.taskId
         AppApproval.proposedToolCall AppApproval.thought_trace
         AppApproval.active_model].
    f_equal; split_ifs; reflexivity.
Qed.

Lemma enveloped_payload (j : value) :
  nullish j = false ->
  AppApproval.msg_of (Host.task_update j) = j.
Proof.
  intros Hn. unfold AppApproval.msg_of, AppApproval.raw_of, Host.task_update, coalesce.
  cbn. now rewrite Hn.
Qed.

Lemma bare_payload (j : value) :
  nullish j = false -> nullish (get j "data") = true ->
  AppApproval.raw_of j = j /\ AppApproval.msg_of j = j.
Proof.
  intros Hn Hd. unfold AppApproval.msg_of, AppApproval.raw_of, coalesce.
  rewrite Hn. cbn. now rewrite Hd.
Qed.

(** X7: a body that is not null and has no [data] member of its own is
    read the same whether it arrives bare or inside the extension's
    [{type: 'task_update', data}] envelope, in both revisions of the
    reducer. *)
Theorem envelope_transparent (j : value) :
  nullish j = false ->
  nullish (get j "data") = true ->
  (forall prev, App.handler (Host.task_update j) prev = App.handler j prev)
  /\ (forall prev,
         AppApproval.handler (Host.task_update j) prev = AppApproval.handler j prev).
Proof.
  intros Hn Hd.
  destruct (bare_payload j Hn Hd) as [Hraw Hmsg].
  pose proof (enveloped_payload j Hn) as Henv.
  split; intros prev.
  - unfold App.handler.
    change (App.msg_of (Host.task_update j)) with (AppApproval.msg_of (Host.task_update j)).
    change (App.msg_of j) with (AppApproval.msg_of j).
    change (App.raw_of j) with (AppApproval.raw_of j).
    rewrite Henv, Hraw, Hmsg. cbn.
    f_equal; split_ifs; reflexivity.
  - unfold AppApproval.handler. rewrite Henv, Hraw, Hmsg. cbn.
    f_equal; split_ifs; reflexivity.
Qed.

(** A poll response with a plan and a next step, bare and enveloped. *)
Lemma envelope_transparent_witness :
  AppApproval.handler (Host.task_update Scenario2.executor_update) Scenario.paused
  = AppApproval.handler Scenario2.executor_update Scenario.paused.
Proof.
  destruct (envelope_transparent Scenario2.executor_update eq_refl eq_refl) as [_ H].
  exact (H Scenario.paused).
Defined.

Lemma taskId_kept (m : value) (d : AppApproval.WebviewData) :
  without_taskId m ->
  AppApproval.taskId (AppApproval.handler m d) = AppApproval.taskId d.
Proof.
  intros [[id ->]|[j [-> Hj]]].
  - reflexivity.
  - unfold AppApproval.handler. cbn [AppApproval.taskId].
    destruct (nullish j) eqn:Hn.
    + unfold AppApproval.msg_of, AppApproval.raw_of, Host.task_update, coalesce.
      cbn. rewrite Hn. reflexivity.
    + rewrite (enveloped_payload j Hn), Hj. reflexivity.
Qed.

Lemma taskId_kept_all (ms : list value) (d : AppApproval.WebviewData) :
  Forall without_taskId ms ->
  AppApproval.taskId (AppApproval.deliver ms d) = AppApproval.taskId d.
Proof.
  revert d. induction ms as [|m ms IH]; intros d H; [reflexivity|].
  inversion H as [|? ? Hm Hms]; subst. cbn.
  change (fold_left (fun d0 m0 => AppApproval.handler m0 d0) ms (AppApproval.handler m d))
    with (AppApproval.deliver ms (AppApproval.handler m d)).
  now rewrite IH, taskId_kept.
Qed.

(** X8: the extension announces a task as [task_id] while the reducer
    reads [taskId], so after any sequence of task-started events and
    updates whose bodies have no string [taskId], a snapshot that began
    without a task id still has none; approving or rejecting then
    attempts no request and posts an [approval:error] notice. *)
Theorem approval_needs_taskId_from_worker (ms : list value) (feedback : string)
    (r : settled unit) :
  Forall without_taskId ms ->
  AppApproval.taskId (AppApproval.deliver ms AppApproval.initial) = VUndef
  /\ AppApproval.handleApprove (AppApproval.deliver ms AppApproval.initial) r
     = {| AppApproval.attempted := None;
          AppApproval.window_messages :=
            [AppApproval.approval_error "taskId missing for approval"] |}
  /\ AppApproval.handleReject (AppApproval.deliver ms AppApproval.initial) feedback r
     = {| AppApproval.attempted := None;
          AppApproval.window_messages :=
            [AppApproval.approval_error "taskId missing for rejection"] |}.
Proof.
  intros H. pose proof (taskId_kept_all ms AppApproval.initial H) as Ht.
  cbn [AppApproval.taskId AppApproval.initial] in Ht.
  unfold AppApproval.handleApprove, AppApproval.handleReject. rewrite Ht. cbn. auto.
Qed.

(** Scenario B as the extension relays it: the task is started, the
    worker pauses on the executor, the user approves. *)
Lemma approval_needs_taskId_from_worker_witness :
  AppApproval.taskId
    (AppApproval.deliver
       [Extension.task_started (VStr "abc123");
        Host.task_update Scenario2.executor_update]
       AppApproval.initial) = VUndef
  /\ AppApproval.handleApprove
       (AppApproval.deliver
          [Extension.task_started (VStr "abc123");
           Host.task_update Scenario2.executor_update]
          AppApproval.initial) (Resolved tt)
     = {| AppApproval.attempted := None;
          AppApproval.window_messages :=
            [AppApproval.approval_error "taskId missing for approval"] |}
  /\ AppApproval.handleReject
       (AppApproval.deliver
          [Extension.task_started (VStr "abc123");
           Host.task_update Scenario2.executor_update]
          AppApproval.initial) "no" (Resolved tt)
     = {| AppApproval.attempted := None;
          AppApproval.window_messages :=
            [AppApproval.approval_error "taskId missing for rejection"] |}.
Proof.
  apply approval_needs_taskId_from_worker.
  apply Forall_cons; [left; now exists (VStr "abc123")|].
  apply Forall_cons; [right; now exists Scenario2.executor_update|].
  apply Forall_nil.
Defined.

End ReducerMore.

(** ** The plan viewer *)

Module PlanViewerFacts.
Import PlanViewer.
#[local] Open Scope list_scope.

Lemma items_shape (plan : list value) (c : Z) (retry : bool) (i : nat) :
  map (fun it => (state it, retrying it)) (items_from i plan c retry)
  = repeat (completed, false)
      (Z.to_nat (Z.min (Z.max (c - Z.of_nat i) 0) (Z.of_nat (length plan))))
    ++ (if (Z.of_nat i <=? c)%Z && (c <? Z.of_nat (i + length plan))%Z
        then [(in_progress, retry)] else [])
    ++ repeat (pending, false)
         (Z.to_nat (Z.min (Z.max (Z.of_nat (i + length plan) - 1 - c) 0)
                      (Z.of_nat (length plan)))).
Proof.
  revert i. induction plan as [|s plan IH]; intros i.
  - cbn. rewrite Nat.add_0_r.
    replace (Z.to_nat (Z.min (Z.max (c - Z.of_nat i) 0) 0)) with 0 by lia.
    replace (Z.to_nat (Z.min (Z.max (Z.of_nat i - 1 - c) 0) 0)) with 0 by lia.
    destruct ((Z.of_nat i <=? c)%Z && (c <? Z.of_nat i)%Z) eqn:E; [|reflexivity].
    apply andb_true_iff in E as [E1 E2]. apply Z.leb_le in E1. apply Z.ltb_lt in E2. lia.
  - cbn [items_from map state retrying length]. rewrite IH. unfold status_of.
    replace (i + S (length plan)) with (S i + length plan) by lia.
    destruct (Z.of_nat i <? c)%Z eqn:Elt.
    + apply Z.ltb_lt in Elt.
      replace (Z.of_nat i =? c)%Z with false by (symmetry; apply Z.eqb_neq; lia).
      replace (Z.to_nat (Z.min (Z.max (c - Z.of_nat i) 0) (Z.of_nat (S (length plan)))))
        with (S (Z.to_nat (Z.min (Z.max (c - Z.of_nat (S i)) 0) (Z.of_nat (length plan)))))
        by lia.
      replace (Z.of_nat i <=? c)%Z with true by (symmetry; apply Z.leb_le; lia).
      replace (Z.of_nat (S i) <=? c)%Z with true by (symmetry; apply Z.leb_le; lia).
      replace (Z.to_nat (Z.min (Z.max (Z.of_nat (S i + length plan) - 1 - c) 0)
                           (Z.of_nat (S (length plan)))))
        with (Z.to_nat (Z.min (Z.max (Z.of_nat (S i + length plan) - 1 - c) 0)
                          (Z.of_nat (length plan)))) by lia.
      reflexivity.
    + apply Z.ltb_ge in Elt.
      replace (Z.to_nat (Z.min (Z.max (c - Z.of_nat i) 0) (Z.of_nat (S (length plan)))))
        with 0 by lia.
      replace (Z.to_nat (Z.min (Z.max (c - Z.of_nat (S i)) 0) (Z.of_nat (length plan))))
        with 0 by lia.
      replace (Z.of_nat (S i) <=? c)%Z with false by (symmetry; apply Z.leb_gt; lia).
      cbn [repeat app andb].
      destruct (Z.of_nat i =? c)%Z eqn:Eeq.
      * apply Z.eqb_eq in Eeq.
        replace (Z.of_nat i <=? c)%Z with true by (symmetry; apply Z.leb_le; lia).
        replace (c <? Z.of_nat (S i + length plan))%Z with true
          by (symmetry; apply Z.ltb_lt; lia).
        replace (Z.to_nat (Z.min (Z.max (Z.of_nat (S i + length plan) - 1 - c) 0)
                             (Z.of_nat (S (length plan)))))
          with (Z.to_nat (Z.min (Z.max (Z.of_nat (S i + length plan) - 1 - c) 0)
                            (Z.of_nat (length plan)))) by lia.
        reflexivity.
      * apply Z.eqb_neq in Eeq.
        replace (Z.of_nat i <=? c)%Z with false by (symmetry; apply Z.leb_gt; lia).
        replace (Z.to_nat (Z.min (Z.max (Z.of_nat (S i + length plan) - 1 - c) 0)
                             (Z.of_nat (S (length plan)))))
          with (S (Z.to_nat (Z.min (Z.max (Z.of_nat (S i + length plan) - 1 - c) 0)
                               (Z.of_nat (length plan))))) by lia.
        reflexivity.
Qed.

Lemma items_steps (plan : list value) (c : Z) (retry : bool) (i : nat) :
  map step (items_from i plan c retry) = plan.
Proof.
  revert i. induction plan as [|x p IH]; intros i; cbn; [reflexivity | now rewrite IH].
Qed.

(** X9: for a plan of [n] steps and an integral current index [c], the
    viewer shows the steps before [c] completed, the step at [c] in
    progress when [c] is an index of the plan, and the steps after it
    pending: a run of completed steps, at most one step in progress, a
    run of pending steps.  The "Retrying" badge is on no step but the one
    in progress, and on that one exactly when [currentStepRetry] is set.
    An index below 0 leaves every step pending, an index of [n] or more
    shows every step completed, and an empty plan renders as "No steps". *)
Theorem plan_statuses (plan : list value) (c : Z) (isReflecting retry : bool) :
  (plan = [] -> entries (PlanViewer plan c isReflecting retry) = NoSteps)
  /\ (plan <> [] ->
      exists items,
        entries (PlanViewer plan c isReflecting retry) = Steps items
        /\ map step items = plan
        /\ map (fun it => (state it, retrying it)) items
           = repeat (completed, false) (done_steps c (length plan))
             ++ (if (0 <=? c)%Z && (c <? Z.of_nat (length plan))%Z
                 then [(in_progress, retry)] else [])
             ++ repeat (pending, false)
                  (length plan - done_steps c (length plan)
                   - (if (0 <=? c)%Z && (c <? Z.of_nat (length plan))%Z then 1 else 0))).
Proof.
  split.
  - intros ->. reflexivity.
  - intros Hne. unfold PlanViewer. cbn [entries].
    assert (Hlen : (length plan =? 0)%nat = false)
      by (destruct plan; [congruence | reflexivity]).
    rewrite Hlen. eexists. split; [reflexivity|]. split; [apply items_steps|].
    rewrite items_shape. unfold done_steps.
    set (n := length plan). change (0 + n) with n.
    change (Z.of_nat 0) with 0%Z. replace (c - 0)%Z with c by lia.
    destruct ((0 <=? c)%Z && (c <? Z.of_nat n)%Z) eqn:E.
    + apply andb_true_iff in E as [E1 E2]. apply Z.leb_le in E1. apply Z.ltb_lt in E2.
      do 3 f_equal. lia.
    + apply andb_false_iff in E as [E|E];
        [apply Z.leb_gt in E | apply Z.ltb_ge in E]; do 3 f_equal; lia.
Qed.

(** Three steps, the second current and being retried. *)
Lemma plan_statuses_witness :
  exists items,
    entries (PlanViewer [VStr "a"; VStr "b"; VStr "c"] 1 false true) = Steps items
    /\ map step items = [VStr "a"; VStr "b"; VStr "c"]
    /\ map (fun it => (state it, retrying it)) items
       = [(completed, false); (in_progress, true); (pending, false)].
Proof.
  destruct (plan_statuses [VStr "a"; VStr "b"; VStr "c"] 1 false true) as [_ H].
  apply H. discriminate.
Defined.

End PlanViewerFacts.

(** ** From the simulated run to the plan on screen *)

Module Display.
Import Host Machine AppView.
#[local] Open Scope list_scope.
#[local] Arguments decimal : simpl never.

(** A valid snapshot always gives the viewer properties of its types. *)
Lemma valid_plan_section (d : App.WebviewData) :
  App.valid d -> exists v, plan_section d = Some v.
Proof.
  intros H. pose proof (H App.Fplan) as Hp. pose proof (H App.FcurrentStepIndex) as Hc.
  cbn in Hp, Hc. unfold plan_section, plan_prop, index_prop, or_else.
  destruct (App.plan d); try discriminate.
  destruct (App.currentStepIndex d) as [| | |n| | |]; try discriminate.
  cbn. destruct (negb (n =? 0)%Z); eauto.
Qed.

(** X10: when [osae.start] falls back to the simulated run and the run
    goes to its end, the snapshot of [App.tsx] built from the messages
    posted, from any snapshot before, has the prompt "Simulated run" and
    the three-step plan at index 2, keeps its artifacts, and the plan
    section shows the first two steps completed and the last step still
    in progress, although the final message reports the task completed. *)
Theorem simulated_run_on_screen (e : error) (now : Z) (prev : App.WebviewData) :
  Extension.isNetworkError e = true ->
  App.prompt
    (deliver (posted (run WithFallback [Start true now false (Rejected e); Fire 0; Fire 0]
                        initial)) prev) = VStr "Simulated run"
  /\ App.artifacts
       (deliver (posted (run WithFallback [Start true now false (Rejected e); Fire 0; Fire 0]
                           initial)) prev) = App.artifacts prev
  /\ is_live (run WithFallback [Start true now false (Rejected e); Fire 0; Fire 0] initial) 0
     = false
  /\ exists items,
       plan_section
         (deliver (posted (run WithFallback [Start true now false (Rejected e); Fire 0; Fire 0]
                             initial)) prev)
       = Some {| PlanViewer.reflecting := false;
                 PlanViewer.entries := PlanViewer.Steps items |}
       /\ map PlanViewer.step items = map VStr Extension.simulatedPlan
       /\ map PlanViewer.state items
          = [PlanViewer.completed; PlanViewer.completed; PlanViewer.in_progress].
Proof.
  intros He.
  assert (Hs : step WithFallback initial (Start true now false (Rejected e))
               = exec (Extension.startSimulatedTask now 0)
                   (exec (appendLine LogUnreachable)
                      (exec (appendLine (LogCreateError e))
                         (exec (issue (PostTask (VObj []) 3000))
                            (exec ensureDashboard initial))))).
  { unfold step, handle, exec, Extension.osae_start, try_catch, bind, await. cbn.
    rewrite He. reflexivity. }
  unfold run. cbn [fold_left]. rewrite Hs.
  repeat split.
  eexists. split; [reflexivity|]. split; reflexivity.
Qed.

(** The creation request is aborted by its deadline. *)
Lemma simulated_run_on_screen_witness :
  App.prompt
    (deliver (posted (run WithFallback [Start true 0 false Scenario.aborted; Fire 0; Fire 0]
                        initial)) Scenario.held) = VStr "Simulated run".
Proof.
  destruct (simulated_run_on_screen
              {| name := "AbortError"; message := "This operation was aborted" |}
              0 Scenario.held eq_refl) as [H _].
  exact H.
Defined.

End Display.

(** ** The files of the live preview *)

Module SandpackFacts.
Import Sandpack.
#[local] Open Scope list_scope.

Lemma lookup_assign_same (k : string) (v : value) (m : files) :
  lookup k (assign k v m) = Some v.
Proof.
  induction m as [|[k' v'] m IH]; cbn.
  - now rewrite String.eqb_refl.
  - destruct (k =? k')%string eqn:E; cbn; rewrite ?String.eqb_refl, ?E; auto.
Qed.

Lemma lookup_assign_other (k k' : string) (v : value) (m : files) :
  k <> k' -> lookup k' (assign k v m) = lookup k' m.
Proof.
  intros Hne. induction m as [|[k0 v0] m IH]; cbn.
  - apply String.eqb_neq in Hne. rewrite String.eqb_sym. now rewrite Hne.
  - destruct (k =? k0)%string eqn:E; cbn.
    + apply String.eqb_eq in E. subst k0.
      assert ((k' =? k)%string = false) as -> by (apply String.eqb_neq; congruence).
      reflexivity.
    + destruct (k' =? k0)%string; auto.
Qed.

Lemma keys_assign (k k' : string) (v : value) (m : files) :
  In k' (keys (assign k v m)) <-> k' = k \/ In k' (keys m).
Proof.
  unfold keys. induction m as [|[k0 v0] m IH]; cbn.
  - intuition.
  - destruct (k =? k0)%string eqn:E; cbn.
    + apply String.eqb_eq in E. subst k0. intuition.
    + rewrite IH. intuition.
Qed.

Lemma keys_assign_nodup (k : string) (v : value) (m : files) :
  NoDup (keys m) -> NoDup (keys (assign k v m)).
Proof.
  unfold keys. induction m as [|[k0 v0] m IH]; cbn; intros H.
  - repeat constructor. auto.
  - inversion H as [|? ? Hnotin Hnd]; subst.
    destruct (k =? k0)%string eqn:E; cbn.
    + apply String.eqb_eq in E. subst k0. now constructor.
    + constructor; [|auto]. intros Hin.
      apply (keys_assign k k0 v m) in Hin as [->|Hin]; [|contradiction].
      now rewrite String.eqb_refl in E.
Qed.

Lemma lookup_in_keys (k : string) (m : files) :
  lookup k m <> None <-> In k (keys m).
Proof.
  unfold keys. induction m as [|[k0 v0] m IH]; cbn.
  - intuition.
  - destruct (k =? k0)%string eqn:E.
    + apply String.eqb_eq in E. subst. intuition discriminate.
    + apply String.eqb_neq in E. rewrite IH. intuition congruence.
Qed.

(** The callback adds the artifact's entry, if it has one. *)
Lemma add_artifact_entry (acc : files) (art : value) :
  add_artifact acc art
  = match entry_of art with
    | Some (p, c) => assign p c acc
    | None => acc
    end.
Proof.
  unfold add_artifact, entry_of.
  destruct (filename_of art) as [| | | |f| |]; cbn; try reflexivity;
    try (match goal with |- (if ?b then _ else _) = _ => destruct b end; reflexivity).
  destruct (f =? "")%string; reflexivity.
Qed.

(** An artifact with an entry is truthy, its path is absolute and its
    code a string. *)
Lemma entry_well_formed (art : value) (p : string) (c : value) :
  entry_of art = Some (p, c) ->
  startsWith p "/" = true /\ typeof_string c = true.
Proof.
  unfold entry_of, filename_of, code_of, and_then.
  destruct (truthy art) eqn:Ht.
  - destruct (typeof_string (get art "filename")) eqn:Ef.
    + destruct (get art "filename") as [| | | |f| |]; try discriminate.
      destruct (f =? "")%string; [discriminate|]. intros [= <- <-]. split.
      * destruct (startsWith f "/") eqn:E; [exact E | destruct f; reflexivity].
      * destruct (typeof_string (get art "code")) eqn:Ec; [exact Ec | reflexivity].
    + cbn. discriminate.
  - destruct (typeof_string art) eqn:Ea.
    + destruct art as [| | | |s| |]; discriminate.
    + cbn. discriminate.
Qed.

Lemma fold_lookup (p : string) (arts : list value) (acc : files) :
  lookup p (fold_left add_artifact arts acc)
  = fold_left
      (fun found art =>
         match entry_of art with
         | Some (p', c) => if (p =? p')%string then Some c else found
         | None => found
         end)
      arts (lookup p acc).
Proof.
  revert acc. induction arts as [|art arts IH]; intros acc; cbn; [reflexivity|].
  rewrite IH, add_artifact_entry. f_equal.
  destruct (entry_of art) as [[p' c]|]; [|reflexivity].
  destruct (p =? p')%string eqn:E.
  - apply String.eqb_eq in E. subst. apply lookup_assign_same.
  - apply String.eqb_neq in E. apply lookup_assign_other. congruence.
Qed.

(** X11: the file map built from the artifacts holds, under each path,
    the code of the last artifact with that path, where a file name
    without a leading slash is given one (so "a.js" and "/a.js" are one
    path); artifacts without a non-empty string file name contribute
    nothing, and a value of [artifacts] that is not an array gives the
    empty map. *)
Theorem last_artifact_wins (artifacts : value) (p : string) :
  lookup p (sandpackFilesFromArtifacts artifacts)
  = match artifacts with
    | VArr items => last_code p items
    | _ => None
    end.
Proof.
  unfold sandpackFilesFromArtifacts, last_code.
  destruct artifacts; try reflexivity. apply fold_lookup.
Qed.

Lemma fold_well_formed (arts : list value) (acc : files) :
  NoDup (keys acc) ->
  (forall k v, lookup k acc = Some v -> startsWith k "/" = true /\ typeof_string v = true) ->
  NoDup (keys (fold_left add_artifact arts acc))
  /\ (forall k v, lookup k (fold_left add_artifact arts acc) = Some v ->
                  startsWith k "/" = true /\ typeof_string v = true).
Proof.
  revert acc. induction arts as [|art arts IH]; intros acc Hnd Hwf; cbn; [auto|].
  apply IH; rewrite add_artifact_entry;
    destruct (entry_of art) as [[p c]|] eqn:E; auto using keys_assign_nodup.
  intros k v Hl. destruct (String.eqb_spec p k) as [->|Hne].
  - rewrite lookup_assign_same in Hl. injection Hl as <-.
    exact (entry_well_formed art k c E).
  - rewrite lookup_assign_other in Hl by exact Hne. auto.
Qed.

(** X12: whatever value [artifacts] holds, every path of the file map
    starts with a slash, no path occurs twice, and every value is a
    string. *)
Theorem artifact_paths_absolute (artifacts : value) :
  NoDup (keys (sandpackFilesFromArtifacts artifacts))
  /\ (forall k v,
         lookup k (sandpackFilesFromArtifacts artifacts) = Some v ->
         startsWith k "/" = true /\ typeof_string v = true).
Proof.
  unfold sandpackFilesFromArtifacts. apply fold_well_formed.
  - constructor.
  - intros k v H. discriminate.
Qed.

Lemma some_key_ends_key (m : files) (suffixes : list string) (k : string) :
  In k (keys m) -> existsb (endsWith k) suffixes = true ->
  some_key_ends m suffixes = true.
Proof.
  intros Hin He. unfold some_key_ends. apply existsb_exists. now exists k.
Qed.

Lemma some_key_ends_assign (m : files) (suffixes : list string) (k : string) (v : value) :
  some_key_ends m suffixes = true -> some_key_ends (assign k v m) suffixes = true.
Proof.
  unfold some_key_ends. intros H. apply existsb_exists in H as (k' & Hin & He).
  apply existsb_exists. exists k'. split; [|exact He].
  apply keys_assign. now right.
Qed.

Lemma lookup_some_in_keys (k : string) (v : value) (m : files) :
  lookup k m = Some v -> In k (keys m).
Proof. intros H. apply lookup_in_keys. congruence. Qed.

(** Adding a skeleton under a path that ends with one of the suffixes,
    when no path of the map does, keeps every entry of the map. *)
Lemma skeleton_keeps (m : files) (suffixes : list string) (k : string) (sk : value)
    (p : string) (c : value) :
  existsb (endsWith k) suffixes = true ->
  lookup p m = Some c ->
  lookup p (if negb (some_key_ends m suffixes) then assign k sk m else m) = Some c.
Proof.
  intros Hk Hl. destruct (some_key_ends m suffixes) eqn:E; cbn; [exact Hl|].
  rewrite lookup_assign_other; [exact Hl|]. intros ->.
  rewrite (some_key_ends_key m suffixes p (lookup_some_in_keys _ _ _ Hl) Hk) in E.
  discriminate.
Qed.

Lemma skeleton_present (m : files) (suffixes : list string) (k : string) (sk : value) :
  existsb (endsWith k) suffixes = true ->
  some_key_ends (if negb (some_key_ends m suffixes) then assign k sk m else m) suffixes
  = true.
Proof.
  intros Hk. destruct (some_key_ends m suffixes) eqn:E; cbn; [exact E|].
  apply (some_key_ends_key _ _ k); [|exact Hk]. apply keys_assign. now left.
Qed.

(** The skeletons, all facts at once. *)
Lemma skeletons_all (artifacts : value) :
  (forall p c,
      lookup p (sandpackFilesFromArtifacts artifacts) = Some c ->
      lookup p (sandpackFiles artifacts) = Some c)
  /\ some_key_ends (sandpackFiles artifacts) app_suffixes = true
  /\ some_key_ends (sandpackFiles artifacts) index_suffixes = true
  /\ lookup "/index.html" (sandpackFiles artifacts) <> None
  /\ NoDup (keys (sandpackFiles artifacts))
  /\ (forall p,
         In p (keys (sandpackFiles artifacts)) ->
         In p (keys (sandpackFilesFromArtifacts artifacts))
         \/ In p ["/App.tsx"; "/index.tsx"; "/index.html"]).
Proof.
  unfold sandpackFiles.
  set (m0 := sandpackFilesFromArtifacts artifacts).
  set (m1 := if negb (some_key_ends m0 app_suffixes)
             then assign "/App.tsx" (VStr app_skeleton) m0 else m0).
  set (m2 := if negb (some_key_ends m1 index_suffixes)
             then assign "/index.tsx" (VStr index_skeleton) m1 else m1).
  assert (K1 : forall p c, lookup p m0 = Some c -> lookup p m1 = Some c)
    by (intros p c; apply skeleton_keeps; reflexivity).
  assert (K2 : forall p c, lookup p m1 = Some c -> lookup p m2 = Some c)
    by (intros p c; apply skeleton_keeps; reflexivity).
  assert (A1 : some_key_ends m1 app_suffixes = true)
    by (apply skeleton_present; reflexivity).
  assert (A2 : some_key_ends m2 app_suffixes = true).
  { unfold m2. destruct (negb (some_key_ends m1 index_suffixes));
      [now apply some_key_ends_assign | exact A1]. }
  assert (I2 : some_key_ends m2 index_suffixes = true)
    by (apply skeleton_present; reflexivity).
  assert (N0 : NoDup (keys m0)) by apply artifact_paths_absolute.
  assert (N1 : NoDup (keys m1)).
  { unfold m1. destruct (negb (some_key_ends m0 app_suffixes));
      [now apply keys_assign_nodup | exact N0]. }
  assert (N2 : NoDup (keys m2)).
  { unfold m2. destruct (negb (some_key_ends m1 index_suffixes));
      [now apply keys_assign_nodup | exact N1]. }
  assert (P1 : forall p, In p (keys m1) -> In p (keys m0) \/ p = "/App.tsx").
  { intros p. unfold m1. destruct (negb (some_key_ends m0 app_suffixes)); [|now left].
    intros H. apply keys_assign in H. tauto. }
  assert (P2 : forall p, In p (keys m2) -> In p (keys m1) \/ p = "/index.tsx").
  { intros p. unfold m2. destruct (negb (some_key_ends m1 index_suffixes)); [|now left].
    intros H. apply keys_assign in H. tauto. }
  destruct (lookup "/index.html" m2) as [h|] eqn:Eh.
  - repeat apply conj; auto.
    + congruence.
    + intros p Hp. apply P2 in Hp as [Hp| ->]; [|cbn; tauto].
      apply P1 in Hp as [Hp| ->]; [now left | cbn; tauto].
  - repeat apply conj.
    + intros p c Hl. rewrite lookup_assign_other; [auto|].
      intros <-. apply K1, K2 in Hl. congruence.
    + now apply some_key_ends_assign.
    + now apply some_key_ends_assign.
    + now rewrite lookup_assign_same.
    + now apply keys_assign_nodup.
    + intros p Hp. apply keys_assign in Hp as [->|Hp]; [cbn; tauto|].
      apply P2 in Hp as [Hp| ->]; [|cbn; tauto].
      apply P1 in Hp as [Hp| ->]; [now left | cbn; tauto].
Qed.

Lemma skeletons_facts (artifacts : value) :
  (forall p c,
      lookup p (sandpackFilesFromArtifacts artifacts) = Some c ->
      lookup p (sandpackFiles artifacts) = Some c)
  /\ NoDup (keys (sandpackFiles artifacts))
  /\ (forall p,
         In p (keys (sandpackFiles artifacts)) ->
         In p (keys (sandpackFilesFromArtifacts artifacts))
         \/ In p ["/App.tsx"; "/index.tsx"; "/index.html"]).
Proof.
  destruct (skeletons_all artifacts) as (A & _ & _ & _ & B & C). auto.
Qed.

Lemma some_key_ends_assign_eq (m : files) (suffixes : list string) (k : string)
    (v : value) :
  some_key_ends (assign k v m) suffixes
  = some_key_ends m suffixes || existsb (endsWith k) suffixes.
Proof.
  unfold some_key_ends, keys. induction m as [|[k0 v0] m IH]; cbn.
  - now rewrite orb_false_r.
  - destruct (k =? k0)%string eqn:E; cbn.
    + apply String.eqb_eq in E. subst k0.
      destruct (existsb (endsWith k) suffixes); cbn; [reflexivity|].
      now rewrite orb_false_r.
    + rewrite IH. now rewrite orb_assoc.
Qed.

(** Where each skeleton goes: exactly where the agent's files have no
    path ending in an entry name of its kind. *)
Lemma skeletons_exact (artifacts : value) :
  (forall p,
      In p (keys (sandpackFiles artifacts))
      <-> In p (keys (sandpackFilesFromArtifacts artifacts))
          \/ (p = "/App.tsx"
              /\ some_key_ends (sandpackFilesFromArtifacts artifacts) app_suffixes = false)
          \/ (p = "/index.tsx"
              /\ some_key_ends (sandpackFilesFromArtifacts artifacts) index_suffixes = false)
          \/ p = "/index.html")
  /\ (some_key_ends (sandpackFilesFromArtifacts artifacts) app_suffixes = false ->
      lookup "/App.tsx" (sandpackFiles artifacts) = Some (VStr app_skeleton))
  /\ (some_key_ends (sandpackFilesFromArtifacts artifacts) index_suffixes = false ->
      lookup "/index.tsx" (sandpackFiles artifacts) = Some (VStr index_skeleton))
  /\ (lookup "/index.html" (sandpackFilesFromArtifacts artifacts) = None ->
      lookup "/index.html" (sandpackFiles artifacts) = Some (VStr html_skeleton)).
Proof.
  unfold sandpackFiles.
  set (m0 := sandpackFilesFromArtifacts artifacts).
  set (m1 := if negb (some_key_ends m0 app_suffixes)
             then assign "/App.tsx" (VStr app_skeleton) m0 else m0).
  set (m2 := if negb (some_key_ends m1 index_suffixes)
             then assign "/index.tsx" (VStr index_skeleton) m1 else m1).
  assert (E1 : some_key_ends m1 index_suffixes = some_key_ends m0 index_suffixes).
  { unfold m1. destruct (negb (some_key_ends m0 app_suffixes)); [|reflexivity].
    rewrite some_key_ends_assign_eq. apply orb_false_r. }
  assert (P1 : forall p, In p (keys m1)
                         <-> In p (keys m0)
                             \/ (p = "/App.tsx" /\ some_key_ends m0 app_suffixes = false)).
  { intros p. unfold m1. destruct (some_key_ends m0 app_suffixes) eqn:E; cbn.
    - intuition discriminate.
    - rewrite keys_assign. intuition. }
  assert (P2 : forall p, In p (keys m2)
                         <-> In p (keys m1)
                             \/ (p = "/index.tsx"
                                 /\ some_key_ends m0 index_suffixes = false)).
  { intros p. unfold m2. rewrite E1.
    destruct (some_key_ends m0 index_suffixes) eqn:E; cbn.
    - intuition discriminate.
    - rewrite keys_assign. intuition. }
  assert (L1 : some_key_ends m0 app_suffixes = false ->
               lookup "/App.tsx" m2 = Some (VStr app_skeleton)).
  { intros E. unfold m2.
    assert (lookup "/App.tsx" m1 = Some (VStr app_skeleton)) as H1
      by (unfold m1; rewrite E; cbn; apply lookup_assign_same).
    destruct (negb (some_key_ends m1 index_suffixes)); [|exact H1].
    rewrite lookup_assign_other; [exact H1 | discriminate]. }
  assert (L2 : some_key_ends m0 index_suffixes = false ->
               lookup "/index.tsx" m2 = Some (VStr index_skeleton)).
  { intros E. unfold m2. rewrite E1, E. cbn. apply lookup_assign_same. }
  assert (L3 : lookup "/index.html" m2 = lookup "/index.html" m0).
  { unfold m2. transitivity (lookup "/index.html" m1).
    - destruct (negb (some_key_ends m1 index_suffixes)); [|reflexivity].
      apply lookup_assign_other. discriminate.
    - unfold m1. destruct (negb (some_key_ends m0 app_suffixes)); [|reflexivity].
      apply lookup_assign_other. discriminate. }
  destruct (lookup "/index.html" m2) as [h|] eqn:Eh.
  - split; [|split; [exact L1 | split; [exact L2 | congruence]]].
    intros p. rewrite P2, P1. split; [tauto|].
    intros [H|[H|[H| ->]]]; [tauto | tauto | tauto |].
    left. left. apply lookup_in_keys. congruence.
  - split; [|split; [|split]].
    + intros p. rewrite keys_assign, P2, P1. tauto.
    + intros E. rewrite lookup_assign_other; [auto | discriminate].
    + intros E. rewrite lookup_assign_other; [auto | discriminate].
    + intros _. apply lookup_assign_same.
Qed.

(** X13: the files given to the preview always contain a path ending in
    an App entry name, a path ending in an index entry name and
    "/index.html".  Every file of the agent is there with the agent's
    code and no path occurs twice.  The paths of the result are those
    of the agent's files, "/App.tsx" where (and only where) none of the
    agent's paths ends in an App entry name, "/index.tsx" where (and
    only where) none ends in an index entry name, and "/index.html";
    a path added so holds the skeleton of its kind, and "/index.html"
    holds the page skeleton where the agent wrote no "/index.html". *)
Theorem skeletons_fill_gaps (artifacts : value) :
  (forall p c,
      lookup p (sandpackFilesFromArtifacts artifacts) = Some c ->
      lookup p (sandpackFiles artifacts) = Some c)
  /\ some_key_ends (sandpackFiles artifacts) app_suffixes = true
  /\ some_key_ends (sandpackFiles artifacts) index_suffixes = true
  /\ lookup "/index.html" (sandpackFiles artifacts) <> None
  /\ NoDup (keys (sandpackFiles artifacts))
  /\ (forall p,
         In p (keys (sandpackFiles artifacts)) ->
         In p (keys (sandpackFilesFromArtifacts artifacts))
         \/ In p ["/App.tsx"; "/index.tsx"; "/index.html"])
  /\ (forall p,
         In p (keys (sandpackFiles artifacts))
         <-> In p (keys (sandpackFilesFromArtifacts artifacts))
             \/ (p = "/App.tsx"
                 /\ some_key_ends (sandpackFilesFromArtifacts artifacts) app_suffixes
                    = false)
             \/ (p = "/index.tsx"
                 /\ some_key_ends (sandpackFilesFromArtifacts artifacts) index_suffixes
                    = false)
             \/ p = "/index.html")
  /\ (some_key_ends (sandpackFilesFromArtifacts artifacts) app_suffixes = false ->
      lookup "/App.tsx" (sandpackFiles artifacts) = Some (VStr app_skeleton))
  /\ (some_key_ends (sandpackFilesFromArtifacts artifacts) index_suffixes = false ->
      lookup "/index.tsx" (sandpackFiles artifacts) = Some (VStr index_skeleton))
  /\ (lookup "/index.html" (sandpackFilesFromArtifacts artifacts) = None ->
      lookup "/index.html" (sandpackFiles artifacts) = Some (VStr html_skeleton)).
Proof.
  destruct (skeletons_all artifacts) as (A & B & C & D & E & F).
  destruct (skeletons_exact artifacts) as (G & H & I & J).
  repeat apply conj; assumption.
Qed.

(** The agent wrote "/App.tsx" only: it keeps its code, and the index
    and page skeletons are added. *)
Lemma skeletons_fill_gaps_witness :
  lookup "/App.tsx" (sandpackFiles Scenario2.one_file) = Some (VStr "export default 1")
  /\ lookup "/index.tsx" (sandpackFiles Scenario2.one_file) = Some (VStr index_skeleton)
  /\ lookup "/index.html" (sandpackFiles Scenario2.one_file) = Some (VStr html_skeleton).
Proof.
  destruct (skeletons_fill_gaps Scenario2.one_file)
    as (H & _ & _ & _ & _ & _ & _ & _ & I & J).
  split; [exact (H "/App.tsx" (VStr "export default 1") eq_refl)|].
  split; [exact (I eq_refl) | exact (J eq_refl)].
Defined.

Lemma spread_lookup (a b : files) (k : string) :
  NoDup (keys b) ->
  lookup k (spread a b)
  = match lookup k b with
    | Some v => Some v
    | None => lookup k a
    end.
Proof.
  unfold spread. revert a. induction b as [|[k1 v1] b IH]; intros a Hnd; cbn;
    [reflexivity|].
  inversion Hnd as [|? ? Hnotin Hnd']; subst. rewrite IH by exact Hnd'.
  destruct (k =? k1)%string eqn:E.
  - apply String.eqb_eq in E. subst k1.
    destruct (lookup k b) eqn:El.
    + exfalso. apply Hnotin. eapply lookup_some_in_keys; eauto.
    + apply lookup_assign_same.
  - apply String.eqb_neq in E.
    destruct (lookup k b); [reflexivity|]. apply lookup_assign_other. congruence.
Qed.

(** X14: in the merged files of the preview a path has the value of the
    files passed in when they have it, and otherwise that of the
    defaults; so every file of the agent reaches the preview with the
    agent's code, and "/index.js" and "/App.js" keep their default text
    unless the agent wrote files under these very paths. *)
Theorem preview_files_override_defaults :
  (forall given k,
      NoDup (keys given) ->
      lookup k (mergedFiles given)
      = match lookup k given with
        | Some v => Some v
        | None => lookup k defaultFiles
        end)
  /\ (forall artifacts p c,
         lookup p (sandpackFilesFromArtifacts artifacts) = Some c ->
         lookup p (mergedFiles (sandpackFiles artifacts)) = Some c)
  /\ (forall artifacts p,
         In p ["/index.js"; "/App.js"] ->
         lookup p (sandpackFilesFromArtifacts artifacts) = None ->
         lookup p (mergedFiles (sandpackFiles artifacts)) = lookup p defaultFiles).
Proof.
  repeat apply conj.
  - intros given k Hnd. now apply spread_lookup.
  - intros artifacts p c Hl.
    destruct (skeletons_facts artifacts) as (Hk & Hnd & _).
    unfold mergedFiles. rewrite spread_lookup by exact Hnd. now rewrite (Hk p c Hl).
  - intros artifacts p Hp Hl.
    destruct (skeletons_facts artifacts) as (_ & Hnd & Hadd).
    unfold mergedFiles. rewrite spread_lookup by exact Hnd.
    destruct (lookup p (sandpackFiles artifacts)) as [v|] eqn:E; [|reflexivity].
    exfalso. apply lookup_some_in_keys in E. apply Hadd in E as [E|E].
    + apply lookup_in_keys in E. contradiction.
    + cbn in Hp, E. destruct Hp as [<-|[<-|[]]];
        destruct E as [E|[E|[E|[]]]]; discriminate.
Qed.

(** The agent wrote "/App.tsx" only: it reaches the preview. *)
Lemma preview_files_override_defaults_witness :
  lookup "/App.tsx" (mergedFiles (sandpackFiles Scenario2.one_file))
  = Some (VStr "export default 1").
Proof.
  destruct preview_files_override_defaults as (_ & H & _).
  exact (H Scenario2.one_file "/App.tsx" (VStr "export default 1") eq_refl).
Defined.

End SandpackFacts.

(** ** Activation, the dashboard panel, the health probe and the reset
       command *)

Module LifecycleFacts.
Import Lifecycle.
#[local] Open Scope list_scope.

Lemma pick_first (env : machine) (cs : list string) :
  match pick env cs with
  | Some c => exists pre post, cs = pre ++ c :: post /\ answers env c = true
                               /\ Forall (fun x => answers env x = false) pre
  | None => Forall (fun x => answers env x = false) cs
  end.
Proof.
  induction cs as [|c cs IH]; cbn [pick].
  - constructor.
  - unfold answers at 1 3.
    destruct (probe env c) as [e|[[|p|p]|]] eqn:Hp;
      try (destruct (pick env cs) as [c'|];
           [ destruct IH as (pre & post & -> & Ha & Hpre);
             exists (c :: pre), post; repeat split; auto;
             constructor; auto; unfold answers; rewrite Hp; reflexivity
           | constructor; auto; unfold answers; rewrite Hp; reflexivity ]; fail).
    exists [], cs. repeat split; auto. unfold answers. rewrite Hp. reflexivity.
Qed.

(** X15: [spawnPythonServer] of [extension.ts] never throws, and it
    starts the worker with the first launcher name of the platform's
    list that answers [--version] with status 0: either such a name
    exists, every name before it fails to answer, and the one [spawn]
    call (if it returns) is made with that name and its handle is
    returned; or no name answers, nothing is spawned and [undefined] is
    returned. *)
Theorem launcher_is_first_answering_candidate (env : machine) (s : state) :
  let r := spawnPythonServer env s in
  (exists c pre post,
      candidates env = pre ++ c :: post
      /\ answers env c = true
      /\ Forall (fun x => answers env x = false) pre
      /\ match spawn env c with
         | ExtensionVenv.SpawnReturns p =>
             fst r = Host.Returned (Some p)
             /\ spawned (snd r) = spawned s ++ [(c, p)]
             /\ pythonProcess (snd r) = Some p
         | ExtensionVenv.SpawnThrows e =>
             fst r = Host.Returned None
             /\ spawned (snd r) = spawned s
             /\ pythonProcess (snd r) = pythonProcess s
             /\ output (snd r) = output s ++ [Common (Host.LogSpawnFailed e)]
         end)
  \/ (Forall (fun x => answers env x = false) (candidates env)
      /\ fst r = Host.Returned None
      /\ spawned (snd r) = spawned s
      /\ pythonProcess (snd r) = pythonProcess s
      /\ output (snd r) = output s ++ [LogNoUsablePython]).
Proof.
  intro r. subst r.
  pose proof (pick_first env (candidates env)) as Hpick.
  unfold spawnPythonServer, try_catch, bind.
  destruct (pick env (candidates env)) as [c|].
  - left. destruct Hpick as (pre & post & Hc & Ha & Hpre).
    exists c, pre, post. repeat split; auto.
    destruct (spawn env c) as [e|p]; cbn; repeat split; reflexivity.
  - right. cbn. repeat split; auto.
Qed.

Lemma spawnPythonServer_frame (env : machine) (s : state) :
  exists (r : option Host.process) (l : list line),
    spawnPythonServer env s
    = (Host.Returned r,
       {| pythonProcess := match r with Some p => Some p | None => pythonProcess s end;
          dashboardPanel := dashboardPanel s; output := output s ++ l;
          commands := commands s;
          spawned := spawned s ++ match r with
                                  | Some p =>
                                      match pick env (candidates env) with
                                      | Some c => [(c, p)]
                                      | None => []
                                      end
                                  | None => []
                                  end;
          killed := killed s; panels := panels s; open_panels := open_panels s;
          reveals := reveals s; html_loads := html_loads s; calls := calls s;
          timeouts := timeouts s |})
    /\ (r <> None -> pick env (candidates env) <> None).
Proof.
  unfold spawnPythonServer, try_catch, bind.
  destruct (pick env (candidates env)) as [c|].
  - destruct (spawn env c) as [e|p]; cbn.
    + exists None, [Common (Host.LogSpawnFailed e)]. rewrite app_nil_r.
      split; [reflexivity | congruence].
    + exists (Some p), [LogSpawnedWith c (Host.pid p)].
      split; [reflexivity | congruence].
  - cbn. exists None, [LogNoUsablePython]. rewrite app_nil_r.
    split; [reflexivity | congruence].
Qed.

(** X16: [activate] of [extension.ts] cannot fail and does not depend
    on the worker: whatever the machine offers, it returns normally,
    registers [osae.openDashboard] and [osae.start] (in this order),
    schedules one health check, opens no panel and sends no request;
    the process variable holds the handle of the worker it spawned, or
    nothing. *)
Theorem activation_registers_commands_regardless (env : machine) (s : state) :
  let s' := exec (activate env) s in
  fst (activate env s) = Host.Returned tt
  /\ commands s' = commands s ++ ["osae.openDashboard"; "osae.start"]
  /\ timeouts s' = S (timeouts s)
  /\ panels s' = panels s
  /\ calls s' = calls s
  /\ killed s' = killed s
  /\ (exists l, spawned s' = spawned s ++ l
                /\ pythonProcess s' = match l with
                                      | [] => None
                                      | (_, p) :: _ => Some p
                                      end
                /\ length l <= 1).
Proof.
  intro s'. subst s'. unfold exec, activate, bind.
  cbn [appendLine].
  match goal with
  | |- context [spawnPythonServer env ?s0] =>
      destruct (spawnPythonServer_frame env s0) as (r & l & -> & Hr)
  end.
  cbn. rewrite <- app_assoc. repeat split; try reflexivity.
  destruct r as [p|].
  - destruct (pick env (candidates env)) as [c|]; [|exfalso; apply Hr; congruence].
    exists [(c, p)]. repeat split; auto.
  - exists []. rewrite app_nil_r. repeat split; auto.
Qed.


Lemma osae_reset_effect (has_fetch : bool) (res : Host.fetched) (s : state) :
  exists l,
    osae_reset has_fetch res s
    = (Host.Returned tt,
       {| pythonProcess := pythonProcess s; dashboardPanel := dashboardPanel s;
          output := output s ++ [l]; commands := commands s; spawned := spawned s;
          killed := killed s; panels := panels s; open_panels := open_panels s;
          reveals := reveals s;
          html_loads := html_loads s ++ match dashboardPanel s with
                                        | Some id =>
                                            if reset_reloads has_fetch res then [id] else []
                                        | None => []
                                        end;
          calls := calls s ++ (if has_fetch then [PostReset] else []);
          timeouts := timeouts s |}).
Proof.
  unfold osae_reset, try_catch, bind, get_dashboardPanel, reset_reloads.
  destruct has_fetch; destruct res as [[r|]|e]; cbn;
    try destruct (Host.ok r); cbn;
    destruct (dashboardPanel s) as [id|] eqn:Hd; cbn; unfold appendLine;
    rewrite ?Hd, ?app_nil_r; eexists; reflexivity.
Qed.

Lemma onDidReceiveMessage_effect (msg : value) (has_fetch : bool) (res : Host.fetched)
    (s : state) :
  onDidReceiveMessage msg has_fetch res s
  = if truthy msg && is_string (get msg "type") "osae.reset"
    then osae_reset has_fetch res s
    else (Host.Returned tt, s).
Proof.
  unfold onDidReceiveMessage.
  destruct (truthy msg && is_string (get msg "type") "osae.reset"); [|reflexivity].
  unfold try_catch.
  destruct (osae_reset_effect has_fetch res s) as [l ->]. reflexivity.
Qed.

Lemma is_string_eq (v : value) (lit : string) :
  is_string v lit = true -> v = VStr lit.
Proof.
  destruct v; cbn; try discriminate.
  intro H. apply String.eqb_eq in H. congruence.
Qed.

Lemma healthCallback_frame (has_fetch : bool) (res : Host.fetched) (s : state) :
  let s' := exec (healthCallback has_fetch res) s in
  dashboardPanel s' = dashboardPanel s /\ open_panels s' = open_panels s
  /\ panels s' = panels s /\ reveals s' = reveals s /\ html_loads s' = html_loads s
  /\ (calls s' = calls s \/ calls s' = calls s ++ [GetHealth]).
Proof.
  unfold exec, healthCallback, pollHealthEndpoint, try_catch, bind, get_pythonProcess.
  cbn [fst snd].
  destruct (pythonProcess s) as [p|]; destruct has_fetch; cbn; auto 10.
  destruct res as [[r|]|e]; cbn; [destruct (Host.ok r); cbn| |]; auto 10.
Qed.

Lemma deactivate_frame (s : state) :
  let s' := exec deactivate s in
  dashboardPanel s' = dashboardPanel s /\ open_panels s' = open_panels s
  /\ panels s' = panels s /\ reveals s' = reveals s /\ html_loads s' = html_loads s
  /\ calls s' = calls s.
Proof.
  unfold exec, deactivate, try_catch, bind, get_pythonProcess, kill. cbn.
  destruct (pythonProcess s) as [p|]; cbn; auto 10.
  destruct (Host.kill_throws p); cbn; auto 10.
Qed.

Lemma message_cases (b : Machine.build) (msg : value) (has_fetch : bool)
    (res : Host.fetched) (s : state) :
  message b msg has_fetch res s = (Host.Returned tt, s)
  \/ (b = Machine.VenvOnly /\ open_panels s <> []
      /\ is_string (get msg "type") "osae.reset" = true
      /\ message b msg has_fetch res s = osae_reset has_fetch res s).
Proof.
  unfold message. destruct b; [left; reflexivity|].
  destruct (open_panels s) as [|p ps]; [left; reflexivity|].
  rewrite onDidReceiveMessage_effect.
  destruct (truthy msg); cbn [andb]; [|left; reflexivity].
  destruct (is_string (get msg "type") "osae.reset"); [|left; reflexivity].
  right. repeat split. discriminate.
Qed.

Lemma panel_tracked_frame (s s' : state) :
  dashboardPanel s' = dashboardPanel s -> open_panels s' = open_panels s ->
  panels s' = panels s -> panel_tracked s -> panel_tracked s'.
Proof.
  unfold panel_tracked. intros -> -> ->. exact (fun H => H).
Qed.

Lemma osae_reset_frame (has_fetch : bool) (res : Host.fetched) (s : state) :
  panel_tracked s -> panel_tracked (exec (osae_reset has_fetch res) s).
Proof.
  unfold exec. destruct (osae_reset_effect has_fetch res s) as [l ->].
  apply panel_tracked_frame; reflexivity.
Qed.

Lemma panel_tracked_step (b : Machine.build) (s : state) (e : event) :
  panel_tracked s -> panel_tracked (step b s e).
Proof.
  intros Hs. unfold step, handle.
  destruct e as [hf res| |id|msg hf res|hf res|].
  - unfold healthTimer, exec. destruct (timeouts s) as [|n]; [exact Hs|].
    match goal with
    | |- context [healthCallback hf res ?s0] =>
        pose proof (healthCallback_frame hf res s0) as H; cbv zeta in H;
        unfold exec in H; cbn [dashboardPanel open_panels panels] in H;
        destruct H as (H1 & H2 & H3 & _)
    end.
    revert Hs. apply panel_tracked_frame; assumption.
  - destruct Hs as [Hopen Hlt].
    unfold panel_tracked, exec, openDashboard, bind, get_dashboardPanel. cbn.
    destruct (dashboardPanel s) as [id|] eqn:Hd; cbn.
    + rewrite Hd. split; assumption.
    + rewrite Hopen. cbn. split; [reflexivity|].
      intros id [<-|[]]. apply Nat.lt_succ_diag_r.
  - destruct Hs as [Hopen Hlt]. unfold panel_tracked, exec, dispose.
    destruct (existsb (Nat.eqb id) (open_panels s)) eqn:Hin; [|split; assumption].
    cbn. destruct (dashboardPanel s) as [id'|].
    + rewrite Hopen in Hin |- *. cbn in Hin |- *.
      rewrite Bool.orb_false_r in Hin. rewrite Hin. cbn. split; [reflexivity|].
      intros ? [].
    + rewrite Hopen in Hin. discriminate.
  - unfold exec.
    destruct (message_cases b msg hf res s) as [->|(_ & _ & _ & ->)]; [exact Hs|].
    apply osae_reset_frame. exact Hs.
  - unfold exec, reset. destruct b; [exact Hs|].
    apply osae_reset_frame. exact Hs.
  - pose proof (deactivate_frame s) as H. cbv zeta in H.
    destruct H as (H1 & H2 & H3 & _).
    revert Hs. apply panel_tracked_frame; assumption.
Qed.

Lemma panel_tracked_run (b : Machine.build) (es : list event) :
  forall s, panel_tracked s -> panel_tracked (run b es s).
Proof.
  induction es as [|e es IH]; intros s Hs; [exact Hs|].
  cbn [run fold_left]. apply IH. apply panel_tracked_step. exact Hs.
Qed.

(** X18: In both revisions at most one dashboard panel is open, and
    the variable [dashboardPanel] holds exactly that panel: whatever
    happens after activation (commands, disposals, messages, timers,
    deactivation), [osae.openDashboard] creates a panel and loads the
    page into it only when none is open, and otherwise reveals the open
    one without creating or reloading anything. *)
Theorem single_dashboard_panel (b : Machine.build) (es : list event) (s : state)
    (Hs : panel_tracked s) :
  let s1 := run b es s in
  let s2 := step b s1 OpenDashboard in
  panel_tracked s1
  /\ length (open_panels s1) <= 1
  /\ (open_panels s1 = [] ->
      panels s2 = S (panels s1) /\ open_panels s2 = [panels s1]
      /\ html_loads s2 = html_loads s1 ++ [panels s1] /\ reveals s2 = reveals s1)
  /\ (forall id, open_panels s1 = [id] ->
      panels s2 = panels s1 /\ open_panels s2 = [id]
      /\ html_loads s2 = html_loads s1 /\ reveals s2 = reveals s1 ++ [id]).
Proof.
  intros s1 s2. subst s2.
  assert (H1 : panel_tracked s1) by (apply panel_tracked_run; exact Hs).
  clearbody s1. destruct H1 as [Hopen Hlt].
  split; [split; assumption|].
  unfold step, handle, exec, openDashboard, bind, get_dashboardPanel. cbn.
  destruct (dashboardPanel s1) as [id|]; rewrite Hopen; cbn.
  - split; [apply le_n|]. split; [discriminate|].
    intros id' [= <-]. rewrite Hopen. auto.
  - split; [apply Nat.le_0_l|]. split; [|discriminate].
    intros _. auto.
Qed.

Lemma single_dashboard_panel_witness :
  let s1 := run Machine.VenvOnly [OpenDashboard; OpenDashboard; Dispose 0; OpenDashboard]
                initial in
  panel_tracked s1 /\ open_panels s1 = [1] /\ panels s1 = 2
  /\ reveals s1 = [0] /\ html_loads s1 = [0; 1].
Proof.
  assert (Hs : panel_tracked initial).
  { split; [reflexivity|]. intros id []. }
  pose proof (single_dashboard_panel Machine.VenvOnly
                [OpenDashboard; OpenDashboard; Dispose 0; OpenDashboard] initial Hs)
    as H.
  cbv zeta in H. destruct H as (H & _).
  cbv zeta. split; [exact H|]. repeat split; reflexivity.
Defined.

(** X19: The [osae.reset] command of [part_000] never throws and
    writes exactly one line.  It sends POST /reset exactly when [fetch]
    exists, and it reloads the page of the dashboard exactly when that
    request resolved with an [ok] response and a panel is open; a
    rejected request, a response that is not [ok] or a missing response
    reloads nothing.  It does not touch the worker handle, the open
    panels or the registered commands. *)
Theorem reset_reloads_only_after_ok (has_fetch : bool) (res : Host.fetched) (s : state) :
  let s' := exec (osae_reset has_fetch res) s in
  fst (osae_reset has_fetch res s) = Host.Returned tt
  /\ calls s' = calls s ++ (if has_fetch then [PostReset] else [])
  /\ html_loads s'
     = html_loads s ++ match dashboardPanel s, res with
                       | Some id, Resolved (Some r) =>
                           if has_fetch && Host.ok r then [id] else []
                       | _, _ => []
                       end
  /\ (exists l, output s' = output s ++ [l])
  /\ pythonProcess s' = pythonProcess s
  /\ killed s' = killed s
  /\ dashboardPanel s' = dashboardPanel s
  /\ open_panels s' = open_panels s
  /\ panels s' = panels s
  /\ commands s' = commands s.
Proof.
  intro s'. subst s'. unfold exec.
  destruct (osae_reset_effect has_fetch res s) as [l ->]. cbn.
  repeat split; eauto.
  unfold reset_reloads.
  destruct (dashboardPanel s) as [id|]; [|reflexivity].
  destruct res as [[r|]|e]; reflexivity.
Qed.

(** X20: The only way a POST /reset leaves the extension: the revision
    is [part_000], [fetch] exists, and either the [osae.reset] command
    ran or an open panel delivered a message whose [type] is the string
    [osae.reset].  No other event, and no other message, sends it. *)
Theorem reset_request_origin (b : Machine.build) (s : state) (e : event)
    (Hsent : calls (step b s e) = calls s ++ [PostReset]) :
  b = Machine.VenvOnly
  /\ ((exists res, e = Reset true res)
      \/ (exists msg res, e = Message msg true res
                          /\ get msg "type" = VStr "osae.reset"
                          /\ open_panels s <> [])).
Proof.
  assert (Hno : calls s <> calls s ++ [PostReset]).
  { intro H. apply (f_equal (@length call)) in H. rewrite length_app in H.
    cbn in H. rewrite Nat.add_1_r in H. exact (n_Sn _ H). }
  assert (Hreset : forall hf res,
             calls (exec (osae_reset hf res) s) = calls s ++ [PostReset] -> hf = true).
  { intros hf res H. unfold exec in H.
    destruct (osae_reset_effect hf res s) as [l E]. rewrite E in H. cbn in H.
    destruct hf; [reflexivity|]. rewrite app_nil_r in H. contradiction. }
  revert Hsent. unfold step, handle.
  destruct e as [hf res| |id|msg hf res|hf res|]; intro Hsent.
  - exfalso. unfold healthTimer, exec in Hsent.
    destruct (timeouts s) as [|n]; [cbn in Hsent; contradiction|].
    match type of Hsent with
    | context [healthCallback hf res ?s0] =>
        pose proof (healthCallback_frame hf res s0) as H; cbv zeta in H;
        unfold exec in H; cbn [calls] in H;
        destruct H as (_ & _ & _ & _ & _ & [H|H])
    end.
    + rewrite H in Hsent. contradiction.
    + rewrite H in Hsent. apply app_inv_head in Hsent. discriminate.
  - exfalso. unfold exec, openDashboard, bind, get_dashboardPanel in Hsent.
    cbn in Hsent. destruct (dashboardPanel s); cbn in Hsent; contradiction.
  - exfalso. unfold exec, dispose in Hsent.
    destruct (existsb (Nat.eqb id) (open_panels s)); cbn in Hsent; contradiction.
  - unfold exec in Hsent.
    destruct (message_cases b msg hf res s) as [E|(-> & Hopen & Hty & E)];
      rewrite E in Hsent; [cbn in Hsent; contradiction|].
    split; [reflexivity|]. right.
    apply Hreset in Hsent. subst hf.
    exists msg, res. repeat split; [apply is_string_eq; exact Hty | exact Hopen].
  - unfold exec, reset in Hsent.
    destruct b; [cbn in Hsent; contradiction|]. split; [reflexivity|]. left.
    apply Hreset in Hsent. subst hf. exists res. reflexivity.
  - exfalso. pose proof (deactivate_frame s) as H. cbv zeta in H.
    destruct H as (_ & _ & _ & _ & _ & H). rewrite H in Hsent. contradiction.
Qed.

Lemma reset_request_origin_witness :
  Machine.VenvOnly = Machine.VenvOnly
  /\ ((exists res, Message (VObj [("type", VStr "osae.reset")]) true
                     (Resolved (Some {| Host.ok := true; Host.status := 200%Z;
                                        Host.json := Rejected (mkError "SyntaxError" "no body") |}))
                   = Reset true res)
      \/ (exists msg res,
             Message (VObj [("type", VStr "osae.reset")]) true
               (Resolved (Some {| Host.ok := true; Host.status := 200%Z;
                                  Host.json := Rejected (mkError "SyntaxError" "no body") |}))
             = Message msg true res
             /\ get msg "type" = VStr "osae.reset"
             /\ open_panels (step Machine.VenvOnly initial OpenDashboard) <> [])).
Proof.
  apply (reset_request_origin Machine.VenvOnly
           (step Machine.VenvOnly initial OpenDashboard)).
  reflexivity.
Defined.

End LifecycleFacts.

(** ** The asset bundler *)

Module BundleFacts.
Import Bundle.
#[local] Open Scope list_scope.

(** Induction on what is at a path, with the entries of a directory. *)
Fixpoint node_induction (P : node -> Prop)
    (HMissing : P Missing)
    (HDir : forall entries m r,
        Forall (fun e => P (snd e)) entries -> P (Dir entries m r))
    (HLink : forall l u s, P (Link l u s))
    (HFile : forall mode m c h, P (File mode m c h))
    (HOther : P Other)
    (n : node) : P n :=
  match n with
  | Missing => HMissing
  | Dir entries m r =>
      HDir entries m r
        ((fix go (es : list (string * node)) : Forall (fun e => P (snd e)) es :=
            match es with
            | [] => Forall_nil _
            | e :: es' =>
                Forall_cons e
                  (node_induction P HMissing HDir HLink HFile HOther (snd e))
                  (go es')
            end) entries)
  | Link l u s => HLink l u s
  | File mode m c h => HFile mode m c h
  | Other => HOther
  end.

Lemma copyRecursive_Dir (opts : options) (src dst : path)
    (entries : list (string * node)) (m r : option error) (t : trace) :
  copyRecursive opts src dst (Dir entries m r) t
  = (if has (skipDirs opts) (basename src) then ret tt
     else ensureDir dst m ;;
          match r with
          | Some e => throw e
          | None => each opts src dst entries
          end) t.
Proof.
  cbn [copyRecursive].
  destruct (has (skipDirs opts) (basename src)); [reflexivity|].
  unfold bind. destruct (ensureDir dst m t) as [[[]|e] t']; [|reflexivity].
  destruct r as [e|]; [reflexivity|].
  revert t'. induction entries as [|[entry child] rest IH]; intro t'; [reflexivity|].
  cbn [each]. unfold bind.
  destruct (copyRecursive opts (join src entry) (join dst entry) child t')
    as [[[]|e] t'']; [|reflexivity].
  apply IH.
Qed.

Lemma reachable_nil (opts : options) (src : path) : reachable opts src [].
Proof. intros k Hk. inversion Hk. Qed.

Lemma reachable_snoc (opts : options) (src rel : path) (entry : string) :
  reachable opts src rel ->
  has (skipDirs opts) (basename (src ++ rel)) = false ->
  reachable opts src (rel ++ [entry]).
Proof.
  intros Hr Hb k Hk. rewrite length_app in Hk. cbn [length] in Hk.
  rewrite firstn_app.
  destruct (Nat.eq_dec k (length rel)) as [->|Hne].
  - rewrite firstn_all, Nat.sub_diag. cbn. rewrite app_nil_r. exact Hb.
  - assert (Hlt : k < length rel) by lia.
    replace (k - length rel) with 0 by lia.
    cbn. rewrite app_nil_r. apply Hr. exact Hlt.
Qed.

Lemma reachable_init (opts : options) (src rel : path) (entry : string) :
  reachable opts src (rel ++ [entry]) -> reachable opts src rel.
Proof.
  intros Hr k Hk.
  assert (Hk' : k < length (rel ++ [entry])).
  { rewrite length_app. cbn. lia. }
  specialize (Hr k Hk'). rewrite firstn_app in Hr.
  replace (k - length rel) with 0 in Hr by lia.
  cbn in Hr. rewrite app_nil_r in Hr. exact Hr.
Qed.

Lemma land_mode (mode : Z) : (0 <= Z.land mode 511 < 512)%Z.
Proof.
  change 511%Z with (Z.ones 9). rewrite Z.land_ones by lia.
  change (2 ^ 9)%Z with 512%Z. apply Z.mod_pos_bound. lia.
Qed.

Lemma at_path_snoc (root : node) (rel : path) (entries : list (string * node))
    (m r : option error) (entry : string) (child : node) :
  at_path root rel (Dir entries m r) -> In (entry, child) entries ->
  at_path root (rel ++ [entry]) child.
Proof.
  intros H Hin. remember (Dir entries m r) as d eqn:Ed.
  induction H as [n|es m0 r0 e0 c0 rel0 n Hin0 H IH]; subst.
  - cbn. eapply at_below; [exact Hin | apply at_here].
  - cbn. eapply at_below; [exact Hin0 | apply IH; reflexivity].
Qed.

(** The modes written are permission bits. *)
Lemma respects_mode (opts : options) (src dst : path) (root : node) (d : path) (md : Z) :
  respects opts src dst root (Chmod d md) -> (0 <= md < 512)%Z.
Proof. intros (rel & mode & m & c & h & _ & _ & _ & _ & ->). apply land_mode. Qed.

(** The calls of a copy below [src], for a source at [src ++ rel]. *)
Lemma copy_respects (opts : options) (src dst : path) (root n : node) :
  forall rel t,
    reachable opts src rel ->
    at_path root rel n ->
    exists new,
      snd (copyRecursive opts (src ++ rel) (dst ++ rel) n t) = t ++ new
      /\ Forall (respects opts src dst root) new.
Proof.
  induction n as [|entries m r IH|l u sy|mode m c h|] using node_induction;
    intros rel t Hrel Hat.
  - exists [Console (WarnSkippingMissing (src ++ rel))]. split; [reflexivity|].
    constructor; [exact I|constructor].
  - rewrite copyRecursive_Dir.
    destruct (has (skipDirs opts) (basename (src ++ rel))) eqn:Hskip.
    { exists []. rewrite app_nil_r. split; [reflexivity|constructor]. }
    assert (Hmk : respects opts src dst root (Mkdir (dst ++ rel))).
    { left. exists rel, entries, m, r. repeat split; assumption. }
    unfold bind, ensureDir, call.
    destruct m as [e|].
    { exists [Mkdir (dst ++ rel)]. split; [reflexivity|]. constructor; [exact Hmk|constructor]. }
    destruct r as [e|].
    { exists [Mkdir (dst ++ rel)]. split; [reflexivity|]. constructor; [exact Hmk|constructor]. }
    assert (Hloop : forall rest, incl rest entries ->
               forall t0, exists new,
                 snd (each opts (src ++ rel) (dst ++ rel) rest t0) = t0 ++ new
                 /\ Forall (respects opts src dst root) new).
    { clear t. rewrite Forall_forall in IH.
      induction rest as [|[entry child] rest IHrest]; intros Hincl t0.
      - exists []. rewrite app_nil_r. split; [reflexivity|constructor].
      - assert (Hin : In (entry, child) entries) by (apply Hincl; now left).
        cbn [each]. unfold bind, join.
        destruct (IH (entry, child) Hin (rel ++ [entry]) t0
                    (reachable_snoc _ _ _ entry Hrel Hskip)
                    (at_path_snoc _ _ _ _ _ _ _ Hat Hin))
          as (new1 & E1 & F1).
        rewrite !app_assoc in E1. change (snd (entry, child)) with child in E1.
        destruct (copyRecursive opts ((src ++ rel) ++ [entry]) ((dst ++ rel) ++ [entry])
                    child t0) as [[[]|e] t1]; cbn [snd] in E1; subst t1.
        + destruct (IHrest (fun x Hx => Hincl x (or_intror Hx)) (t0 ++ new1))
            as (new2 & E2 & F2).
          exists (new1 ++ new2). rewrite app_assoc. split; [exact E2|].
          apply Forall_app. split; assumption.
        + exists new1. split; [reflexivity|exact F1]. }
    destruct (Hloop entries (incl_refl _) (t ++ [Mkdir (dst ++ rel)])) as (new & E & F).
    exists (Mkdir (dst ++ rel) :: new). split.
    + rewrite E. rewrite <- app_assoc. reflexivity.
    + constructor; assumption.
  - assert (Hhere : exists rel0 l0 u0 s0,
               dst ++ rel = dst ++ rel0 /\ reachable opts src rel0
               /\ at_path root rel0 (Link l0 u0 s0)).
    { exists rel, l, u, sy. repeat split; assumption. }
    cbn [copyRecursive]. unfold try_catch, bind, call, say.
    destruct l as [link|e]; cbn.
    + destruct u as [eu|]; destruct sy as [es|]; cbn;
        eexists; (split; [rewrite <- ?app_assoc; reflexivity|]);
        repeat (constructor; try exact Hhere; try exact I).
    + eexists. split; [reflexivity|]. constructor; [exact I|constructor].
  - cbn [copyRecursive].
    destruct (has (skipFiles opts) (basename (src ++ rel))) eqn:Hskip.
    { exists []. rewrite app_nil_r. split; [reflexivity|constructor]. }
    assert (Hmk : respects opts src dst root (Mkdir (dirname (dst ++ rel)))).
    { right. exists rel, mode, m, c, h. repeat split; assumption. }
    assert (Hcp : respects opts src dst root (CopyFile (src ++ rel) (dst ++ rel))).
    { exists rel, mode, m, c, h. repeat split; assumption. }
    assert (Hch : respects opts src dst root (Chmod (dst ++ rel) (Z.land mode 511))).
    { exists rel, mode, m, c, h. repeat split; assumption. }
    unfold try_catch, bind, ensureDir, call, say.
    destruct m as [em|]; destruct c as [ec|]; destruct h as [eh|]; cbn;
      eexists; (split; [rewrite <- ?app_assoc; reflexivity|]);
      repeat (constructor; try exact Hmk; try exact Hcp; try exact Hch; try exact I).
  - exists []. rewrite app_nil_r. split; [reflexivity|constructor].
Qed.

(** A run on a small tree: the [.env] file and the [venv] directory
    are passed over, and the modes lose their file-type bits. *)
Example bundle_agent_server_tree :
  exec (copyRecursive {| skipDirs := ["venv"; "__pycache__"]; skipFiles := [".env"] |}
          ["agent-server"] ["extension"; "agent-server"] agent_server_tree) []
  = [ Mkdir ["extension"; "agent-server"];
      Mkdir ["extension"; "agent-server"];
      CopyFile ["agent-server"; "main.py"] ["extension"; "agent-server"; "main.py"];
      Chmod ["extension"; "agent-server"; "main.py"] 420;
      Mkdir ["extension"; "agent-server"];
      CopyFile ["agent-server"; "run.sh"] ["extension"; "agent-server"; "run.sh"];
      Chmod ["extension"; "agent-server"; "run.sh"] 493 ].
Proof. reflexivity. Qed.

(** X21: [copyRecursive] of the bundler stays inside its destination
    and leaves out what [opts] names, at every depth: each file it
    copies goes from [src/rel] to [dst/rel] for one and the same
    relative path, at which the source tree has a file, the base name
    of the file is not in [skipFiles], and no directory on the way from
    [src] down to it (the root included) has a base name in
    [skipDirs]; the mode it sets on a copy is the mode of the file at
    that path of the source tree, reduced to its permission bits (so
    below 0o1000); a directory is made where the source tree has a
    directory that is not left out, or for the parent of a file that is
    copied; a link is made only where the source tree has a link; and
    it never ends the process.  This holds whichever calls fail. *)
Theorem bundler_leaves_out_skipped_names (opts : options) (src dst : path) (n : node)
    (t : trace) :
  exists new,
    exec (copyRecursive opts src dst n) t = t ++ new
    /\ Forall (respects opts src dst n) new
    /\ Forall (fun o => match o with
                        | Chmod _ md => (0 <= md < 512)%Z
                        | _ => True
                        end) new.
Proof.
  destruct (copy_respects opts src dst n n [] t (reachable_nil opts src) (at_here n))
    as (new & E & F).
  rewrite !app_nil_r in E. exists new. split; [exact E|]. split; [exact F|].
  eapply Forall_impl; [|exact F]. intros [| | | |d md| |] H; try exact I.
  eapply respects_mode. exact H.
Qed.

Lemma guarded_copy (o : options) (from to : path) (label : string) (n : node)
    (t : trace) :
  exists new,
    try_catch (copyRecursive o from to n)
              (fun err => say (ErrorCopying label err)) t
    = (Host.Returned tt, t ++ new)
    /\ Forall (fun o => forall code, o <> Exit code) new.
Proof.
  destruct (copy_respects o from to n n [] t (reachable_nil _ _) (at_here n))
    as (new & E & F).
  rewrite !app_nil_r in E.
  assert (F' : Forall (fun o => forall code, o <> Exit code) new).
  { eapply Forall_impl; [|exact F]. intros x Hx code ->. exact Hx. }
  unfold try_catch.
  destruct (copyRecursive o from to n t) as [[[]|e] t'];
    cbn [snd] in E; subst t'.
  - exists new. split; [reflexivity|exact F'].
  - exists (new ++ [Console (ErrorCopying label e)]). split.
    + unfold say, call. rewrite app_assoc. reflexivity.
    + apply Forall_app. split; [exact F'|].
      constructor; [intros code; discriminate|constructor].
Qed.

(** X22: The bundler cannot report a failure.  Whatever is at the
    three sources and whichever calls fail, [main] announces and
    attempts all three copies in the order of [sources] (a failed copy
    does not stop the next one), then prints that bundling is complete
    and ends the process with exit code 0; the handler that would exit
    with code 2 is never reached. *)
Theorem bundling_always_exits_zero (world : string -> node) (t : trace) :
  exists a b c,
    main world t
    = (Host.Returned tt,
       t ++ [Console (LogCopying "agent-server" ["agent-server"]
                        ["extension"; "agent-server"])] ++ a
         ++ [Console (LogCopying "scripts" ["scripts"] ["extension"; "scripts"])] ++ b
         ++ [Console (LogCopying "bundled-mcp" ["bundled-mcp"]
                        ["extension"; "bundled-mcp"])] ++ c
         ++ [Console LogComplete; Exit 0])
    /\ Forall (fun o => forall code, o <> Exit code) (a ++ b ++ c).
Proof.
  unfold main, copyAll, sources. cbn [copy_sources name src dest opts].
  unfold try_catch at 1. unfold bind.
  unfold say at 1, call at 1.
  match goal with
  | |- context [try_catch (copyRecursive ?o ?from ?to ?n)
                          (fun err => say (ErrorCopying ?label err)) ?t0] =>
      destruct (guarded_copy o from to label n t0) as (a & -> & Fa)
  end.
  unfold say at 1, call at 1.
  match goal with
  | |- context [try_catch (copyRecursive ?o ?from ?to ?n)
                          (fun err => say (ErrorCopying ?label err)) ?t0] =>
      destruct (guarded_copy o from to label n t0) as (b & -> & Fb)
  end.
  unfold say at 1, call at 1.
  match goal with
  | |- context [try_catch (copyRecursive ?o ?from ?to ?n)
                          (fun err => say (ErrorCopying ?label err)) ?t0] =>
      destruct (guarded_copy o from to label n t0) as (c & -> & Fc)
  end.
  exists a, b, c. split.
  - cbn. repeat rewrite <- app_assoc. reflexivity.
  - apply Forall_app. split; [exact Fa|]. apply Forall_app. split; assumption.
Qed.

End BundleFacts.

(** ** First-run setup *)

Module SetupFacts.
Import Host ExtensionVenv.
#[local] Open Scope list_scope.

(** X23: A setup script that ends with a status other than 0 is
    reported twice: [ensureAgentServerSetup] shows its own message, and
    [activate], which catches the rejection, shows a second one that
    carries the script's stderr, or, when stderr is empty, the exit
    status.  The error's message is never empty, so the [String(err)]
    alternative of [activate] is not used.  No command is registered
    and nothing is spawned. *)
Theorem setup_failure_notified_twice (env : launch) (s : state)
    (code : option Z) (stderr : string) (after : bool)
    (Hmissing : venvExists env = false)
    (Hsetup : setup env = SetupClosed code stderr after)
    (Hcode : code <> Some 0%Z) :
  errorMessages (exec (activate env) s)
  = errorMessages s
    ++ ["[OSAE] AI runtime setup failed. See OSAE output for details.";
        ("[OSAE] Failed to initialize AI runtime: "
         ++ (if (stderr =? "")%string
             then "setup exited with code "
                  ++ match code with Some c => decimal c | None => "null" end
             else stderr))%string]
  /\ commands (exec (activate env) s) = commands s
  /\ spawned (exec (activate env) s) = spawned s.
Proof.
  unfold exec, activate, ensureAgentServerSetup, try_catch, bind.
  rewrite Hmissing, Hsetup.
  destruct code as [[|p|p]|]; try congruence; cbn [fst snd appendLine];
    (destruct (stderr =? "")%string eqn:Hs;
     [ cbn; rewrite <- app_assoc; repeat split
     | cbn; unfold message_or_string; cbn [message Error]; rewrite Hs; cbn;
       rewrite <- app_assoc; repeat split ]).
Qed.

Lemma setup_failure_notified_twice_witness :
  errorMessages (exec (activate Scenario.missing_venv) initial)
  = ["[OSAE] AI runtime setup failed. See OSAE output for details.";
     "[OSAE] Failed to initialize AI runtime: pip: not found"].
Proof.
  destruct (setup_failure_notified_twice Scenario.missing_venv initial
              (Some 1%Z) "pip: not found" false eq_refl eq_refl) as [H _].
  - discriminate.
  - exact H.
Defined.

End SetupFacts.
